(** * Command construction and error-log scanning of bamboo/common_python/tools.py

    A shallow embedding of [check_list], [get_command],
    [process_executable_existence] and [get_error_line], followed by the
    properties the specification states about them.

    Modelling conventions.
    - Python values that reach a formatting or a membership test are [pyval];
      the keyword arguments of [get_command] are a record whose fields carry
      the type the callers use ([option string] for paths and names,
      [option Z] for counts and minutes, [bool] for switches).
    - [raise Exception(msg)], [pytest.skip(msg)] and the [OverflowError]
      that [float] raises on an int too large are the abnormal results of
      [outcome]; sequencing is the bind of that type.
    - What the function reads from outside its arguments (environment
      variables, the file system, the text of a converted
      [data_reader_percent]) is an explicit [environment].
    - [float] on an int and the division of two such floats are computed
      exactly as binary64 arithmetic does (round to nearest, ties to even),
      on integers: a float that comes from an int is an integer. *)

From Stdlib Require Import ZArith List String Ascii Bool Lia DecimalString.
From Stdlib Require Import Sorted Permutation.
From Stdlib Require DecimalZ DecimalPos.
Import ListNotations.
Local Open Scope string_scope.
Local Open Scope Z_scope.

(** ** Python strings *)

(** The double-quote character, used inside two option strings. *)
Definition dquote : string := String "034"%char EmptyString.

(** [s.startswith(p)]. *)
Fixpoint starts_with (p s : string) : bool :=
  match p, s with
  | EmptyString, _ => true
  | String a p', String b s' => Ascii.eqb a b && starts_with p' s'
  | String _ _, EmptyString => false
  end.

(** [sub in s] on strings. *)
Fixpoint py_in (sub s : string) : bool :=
  starts_with sub s ||
  match s with
  | EmptyString => false
  | String _ s' => py_in sub s'
  end.

(** [sep.join(l)]. *)
Definition join (sep : string) (l : list string) : string := String.concat sep l.

(** ['%d' % z] and [str(z)] for an integer. *)
Definition fmt_d (z : Z) : string := NilZero.string_of_int (Z.to_int z).

(** [x in l] for a list of strings. *)
Definition in_list (x : string) (l : list string) : bool :=
  existsb (String.eqb x) l.

(** ** Python values

    The values an argument that is printed with [str] takes in this model:
    [None], a bool, an int or a string. Values of other types (lists,
    floats, objects) are left out, so a statement over [pyval] says nothing
    about a call that passes one. *)

Inductive pyval : Type :=
| PyNone
| PyBool (b : bool)
| PyInt (z : Z)
| PyStr (s : string).

(** [str(v)], which is also what ['%s' % v] and ['{x}'.format(x=v)] print. *)
Definition py_str (v : pyval) : string :=
  match v with
  | PyNone => "None"
  | PyBool true => "True"
  | PyBool false => "False"
  | PyInt z => fmt_d z
  | PyStr s => s
  end.

Definition of_str (o : option string) : pyval :=
  match o with Some s => PyStr s | None => PyNone end.

Definition of_int (o : option Z) : pyval :=
  match o with Some z => PyInt z | None => PyNone end.

Definition is_some {A : Type} (o : option A) : bool :=
  match o with Some _ => true | None => false end.

Definition is_none {A : Type} (o : option A) : bool := negb (is_some o).

Definition nonempty {A : Type} (l : list A) : bool :=
  match l with [] => false | _ :: _ => true end.

(** [l.append(x)], as a new list. *)
Definition append {A : Type} (l : list A) (x : A) : list A := (l ++ [x])%list.

(** ** check_list (lines 4-10) *)

(** The body of the inner loop: one candidate value against one substring. *)
Definition check_one (str : pyval) (errors : list string) (substring : string)
  : list string :=
  match str with
  | PyStr s =>
      if py_in substring s
      then append errors (s ++ " contains " ++ substring)
      else errors
  | _ => errors
  end.

Definition check_list (substrings : list string) (strings : list pyval)
  : list string :=
  fold_left
    (fun errors str => fold_left (check_one str) substrings errors)
    strings [].

(** ** Results of a call *)

(** [Raise msg] is [raise Exception(msg)], [Skip msg] is [pytest.skip(msg)]
    and [OverflowError] is the exception of that name, which [float] raises
    on an int too large to convert. *)
Inductive outcome (A : Type) : Type :=
| Return (a : A)
| Raise (msg : string)
| Skip (msg : string)
| OverflowError.

Arguments Return {A} a.
Arguments Raise {A} msg.
Arguments Skip {A} msg.
Arguments OverflowError {A}.

Definition bind {A B : Type} (m : outcome A) (k : A -> outcome B) : outcome B :=
  match m with
  | Return a => k a
  | Raise msg => Raise msg
  | Skip msg => Skip msg
  | OverflowError => OverflowError
  end.

Notation "x <- m ;; k" := (bind m (fun x => k))
  (at level 61, m at next level, right associativity).

(** What [get_command] returns: the 4-tuple when [return_tuple] is set, the
    joined string otherwise. *)
Inductive command : Type :=
| CommandTuple (allocate run lbann redirect : string)
| CommandString (s : string).

(** ** The arguments of get_command (lines 13-49) *)

Inductive extra_flags : Type :=
| NotADict
| Dict (items : list (string * pyval)).

Record request : Type := {
  cluster : string;
  executable : string;
  num_nodes : option Z;
  num_processes : option Z;
  partition : option string;
  time_limit : option Z;
  ckpt_dir : option string;
  dir_name : option string;
  data_filedir_default : option string;
  data_filedir_train_default : option string;
  data_filename_train_default : option string;
  data_filedir_test_default : option string;
  data_filename_test_default : option string;
  data_reader_name : option string;
  data_reader_path : option string;
  data_reader_percent : pyval;
  exit_after_setup : bool;
  metadata : option string;
  mini_batch_size : option Z;
  model_folder : option string;
  model_name : option string;
  model_path : option string;
  num_epochs : option Z;
  optimizer_name : option string;
  optimizer_path : option string;
  processes_per_model : option Z;
  extra_lbann_flags : option extra_flags;
  error_file_name : option string;
  output_file_name : option string;
  check_executable_existence : bool;
  return_tuple : bool;
  skip_no_exe : bool;
  weekly : bool
}.

Record environment : Type := {
  getenv : string -> option string;
  path_exists : string -> bool;
  float_str : pyval -> option string
}.

(** ** The blacklist gate (lines 52-82) *)

Definition blacklist : list string := [";"; "--"].

(** The list [strings] as first built (lines 53-68). *)
Definition scalar_strings (r : request) : list pyval :=
  [ PyStr (cluster r); PyStr (executable r);
    of_int (num_nodes r); of_int (num_processes r); of_str (partition r);
    of_int (time_limit r);
    of_str (ckpt_dir r); of_str (dir_name r); of_str (data_filedir_default r);
    of_str (data_filedir_train_default r);
    of_str (data_filename_train_default r);
    of_str (data_filedir_test_default r);
    of_str (data_filename_test_default r); of_str (data_reader_name r);
    of_str (data_reader_path r);
    data_reader_percent r; PyBool (exit_after_setup r); of_str (metadata r);
    of_int (mini_batch_size r);
    of_str (model_folder r); of_str (model_name r); of_str (model_path r);
    of_int (num_epochs r); of_str (optimizer_name r);
    of_str (optimizer_path r); of_int (processes_per_model r);
    of_str (error_file_name r); of_str (output_file_name r);
    PyBool (check_executable_existence r); PyBool (return_tuple r);
    PyBool (skip_no_exe r); PyBool (weekly r) ].

Definition not_a_dict_error : string :=
  "extra_lbann_flags must be a dict e.g. `{flag : None, flag: 4}`. Use `None` if a flag has no value attached to it.".

(** Lines 69-78: the first entry of [lbann_errors] and the extension of
    [strings] by the keys and then the values of the dict. *)
Definition scan_extra_flags (r : request) (strings : list pyval)
  : list string * list pyval :=
  match extra_lbann_flags r with
  | None => ([], strings)
  | Some NotADict => ([not_a_dict_error], strings)
  | Some (Dict items) =>
      ([], (strings ++ map (fun kv => PyStr (fst kv)) items
                    ++ map snd items)%list)
  end.

(** Lines 79-82. *)
Definition blacklist_gate (strings : list pyval) : outcome unit :=
  let invalid_character_errors := check_list blacklist strings in
  if nonempty invalid_character_errors
  then Raise ("Invalid character(s): " ++ join " , " invalid_character_errors)
  else Return tt.

(** ** Time limit (lines 84-92) *)

Definition DEFAULT_TIME : Z := 35.
Definition MAX_TIME : Z := 360.

Definition resolve_time_limit (time_limit : option Z) (weekly : bool) : Z :=
  let time_limit :=
    match time_limit with
    | None => if weekly then MAX_TIME else DEFAULT_TIME
    | Some t => t
    end in
  if time_limit >? MAX_TIME then MAX_TIME else time_limit.

(** ** Executable existence (lines 94-96, 526-535) *)

Definition process_executable_existence
  (env : environment) (executable : string) (skip_no_exe : bool) : outcome unit :=
  if path_exists env executable then Return tt
  else
    let error_string := "Executable does not exist: " ++ executable in
    if skip_no_exe then Skip error_string else Raise error_string.

(** ** Scheduler (lines 98-104) *)

Inductive scheduler : Type := slurm | lsf.

Definition determine_scheduler (cluster : string) : outcome scheduler :=
  if in_list cluster ["catalyst"; "corona"; "pascal"] then Return slurm
  else if in_list cluster ["lassen"; "ray"] then Return lsf
  else Raise ("Unsupported Cluster: " ++ cluster).

(** ** Floats of integers (lines 189-190, 242-243, 401)

    A binary64 float has 53 significant bits. *)

(** [n / d] rounded to the nearest integer, ties to the even one, for
    [0 <= n] and [0 < d]. *)
Definition round_half_even (n d : Z) : Z :=
  let q := n / d in
  let r := n mod d in
  if 2 * r <? d then q
  else if d <? 2 * r then q + 1
  else if Z.even q then q else q + 1.

(** The integer with at most 53 significant bits nearest to [z]. *)
Definition nearest_double (z : Z) : Z :=
  let a := Z.abs z in
  if a <? 2 ^ 53 then z
  else
    let e := Z.log2 a - 52 in
    Z.sgn z * (round_half_even a (2 ^ e) * 2 ^ e).

(** [float(z)] for an int, as the integer the float is equal to. The largest
    finite float is below [2 ^ 1024]. *)
Definition float_of_int (z : Z) : outcome Z :=
  if 2 ^ 1024 <=? Z.abs (nearest_double z) then OverflowError
  else Return (nearest_double z).

(** The [k] with [2 ^ k <= a / b < 2 ^ (k + 1)], for positive [a] and [b]. *)
Definition binade (a b : Z) : Z :=
  let d := Z.log2 a - Z.log2 b in
  if (if 0 <=? d then b * 2 ^ d <=? a else b <=? a * 2 ^ (- d)) then d
  else d - 1.

(** [int(math.ceil(x / y))] for two floats that are the integers [x] and
    [y <> 0]: the quotient is rounded to 53 significant bits, as [m] times
    [2 ^ (- s)], and then raised to the next integer. *)
Definition ceil_of_quotient (x y : Z) : Z :=
  let a := Z.abs x in
  let b := Z.abs y in
  if a =? 0 then 0
  else
    let s := 52 - binade a b in
    let m := if 0 <=? s then round_half_even (a * 2 ^ s) b
             else round_half_even a (b * 2 ^ (- s)) in
    if Bool.eqb (0 <? x) (0 <? y)
    then (if 0 <=? s then - ((- m) / 2 ^ s) else m * 2 ^ (- s))
    else (if 0 <=? s then - (m / 2 ^ s) else - (m * 2 ^ (- s))).

(** The value of [int(math.ceil(float(p) / n))] for a nonzero [n], once
    [float(p)] and the conversion of the divisor [n] have both succeeded. *)
Definition processes_per_node (p n : Z) : Z :=
  ceil_of_quotient (nearest_double p) (nearest_double n).

(** ** Allocation and run commands *)

Definition opt_fmt {A : Type} (o : option A) (f : A -> string) : string :=
  match o with Some a => f a | None => "" end.

(** The separator in front of the run command (lines 144-147, 209-212). *)
Definition space_after (command_allocate : string) : string :=
  if String.eqb command_allocate "" then "" else " ".

(** Lines 110-141. *)
Definition slurm_allocate (env : environment) (cluster : string)
  (num_nodes : option Z) (partition : option string) (time_limit : Z) : string :=
  match getenv env "SLURM_JOB_NUM_NODES" with
  | None =>
      let command_allocate := "salloc" in
      let option_num_nodes :=
        opt_fmt num_nodes (fun n => " --nodes=" ++ fmt_d n) in
      let option_partition :=
        opt_fmt partition (fun p =>
          let p := if in_list cluster ["pascal"] && String.eqb p "pdebug"
                   then "pbatch" else p in
          " --partition=" ++ p) in
      let option_time_limit := " --time=" ++ fmt_d time_limit in
      command_allocate ++ option_num_nodes ++ option_partition
        ++ option_time_limit
  | Some _ => ""
  end.

(** Lines 143-155. *)
Definition slurm_run (command_allocate : string) (num_processes : option Z)
  (time_limit : Z) : string :=
  let space := space_after command_allocate in
  let command_run := space ++ "srun --mpibind=off --time=" ++ fmt_d time_limit in
  let option_num_processes :=
    opt_fmt num_processes (fun n => " --ntasks=" ++ fmt_d n) in
  command_run ++ option_num_processes.

(** Lines 195-198: the clamp applied on ray inside the lsf allocation. *)
Definition ray_clamp (cluster : string) (time_limit : Z) : Z :=
  if String.eqb cluster "ray"
  then (if time_limit >? 480 then 480 else time_limit)
  else time_limit.

(** Lines 159-206. The time limit is reassigned on ray, so the function
    returns it next to the allocation command. The conversions to float of
    lines 189-190 are [count_conversions] below, which [get_command] runs
    before the commands are built; the text here is the one built when they
    succeed. *)
Definition lsf_allocate (env : environment) (cluster : string)
  (num_nodes num_processes : option Z) (partition : option string)
  (time_limit : Z) : string * Z :=
  if is_none (getenv env "LSB_HOSTS") && is_none (getenv env "LSB_JOBID") then
    let command_allocate := "bsub" in
    let option_exclusive :=
      if negb (String.eqb cluster "lassen") then " -x" else "" in
    let option_group := " -G guests" in
    let option_interactive := " -Is" in
    let '(option_num_nodes, option_num_processes, option_processes_per_node) :=
      if String.eqb cluster "lassen"
      then (" -nnodes " ++ py_str (of_int num_nodes), "", "")
      else
        match num_processes with
        | Some p =>
            ("", " -n " ++ fmt_d p,
             match num_nodes with
             | Some n =>
                 if negb (n =? 0)
                 then " -R " ++ dquote ++ "span[ptile="
                        ++ fmt_d (processes_per_node p n) ++ "]" ++ dquote
                 else ""
             | None => ""
             end)
        | None => ("", "", "")
        end in
    let option_partition := opt_fmt partition (fun q => " -q " ++ q) in
    let time_limit := ray_clamp cluster time_limit in
    let option_time_limit := " -W " ++ fmt_d time_limit in
    (command_allocate ++ option_exclusive ++ option_group
       ++ option_interactive ++ option_num_processes ++ option_partition
       ++ option_num_nodes ++ option_processes_per_node ++ option_time_limit,
     time_limit)
  else ("", time_limit).

(** Lines 218-244: the options of the lsf run command, concatenated in the
    order of the format at lines 245-249 (options left empty add nothing).
    The conversions to float of lines 242-243 are [count_conversions]. *)
Definition lsf_run_options (cluster : string)
  (num_nodes num_processes : option Z) : string :=
  match num_processes with
  | Some p =>
      if String.eqb cluster "lassen" then
        let option_bind := " -b " ++ dquote ++ "packed:10" ++ dquote in
        let option_cpu_per_resource := " -c 40" in
        let option_gpu_per_resource := " -g 4" in
        let option_launch_distribution := " -d packed" in
        let p := if p >? 16 then 16 else p in
        let option_num_processes := " -n " ++ fmt_d p in
        let option_resources_per_host := " -r 1" in
        let option_tasks_per_resource := " -a 4" in
        option_bind ++ option_cpu_per_resource ++ option_gpu_per_resource
          ++ option_launch_distribution ++ option_num_processes
          ++ option_resources_per_host ++ option_tasks_per_resource
      else
        let option_num_processes := " -np " ++ fmt_d p in
        let option_processes_per_node :=
          match num_nodes with
          | Some n =>
              if negb (n =? 0) then " -N " ++ fmt_d (processes_per_node p n)
              else ""
          | None => ""
          end in
        option_num_processes ++ option_processes_per_node
  | None => ""
  end.

(** Lines 208-249. *)
Definition lsf_run (cluster command_allocate : string)
  (num_nodes num_processes : option Z) (time_limit : Z) : string :=
  let space := space_after command_allocate in
  let command_run :=
    if String.eqb cluster "lassen"
    then space ++ "jsrun"
    else space ++ "mpirun --timeout=" ++ fmt_d time_limit in
  command_run ++ lsf_run_options cluster num_nodes num_processes.

(** Lines 108-252: both commands for the scheduler at hand. *)
Definition scheduler_commands (env : environment) (sch : scheduler)
  (r : request) (time_limit : Z) : string * string :=
  match sch with
  | slurm =>
      let command_allocate :=
        slurm_allocate env (cluster r) (num_nodes r) (partition r) time_limit in
      (command_allocate,
       slurm_run command_allocate (num_processes r) time_limit)
  | lsf =>
      let '(command_allocate, time_limit) :=
        lsf_allocate env (cluster r) (num_nodes r) (num_processes r)
          (partition r) time_limit in
      (command_allocate,
       lsf_run (cluster r) command_allocate (num_nodes r) (num_processes r)
         time_limit)
  end.

(** The conversions to float of lines 189-190 and 242-243: [float] of the
    process count, then of the node count as the divisor. They are reached
    on an lsf cluster other than lassen when a process count and a nonzero
    node count are given; the run command evaluates them whether or not an
    allocation is made. *)
Definition count_conversions (sch : scheduler) (r : request) : outcome unit :=
  match sch, num_processes r, num_nodes r with
  | lsf, Some p, Some n =>
      if negb (String.eqb (cluster r) "lassen") && negb (n =? 0)
      then _ <- float_of_int p ;; _ <- float_of_int n ;; Return tt
      else Return tt
  | _, _, _ => Return tt
  end.

(** ** re.sub on the two fixed patterns *)

Definition is_lower (c : ascii) : bool :=
  let n := nat_of_ascii c in (97 <=? n)%nat && (n <=? 122)%nat.

(** The pattern [[a-z]scratch[a-z]] matches at the front of [s]. *)
Definition scratch_at (s : string) : bool :=
  match s with
  | String c s' =>
      is_lower c && starts_with "scratch" s' &&
      match String.get 7 s' with
      | Some c' => is_lower c'
      | None => false
      end
  | EmptyString => false
  end.

(** Leftmost, non-overlapping replacement of a pattern whose matches all
    have [len] characters; [skip] counts the characters of the current match
    still to be dropped. *)
Fixpoint sub_from (matches : string -> bool) (len : nat) (repl : string)
  (skip : nat) (s : string) : string :=
  match s with
  | EmptyString => EmptyString
  | String c s' =>
      match skip with
      | S k => sub_from matches len repl k s'
      | O =>
          if matches s
          then repl ++ sub_from matches len repl (len - 1) s'
          else String c (sub_from matches len repl 0 s')
      end
  end.

(** [re.sub('[a-z]scratch[a-z]', repl, s)]. *)
Definition sub_scratch (repl s : string) : string :=
  sub_from scratch_at 9 repl 0 s.

(** [re.sub('labels', 'original/labels', s)]. *)
Definition sub_labels (s : string) : string :=
  sub_from (starts_with "labels") 6 "original/labels" 0 s.

(** ** LBANN flags: path resolution (lines 270-315) *)

Definition model_path_conflict : string :=
  "model_path is set but so is at least one of model folder and model_name".
Definition model_folder_alone : string := "model_folder set but not model_name.".
Definition model_name_alone : string := "model_name set but not model_folder.".
Definition data_reader_conflict : string :=
  "data_reader_path is set but so is data_reader_name".
Definition optimizer_conflict : string :=
  "optimizer_path is set but so is optimizer_name".
Definition dir_name_unused : string :=
  "dir_name set but none of model_folder, model_name, data_reader_name, optimizer_name are.".
Definition dir_name_missing : string :=
  "dir_name is not set but at least one of model_folder, model_name, data_reader_name, optimizer_name is.".

(** Lines 281-293, under [dir_name is not None]. *)
Definition resolve_model (r : request) (dir : string)
  (option_model : string) (lbann_errors : list string) : string * list string :=
  match model_path r with
  | Some _ =>
      if is_some (model_folder r) || is_some (model_name r)
      then (option_model, append lbann_errors model_path_conflict)
      else (option_model, lbann_errors)
  | None =>
      match model_folder r, model_name r with
      | Some f, Some n =>
          (" --model=" ++ dir ++ "/model_zoo/" ++ f ++ "/model_" ++ n
             ++ ".prototext", lbann_errors)
      | Some _, None => (option_model, append lbann_errors model_folder_alone)
      | None, Some _ => (option_model, append lbann_errors model_name_alone)
      | None, None => (option_model, lbann_errors)
      end
  end.

(** Lines 294-299. *)
Definition resolve_data_reader (r : request) (dir : string)
  (option_data_reader : string) (lbann_errors : list string)
  : string * list string :=
  match data_reader_name r with
  | Some n =>
      match data_reader_path r with
      | Some _ => (option_data_reader, append lbann_errors data_reader_conflict)
      | None =>
          (" --reader=" ++ dir ++ "/model_zoo/data_readers/data_reader_" ++ n
             ++ ".prototext", lbann_errors)
      end
  | None => (option_data_reader, lbann_errors)
  end.

(** Lines 300-305. *)
Definition resolve_optimizer (r : request) (dir : string)
  (option_optimizer : string) (lbann_errors : list string)
  : string * list string :=
  match optimizer_name r with
  | Some n =>
      match optimizer_path r with
      | Some _ => (option_optimizer, append lbann_errors optimizer_conflict)
      | None =>
          (" --optimizer=" ++ dir ++ "/model_zoo/optimizers/opt_" ++ n
             ++ ".prototext", lbann_errors)
      end
  | None => (option_optimizer, lbann_errors)
  end.

(** Some field that needs [dir_name] is set (lines 306-307, 311-312). *)
Definition names_set (r : request) : bool :=
  is_some (model_folder r) || is_some (model_name r)
  || is_some (data_reader_name r) || is_some (optimizer_name r).

(** Lines 270-315: the three path options and the extended error list. *)
Definition resolve_paths (r : request) (lbann_errors : list string)
  : string * string * string * list string :=
  let option_model := opt_fmt (model_path r) (fun p => " --model=" ++ p) in
  let option_data_reader :=
    opt_fmt (data_reader_path r) (fun p => " --reader=" ++ p) in
  let option_optimizer :=
    opt_fmt (optimizer_path r) (fun p => " --optimizer=" ++ p) in
  match dir_name r with
  | Some dir =>
      let '(option_model, lbann_errors) :=
        resolve_model r dir option_model lbann_errors in
      let '(option_data_reader, lbann_errors) :=
        resolve_data_reader r dir option_data_reader lbann_errors in
      let '(option_optimizer, lbann_errors) :=
        resolve_optimizer r dir option_optimizer lbann_errors in
      let lbann_errors :=
        if negb (names_set r) then append lbann_errors dir_name_unused
        else lbann_errors in
      (option_model, option_data_reader, option_optimizer, lbann_errors)
  | None =>
      let lbann_errors :=
        if names_set r then append lbann_errors dir_name_missing
        else lbann_errors in
      (option_model, option_data_reader, option_optimizer, lbann_errors)
  end.

(** ** LBANN flags: data files (lines 316-395) *)

Definition data_file_parameters (r : request) : list (option string) :=
  [ data_filedir_train_default r; data_filename_train_default r;
    data_filedir_test_default r; data_filename_test_default r ].

(** Lines 322-359: the five data-file options, in emission order. *)
Definition data_file_options (r : request) : string :=
  match data_filedir_default r with
  | Some d =>
      if in_list (cluster r) ["catalyst"; "corona"; "pascal"] then ""
      else if String.eqb (cluster r) "lassen"
      then " --data_filedir=" ++ sub_scratch "gpfs1" d
      else if String.eqb (cluster r) "ray"
      then " --data_filedir=" ++ sub_scratch "gscratchr" d
      else ""
  | None =>
      match data_filedir_train_default r, data_filename_train_default r,
            data_filedir_test_default r, data_filename_test_default r with
      | Some dtr, Some ftr, Some dte, Some fte =>
          if in_list (cluster r) ["catalyst"; "corona"; "pascal"] then ""
          else if String.eqb (cluster r) "lassen" then
            let filename_train := sub_labels (sub_scratch "gpfs1" ftr) in
            let filename_test := sub_labels (sub_scratch "gpfs1" fte) in
            " --data_filedir_train=" ++ sub_scratch "gpfs1" dtr
              ++ " --data_filename_train=" ++ filename_train
              ++ " --data_filedir_test=" ++ sub_scratch "gpfs1" dte
              ++ " --data_filename_test=" ++ filename_test
          else if String.eqb (cluster r) "ray" then
            " --data_filedir_train=" ++ sub_scratch "gscratchr" dtr
              ++ " --data_filename_train=" ++ sub_scratch "gscratchr" ftr
              ++ " --data_filedir_test=" ++ sub_scratch "gscratchr" dte
              ++ " --data_filename_test=" ++ sub_scratch "gscratchr" fte
          else ""
      | _, _, _, _ => ""
      end
  end.

Definition both_shapes : string :=
  "data_fildir_default set but so is at least one of [data_filedir_train_default, data_filename_train_default, data_filedir_test_default, data_filename_test_default]".
Definition reader_without_data : string :=
  "data_reader_name or data_reader_path is set but not data_filedir_default. If a data reader is provided, the default filedir must be set. This allows for determining what the filedir should be on each cluster. Alternatively, some or all of [data_filedir_train_default, data_filename_train_default, data_filedir_test_default, data_filename_test_default] can be set.".
Definition filedir_without_reader : string :=
  "data_filedir_default set but neither data_reader_name or data_reader_path are.".
Definition files_without_reader : string :=
  "At least one of [data_filedir_train_default, data_filename_train_default, data_filedir_test_default, data_filename_test_default] is set, but neither data_reader_name or data_reader_path are.".

(** Lines 360-395. *)
Definition check_data_reader (r : request) (lbann_errors : list string)
  : list string :=
  let all_none := forallb is_none (data_file_parameters r) in
  if is_some (data_reader_name r) || is_some (data_reader_path r) then
    match data_filedir_default r with
    | Some _ =>
        if negb all_none then append lbann_errors both_shapes
        else lbann_errors
    | None =>
        if all_none then
          match data_reader_name r with
          | Some n =>
              if String.eqb n "synthetic" then lbann_errors
              else append lbann_errors reader_without_data
          | None => append lbann_errors reader_without_data
          end
        else lbann_errors
    end
  else
    match data_filedir_default r with
    | Some _ => append lbann_errors filedir_without_reader
    | None =>
        if nonempty (filter is_some (data_file_parameters r))
        then append lbann_errors files_without_reader
        else lbann_errors
    end.

(** ** LBANN flags: the remaining options (lines 397-493) *)

(** Line 401, for the exception that [except ValueError] does not catch:
    [float] of an int too large raises [OverflowError]. A bool or a string
    never does ([float] of a string with a large value is [inf]). *)
Definition percent_conversion (r : request) : outcome unit :=
  match data_reader_percent r with
  | PyInt z => _ <- float_of_int z ;; Return tt
  | _ => Return tt
  end.

(** Lines 397-413, once [percent_conversion] has succeeded.
    [float_str env v] is [str(float(v))], or [None] when [float(v)] raises
    [ValueError]; the value is then left as it was. *)
Definition percent_option (env : environment) (r : request)
  (lbann_errors : list string) : string * list string :=
  match data_reader_percent r with
  | PyNone =>
      (" --data_reader_percent=" ++ (if weekly r then "1.0" else "0.1"),
       lbann_errors)
  | v =>
      match float_str env v with
      | Some f => (" --data_reader_percent=" ++ f, lbann_errors)
      | None =>
          (" --data_reader_percent=" ++ py_str v,
           append lbann_errors
             ("data_reader_percent=" ++ py_str v ++ " is not a float."))
      end
  end.

Definition allowed_flags : list string :=
  [ "block_size"; "procs_per_trainer"; "num_gpus"; "num_parallel_readers";
    "num_io_threads"; "serialize_io"; "disable_background_io_activity";
    "disable_cuda"; "random_seed"; "objective_function"; "data_layout";
    "print_affinity"; "use_data_store"; "preload_data_store"; "super_node";
    "write_sample_list"; "ltfb_verbose"; "ckpt_dir";
    "index_list_train"; "index_list_test"; "label_filename_train";
    "label_filename_test"; "share_testing_data_readers";
    "image_dir"; "no_im_comm" ].

(** [str(l)] for a list of plain identifiers. *)
Definition repr_list (l : list string) : string :=
  "[" ++ join ", " (map (fun s => "'" ++ s ++ "'") l) ++ "]".

(** [sorted(d.items())]: the keys of a dict are pairwise distinct, so the
    order is decided by the keys alone. *)
Fixpoint insert_item (kv : string * pyval) (l : list (string * pyval))
  : list (string * pyval) :=
  match l with
  | [] => [kv]
  | h :: t =>
      if String.leb (fst kv) (fst h) then kv :: h :: t
      else h :: insert_item kv t
  end.

Definition sorted_items (items : list (string * pyval))
  : list (string * pyval) :=
  fold_right insert_item [] items.

Definition invalid_flag (flag : string) : string :=
  "extra_lbann_flags includes invalid flag=" ++ flag ++ ". Flags must be in "
    ++ repr_list allowed_flags ++ ".".

(** The body of the loop at lines 483-493. *)
Definition extra_step (acc : string * list string) (item : string * pyval)
  : string * list string :=
  let '(extra_options, lbann_errors) := acc in
  let '(flag, value) := item in
  if in_list flag allowed_flags then
    match value with
    | PyNone => (extra_options ++ " --" ++ flag, lbann_errors)
    | v => (extra_options ++ " --" ++ flag ++ "=" ++ py_str v, lbann_errors)
    end
  else (extra_options, append lbann_errors (invalid_flag flag)).

(** Lines 426-493. *)
Definition extra_options_of (r : request) (lbann_errors : list string)
  : string * list string :=
  match extra_lbann_flags r with
  | Some (Dict items) =>
      fold_left extra_step (sorted_items items) ("", lbann_errors)
  | _ => ("", lbann_errors)
  end.

(** Lines 254-504: the application command and the final [lbann_errors],
    from the list as the gate left it. *)
Definition lbann_command (env : environment) (r : request)
  (lbann_errors : list string) : string * list string :=
  let '(option_model, option_data_reader, option_optimizer, lbann_errors) :=
    resolve_paths r lbann_errors in
  let option_data_files := data_file_options r in
  let lbann_errors := check_data_reader r lbann_errors in
  let '(option_data_reader_percent, lbann_errors) :=
    percent_option env r lbann_errors in
  let option_exit_after_setup :=
    if exit_after_setup r then " --exit_after_setup" else "" in
  let option_metadata :=
    opt_fmt (metadata r) (fun m =>
      " --metadata=" ++ py_str (of_str (dir_name r)) ++ "/" ++ m) in
  let option_mini_batch_size :=
    opt_fmt (mini_batch_size r) (fun n => " --mini_batch_size=" ++ fmt_d n) in
  let option_num_epochs :=
    opt_fmt (num_epochs r) (fun n => " --num_epochs=" ++ fmt_d n) in
  let option_processes_per_model :=
    opt_fmt (processes_per_model r) (fun n =>
      " --procs_per_model=" ++ fmt_d n) in
  let option_ckpt_dir :=
    opt_fmt (ckpt_dir r) (fun d => " --ckpt_dir=" ++ d) in
  let '(extra_options, lbann_errors) := extra_options_of r lbann_errors in
  (executable r ++ option_ckpt_dir ++ option_data_files
     ++ option_data_reader ++ option_data_reader_percent
     ++ option_exit_after_setup ++ option_metadata ++ option_mini_batch_size
     ++ option_model ++ option_num_epochs ++ option_optimizer
     ++ option_processes_per_model ++ extra_options,
   lbann_errors).

(** Lines 506-513. *)
Definition redirect_command (r : request) : string :=
  let command_output := opt_fmt (output_file_name r) (fun f => " > " ++ f) in
  let command_error := opt_fmt (error_file_name r) (fun f => " 2> " ++ f) in
  command_output ++ command_error.

(** Lines 515-523: what is returned. *)
Definition pack_command (r : request)
  (command_allocate command_run command_lbann command_redirect : string)
  : command :=
  if return_tuple r
  then CommandTuple command_allocate command_run command_lbann command_redirect
  else CommandString (command_allocate ++ command_run ++ " " ++ command_lbann
                        ++ command_redirect).

(** ** get_command (lines 13-523)

    The calls to [print] write to standard output only and are left out.
    Between the cluster test and the raise at line 496 nothing but a
    conversion to float can raise, and every conversion raises the same
    [OverflowError]; each is run ahead of the text of the command it belongs
    to. *)

Definition get_command (env : environment) (r : request) : outcome command :=
  let '(lbann_errors, strings) := scan_extra_flags r (scalar_strings r) in
  _ <- blacklist_gate strings ;;
  let time_limit := resolve_time_limit (time_limit r) (weekly r) in
  _ <- (if check_executable_existence r
        then process_executable_existence env (executable r) (skip_no_exe r)
        else Return tt) ;;
  sch <- determine_scheduler (cluster r) ;;
  _ <- count_conversions sch r ;;
  let '(command_allocate, command_run) :=
    scheduler_commands env sch r time_limit in
  _ <- percent_conversion r ;;
  let '(command_lbann, lbann_errors) := lbann_command env r lbann_errors in
  if nonempty lbann_errors
  then Raise ("Invalid Usage: " ++ join " , " lbann_errors)
  else
    let command_redirect := redirect_command r in
    Return (pack_command r command_allocate command_run command_lbann
              command_redirect).

(** ** get_error_line (lines 601-619) *)

Definition error_markers : list string :=
  [ "ERROR"; "LBANN error"; "Error:"; "Expired or invalid job";
    "Segmentation fault (core dumped)"; "Relinquishing job allocation" ].

Definition trace_markers : list string :=
  [ "Stack trace:"; "Error is not recoverable: exiting now" ].

Definition has_marker (markers : list string) (line : string) : bool :=
  existsb (fun m => py_in m line) markers.

(** The loop over the lines of the file, with [previous_line] as state; a
    [break] ends the recursion and the value of [error_line] is returned. *)
Fixpoint scan_lines (previous_line : string) (lines : list string) : string :=
  match lines with
  | [] => ""
  | line :: rest =>
      if has_marker error_markers line then line
      else if has_marker trace_markers line then previous_line
      else scan_lines line rest
  end.

(** [get_error_line], on the lines the open file yields. *)
Definition get_error_line (error_file : list string) : string :=
  scan_lines "" error_file.

(** What a file opened with [open(name, 'r')] hands over for the decoded
    characters [text]: carriage return followed by line feed, and a carriage
    return on its own, are read as one line feed. [after_cr] says that the
    character before was a carriage return. *)
Fixpoint translate_newlines (after_cr : bool) (text : string) : string :=
  match text with
  | EmptyString => EmptyString
  | String c text' =>
      if Ascii.eqb c "013"%char
      then String "010"%char (translate_newlines true text')
      else if Ascii.eqb c "010"%char && after_cr
      then translate_newlines false text'
      else String c (translate_newlines false text')
  end.

(** The lines of a translated text: each ends with its line feed, except
    possibly the last. *)
Fixpoint file_lines_from (current : string) (text : string) : list string :=
  match text with
  | EmptyString =>
      match current with EmptyString => [] | _ => [current] end
  | String c text' =>
      if Ascii.eqb c "010"%char
      then (current ++ String c EmptyString) :: file_lines_from "" text'
      else file_lines_from (current ++ String c EmptyString) text'
  end.

(** The lines a text file yields when iterated (line 603). *)
Definition file_lines (text : string) : list string :=
  file_lines_from "" (translate_newlines false text).

(** ** process_executable (lines 538-547) *)

(** A Python dict from strings to strings, in insertion order. *)
Definition dict : Type := list (string * string).

(** [d.get(k)]: [None] when [k not in d]. *)
Fixpoint dict_get (d : dict) (k : string) : option string :=
  match d with
  | [] => None
  | (k', v) :: d' => if String.eqb k k' then Some v else dict_get d' k
  end.

(** [d[k] = v]: the value is replaced in place when the key is present,
    and the item is added at the end otherwise. *)
Fixpoint dict_set (d : dict) (k v : string) : dict :=
  match d with
  | [] => [(k, v)]
  | (k', v') :: d' =>
      if String.eqb k k' then (k', v) :: d' else (k', v') :: dict_set d' k v
  end.

(** [list(d.keys())]. *)
Definition dict_keys (d : dict) : list string := map fst d.

Definition process_executable (env : environment)
  (name compiler_name : string) (executables : dict) : outcome unit :=
  match dict_get executables compiler_name with
  | None =>
      Skip (name ++ ": default_exes[" ++ compiler_name ++ "] does not exist")
  | Some executable_path =>
      process_executable_existence env executable_path true
  end.

(** ** get_spack_exes and get_default_exes (lines 550-598) *)

Definition spack_exe (default_dirname cluster build : string) : string :=
  default_dirname ++ "/bamboo/compiler_tests/builds/" ++ cluster ++ "_" ++ build
    ++ "/build/model_zoo/lbann".

Definition script_exe (default_dirname cluster build : string) : string :=
  default_dirname ++ "/build/" ++ build ++ "." ++ cluster
    ++ ".llnl.gov/install/bin/lbann".

Definition get_spack_exes (default_dirname cluster : string) : dict :=
  let exes := [] in
  let exes :=
    dict_set exes "clang6" (spack_exe default_dirname cluster "clang-6.0.0_rel") in
  let exes :=
    dict_set exes "gcc7" (spack_exe default_dirname cluster "gcc-7.1.0_rel") in
  let exes :=
    dict_set exes "intel19"
      (spack_exe default_dirname cluster "intel-19.0.0_rel") in
  let exes :=
    dict_set exes "clang6_debug"
      (spack_exe default_dirname cluster "clang-6.0.0_debug") in
  let exes :=
    dict_set exes "gcc7_debug"
      (spack_exe default_dirname cluster "gcc-7.1.0_debug") in
  let exes :=
    dict_set exes "intel19_debug"
      (spack_exe default_dirname cluster "intel-19.0.0_debug") in
  exes.

(** Lines 567-579: [if not os.path.exists(exes[k]): exes[k] = fallback], for
    a key the dict holds. *)
Definition backup_exe (env : environment) (exes : dict) (k fallback : string)
  : dict :=
  match dict_get exes k with
  | Some path => if path_exists env path then exes else dict_set exes k fallback
  | None => exes
  end.

(** Lines 588-594: [default_exes[k] = exes[k]], for a key [exes] holds. *)
Definition copy_exe (exes default_exes : dict) (k : string) : dict :=
  match dict_get exes k with
  | Some path => dict_set default_exes k path
  | None => default_exes
  end.

Definition get_default_exes (env : environment)
  (default_dirname cluster : string) : dict :=
  let exes := get_spack_exes default_dirname cluster in
  let exes :=
    backup_exe env exes "clang6"
      (script_exe default_dirname cluster "clang.Release") in
  let exes :=
    backup_exe env exes "gcc7"
      (script_exe default_dirname cluster "gnu.Release") in
  let exes :=
    backup_exe env exes "intel19"
      (script_exe default_dirname cluster "intel.Release") in
  let exes :=
    backup_exe env exes "clang6_debug"
      (script_exe default_dirname cluster "clang.Debug") in
  let exes :=
    backup_exe env exes "gcc7_debug"
      (script_exe default_dirname cluster "gnu.Debug") in
  let exes :=
    backup_exe env exes "intel19_debug"
      (script_exe default_dirname cluster "intel.Debug") in
  let default_exes :=
    dict_set [] "default" (script_exe default_dirname cluster "gnu.Release") in
  if in_list cluster ["catalyst"; "corona"; "lassen"; "pascal"] then
    let default_exes := copy_exe exes default_exes "clang6" in
    let default_exes := copy_exe exes default_exes "gcc7" in
    let default_exes := copy_exe exes default_exes "intel19" in
    let default_exes := copy_exe exes default_exes "clang6_debug" in
    let default_exes := copy_exe exes default_exes "gcc7_debug" in
    let default_exes := copy_exe exes default_exes "intel19_debug" in
    default_exes
  else default_exes.

(** ** Tensor names of the layer parser
       (tools/onnx/lbann_onnx/l2o/layers/__init__.py, lines 23-30, 67-73)

    The fields of the layer [self.l] the names are built from. *)

Record layer : Type := {
  layer_name : string;
  layer_parents : string;
  layer_children : string
}.

(** [s.split(" ")]: the pieces between single spaces; [current] is the piece
    being read. *)
Fixpoint split_from (current s : string) : list string :=
  match s with
  | EmptyString => [current]
  | String c s' =>
      if Ascii.eqb c " "%char then current :: split_from "" s'
      else split_from (current ++ String c EmptyString) s'
  end.

Definition split_space (s : string) : list string := split_from "" s.

Definition getLbannInputNames (l : layer) : list string :=
  map (fun x => x ++ "_0")
    (if negb (String.eqb (layer_parents l) "")
     then split_space (layer_parents l) else []).

Definition getLbannOutputNames (l : layer) : list string :=
  if (0 <? String.length (layer_children l))%nat
  then split_space (layer_children l) else [].

Definition getParamName (l : layer) (i : Z) : string :=
  layer_name l ++ "_p" ++ fmt_d i.

(** [createHiddenTensorName]: the name, and the counter after the call. *)
Definition createHiddenTensorName (l : layer) (hiddenTensorCount : Z)
  : string * Z :=
  let n := layer_name l ++ "_h" ++ fmt_d hiddenTensorCount in
  (n, hiddenTensorCount + 1).

(** The names [k] calls of [createHiddenTensorName] in a row return. *)
Fixpoint hidden_names (l : layer) (hiddenTensorCount : Z) (k : nat)
  : list string :=
  match k with
  | O => []
  | S k' =>
      let '(n, count) := createHiddenTensorName l hiddenTensorCount in
      n :: hidden_names l count k'
  end.

(** ** Names for the stages of a call, used to state the properties *)

(** The list the gate scans: the scalar arguments, then keys and values of
    the extra flags when they are a dict. *)
Definition gate_strings (r : request) : list pyval :=
  snd (scan_extra_flags r (scalar_strings r)).

(** [lbann_errors] as it stands when the gate is reached. *)
Definition initial_errors (r : request) : list string :=
  fst (scan_extra_flags r (scalar_strings r)).

(** The result of lines 94-96. *)
Definition executable_check (env : environment) (r : request) : outcome unit :=
  if check_executable_existence r
  then process_executable_existence env (executable r) (skip_no_exe r)
  else Return tt.

(** The time limit after lines 84-92. *)
Definition resolved_time_limit (r : request) : Z :=
  resolve_time_limit (time_limit r) (weekly r).

(** The conversions to float of a call, in the order they are reached. *)
Definition conversions (sch : scheduler) (r : request) : outcome unit :=
  _ <- count_conversions sch r ;; percent_conversion r.

(** [lbann_errors] at line 494. *)
Definition final_errors (env : environment) (r : request) : list string :=
  snd (lbann_command env r (initial_errors r)).

(** What a call returns once every check has passed, for the scheduler of
    its cluster. *)
Definition built_command (env : environment) (sch : scheduler) (r : request)
  : command :=
  pack_command r
    (fst (scheduler_commands env sch r (resolved_time_limit r)))
    (snd (scheduler_commands env sch r (resolved_time_limit r)))
    (fst (lbann_command env r (initial_errors r)))
    (redirect_command r).

(** What each validation stage adds to [lbann_errors], taken on its own. *)
Definition path_errors (r : request) : list string :=
  snd (resolve_paths r []).

Definition data_errors (r : request) : list string :=
  check_data_reader r [].

Definition percent_errors (env : environment) (r : request) : list string :=
  snd (percent_option env r []).

Definition extra_errors (r : request) : list string :=
  snd (extra_options_of r []).

(** The message one violation of the gate produces, if any. *)
Definition violation (v : pyval) (substring : string) : list string :=
  match v with
  | PyStr s => if py_in substring s then [s ++ " contains " ++ substring] else []
  | _ => []
  end.

(** A copy of the request with another value for [metadata]. *)
Definition with_metadata (r : request) (m : option string) : request := {|
  cluster := cluster r; executable := executable r;
  num_nodes := num_nodes r; num_processes := num_processes r;
  partition := partition r; time_limit := time_limit r;
  ckpt_dir := ckpt_dir r; dir_name := dir_name r;
  data_filedir_default := data_filedir_default r;
  data_filedir_train_default := data_filedir_train_default r;
  data_filename_train_default := data_filename_train_default r;
  data_filedir_test_default := data_filedir_test_default r;
  data_filename_test_default := data_filename_test_default r;
  data_reader_name := data_reader_name r;
  data_reader_path := data_reader_path r;
  data_reader_percent := data_reader_percent r;
  exit_after_setup := exit_after_setup r;
  metadata := m;
  mini_batch_size := mini_batch_size r; model_folder := model_folder r;
  model_name := model_name r; model_path := model_path r;
  num_epochs := num_epochs r; optimizer_name := optimizer_name r;
  optimizer_path := optimizer_path r;
  processes_per_model := processes_per_model r;
  extra_lbann_flags := extra_lbann_flags r;
  error_file_name := error_file_name r;
  output_file_name := output_file_name r;
  check_executable_existence := check_executable_existence r;
  return_tuple := return_tuple r;
  skip_no_exe := skip_no_exe r; weekly := weekly r
|}.

(** The arguments of [get_command] that hold a string or [None]. *)
Definition string_arguments (r : request) : list (option string) :=
  [ Some (cluster r); Some (executable r); partition r; ckpt_dir r;
    dir_name r; data_filedir_default r; data_filedir_train_default r;
    data_filename_train_default r; data_filedir_test_default r;
    data_filename_test_default r; data_reader_name r; data_reader_path r;
    metadata r; model_folder r; model_name r; model_path r;
    optimizer_name r; optimizer_path r; error_file_name r;
    output_file_name r ].

(** [s] is the value of a string-valued scalar argument, or a key or a
    string value of [extra_lbann_flags] when that is a dict. *)
Definition scanned_string (r : request) (s : string) : Prop :=
  In (Some s) (string_arguments r)
  \/ data_reader_percent r = PyStr s
  \/ exists items, extra_lbann_flags r = Some (Dict items)
                   /\ (In s (map fst items) \/ In (PyStr s) (map snd items)).

(** A line with none of the markers of either kind. *)
Definition unmarked (line : string) : bool :=
  negb (has_marker error_markers line) && negb (has_marker trace_markers line).

Definition newline : string := String "010"%char EmptyString.

Definition carriage_return : string := String "013"%char EmptyString.

(** The run command on lassen when a process count is given. *)
Definition jsrun_with (count : Z) : string :=
  "jsrun -b " ++ dquote ++ "packed:10" ++ dquote
    ++ " -c 40 -g 4 -d packed -n " ++ fmt_d count ++ " -r 1 -a 4".

(** ** assert_success and assert_failure (lines 622-645)

    [open_file name] is the list of lines the file of that name yields. *)

Inductive asserted (A : Type) : Type :=
| Holds (a : A)
| AssertionError (msg : string).

Arguments Holds {A} a.
Arguments AssertionError {A} msg.

Definition assert_success (open_file : string -> list string)
  (return_code : Z) (error_file_name : string) : asserted unit :=
  if negb (return_code =? 0) then
    let error_line := get_error_line (open_file error_file_name) in
    AssertionError
      ("return_code=" ++ fmt_d return_code ++ newline ++ error_line ++ newline
         ++ "See " ++ error_file_name)
  else Holds tt.

(** The loop at lines 636-638: some line holds [expected_error]. *)
Fixpoint find_expected (expected_error : string) (lines : list string) : bool :=
  match lines with
  | [] => false
  | line :: rest =>
      if py_in expected_error line then true
      else find_expected expected_error rest
  end.

Definition assert_failure (open_file : string -> list string)
  (return_code : Z) (expected_error error_file_name : string)
  : asserted bool :=
  if return_code =? 0 then
    AssertionError
      ("return_code=" ++ fmt_d return_code ++ newline
         ++ "Success when expecting failure." ++ newline
         ++ "See " ++ error_file_name)
  else if find_expected expected_error (open_file error_file_name)
  then Holds true
  else
    let actual_error := get_error_line (open_file error_file_name) in
    AssertionError
      ("return_code=" ++ fmt_d return_code ++ newline
         ++ "Failed with error different than expected." ++ newline
         ++ "actual_error=" ++ actual_error ++ newline
         ++ "expected_error=" ++ expected_error ++ newline
         ++ "See " ++ error_file_name).

(** ** The lsf allocation flags, as ordered lists *)

(** The ceiling of the rational [p / n]. *)
Definition ceil_div (p n : Z) : Z := - ((- p) / n).

(** The processes-per-host flag of the lsf allocation. *)
Definition ptile_flag (p n : Z) : string :=
  " -R " ++ dquote ++ "span[ptile=" ++ fmt_d (processes_per_node p n) ++ "]"
    ++ dquote.

(** The flags after [bsub] in the order the format at lines 201-204 gives
    them: exclusive host, group, interactive shell, task count, queue, node
    count, processes per host, time limit. *)
Definition lsf_flags_emitted (cluster : string) (n p : option Z)
  (q : option string) (t : Z) : list string :=
  let lassen := String.eqb cluster "lassen" in
  [ if lassen then "" else " -x";
    " -G guests";
    " -Is";
    if lassen then "" else opt_fmt p (fun p => " -n " ++ fmt_d p);
    opt_fmt q (fun q => " -q " ++ q);
    if lassen then " -nnodes " ++ py_str (of_int n) else "";
    if lassen then ""
    else match p, n with
         | Some p, Some n => if n =? 0 then "" else ptile_flag p n
         | _, _ => ""
         end;
    " -W " ++ fmt_d t ].

(** Following the specification's words (section 4.4): exclusive host,
    group, interactive shell, then the node count on lassen and otherwise
    the task count with the processes-per-host flag, then the queue, then
    the time limit. *)
Definition lsf_flags_specified (cluster : string) (n p : option Z)
  (q : option string) (t : Z) : list string :=
  let lassen := String.eqb cluster "lassen" in
  [ if lassen then "" else " -x";
    " -G guests";
    " -Is";
    if lassen then " -nnodes " ++ py_str (of_int n)
    else match p with
         | Some p =>
             " -n " ++ fmt_d p
               ++ match n with
                  | Some n => if n =? 0 then "" else ptile_flag p n
                  | None => ""
                  end
         | None => ""
         end;
    opt_fmt q (fun q => " -q " ++ q);
    " -W " ++ fmt_d t ].

(** No lsf allocation is visible in the environment (line 161). *)
Definition lsf_unallocated (env : environment) : Prop :=
  getenv env "LSB_HOSTS" = None /\ getenv env "LSB_JOBID" = None.

(** A copy of the request with another value for [return_tuple]. *)
Definition with_return_tuple (r : request) (b : bool) : request := {|
  cluster := cluster r; executable := executable r;
  num_nodes := num_nodes r; num_processes := num_processes r;
  partition := partition r; time_limit := time_limit r;
  ckpt_dir := ckpt_dir r; dir_name := dir_name r;
  data_filedir_default := data_filedir_default r;
  data_filedir_train_default := data_filedir_train_default r;
  data_filename_train_default := data_filename_train_default r;
  data_filedir_test_default := data_filedir_test_default r;
  data_filename_test_default := data_filename_test_default r;
  data_reader_name := data_reader_name r;
  data_reader_path := data_reader_path r;
  data_reader_percent := data_reader_percent r;
  exit_after_setup := exit_after_setup r;
  metadata := metadata r;
  mini_batch_size := mini_batch_size r; model_folder := model_folder r;
  model_name := model_name r; model_path := model_path r;
  num_epochs := num_epochs r; optimizer_name := optimizer_name r;
  optimizer_path := optimizer_path r;
  processes_per_model := processes_per_model r;
  extra_lbann_flags := extra_lbann_flags r;
  error_file_name := error_file_name r;
  output_file_name := output_file_name r;
  check_executable_existence := check_executable_existence r;
  return_tuple := b;
  skip_no_exe := skip_no_exe r; weekly := weekly r
|}.

(** The five cluster names [get_command] knows (lines 99-101). *)
Definition known_clusters : list string :=
  ["catalyst"; "corona"; "pascal"; "lassen"; "ray"].

(** An allocation of the scheduler is visible in the environment (lines 112
    and 161). *)
Definition allocated (env : environment) (sch : scheduler) : bool :=
  match sch with
  | slurm => is_some (getenv env "SLURM_JOB_NUM_NODES")
  | lsf =>
      negb (is_none (getenv env "LSB_HOSTS")
            && is_none (getenv env "LSB_JOBID"))
  end.

(** Two environments show a call the same things: the presence of each of
    the three variables, the existence of its executable, and the conversion
    of its [data_reader_percent]. *)
Definition same_view (env env' : environment) (r : request) : Prop :=
  is_some (getenv env "SLURM_JOB_NUM_NODES")
  = is_some (getenv env' "SLURM_JOB_NUM_NODES")
  /\ is_some (getenv env "LSB_HOSTS") = is_some (getenv env' "LSB_HOSTS")
  /\ is_some (getenv env "LSB_JOBID") = is_some (getenv env' "LSB_JOBID")
  /\ path_exists env (executable r) = path_exists env' (executable r)
  /\ float_str env (data_reader_percent r)
     = float_str env' (data_reader_percent r).

(** The text of a returned command, segment by segment. *)
Definition segments (c : command) : list string :=
  match c with
  | CommandTuple allocate run lbann redirect => [allocate; run; lbann; redirect]
  | CommandString s => [s]
  end.

(** An optional string argument holds a semicolon. *)
Definition semi_opt (o : option string) : bool :=
  match o with Some s => py_in ";" s | None => false end.

(** No match of the pattern starts at a position of [pre] in the string
    [pre ++ rest]. *)
Fixpoint no_match_in (matches : string -> bool) (pre rest : string) : bool :=
  match pre with
  | EmptyString => true
  | String c pre' =>
      negb (matches (pre ++ rest)) && no_match_in matches pre' rest
  end.

(** The order of [sorted]: by key. *)
Definition key_le (a b : string * pyval) : Prop :=
  String.leb (fst a) (fst b) = true.

(** The compilers of [get_default_exes]: key, spack build, script build. *)
Definition compiler_builds : list (string * string * string) :=
  [ ("clang6", "clang-6.0.0_rel", "clang.Release");
    ("gcc7", "gcc-7.1.0_rel", "gnu.Release");
    ("intel19", "intel-19.0.0_rel", "intel.Release");
    ("clang6_debug", "clang-6.0.0_debug", "clang.Debug");
    ("gcc7_debug", "gcc-7.1.0_debug", "gnu.Debug");
    ("intel19_debug", "intel-19.0.0_debug", "intel.Debug") ].

(** A value of the candidate list is a string. *)
Definition is_str (v : pyval) : bool :=
  match v with PyStr _ => true | _ => false end.

(** What one allowed extra flag adds to the application command. *)
Definition extra_flag_text (item : string * pyval) : string :=
  match snd item with
  | PyNone => " --" ++ fst item
  | v => " --" ++ fst item ++ "=" ++ py_str v
  end.

(** ** The conditions under which a call is accepted *)

Definition returns {A : Type} (o : outcome A) : bool :=
  match o with Return _ => true | _ => false end.

(** The path arguments agree with each other: with [dir_name], a model is
    given by its path alone or by folder and name together, a data reader
    and an optimizer by name or by path but not both, and some name is
    given; without [dir_name], no name is given. *)
Definition path_consistent (r : request) : bool :=
  match dir_name r with
  | Some _ =>
      match model_path r with
      | Some _ => is_none (model_folder r) && is_none (model_name r)
      | None => Bool.eqb (is_some (model_folder r)) (is_some (model_name r))
      end
      && negb (is_some (data_reader_name r) && is_some (data_reader_path r))
      && negb (is_some (optimizer_name r) && is_some (optimizer_path r))
      && names_set r
  | None => negb (names_set r)
  end.

(** The data reader and the data location agree: a reader comes with the
    single directory alone, or with some of the four train and test
    defaults, or is the synthetic reader; no reader comes with no location
    at all. *)
Definition data_consistent (r : request) : bool :=
  let reader := is_some (data_reader_name r) || is_some (data_reader_path r) in
  let single := is_some (data_filedir_default r) in
  let some_of_four := existsb is_some (data_file_parameters r) in
  if reader then
    if single then negb some_of_four
    else some_of_four
         || match data_reader_name r with
            | Some n => String.eqb n "synthetic"
            | None => false
            end
  else negb single && negb some_of_four.

(** [data_reader_percent] is left out or can be converted by [float]. *)
Definition percent_converts (env : environment) (r : request) : bool :=
  match data_reader_percent r with
  | PyNone => true
  | v => is_some (float_str env v)
  end.

(** No int that the call converts to float is too large: the percentage
    when it is an int, and on ray the process and node counts when both are
    given and the node count is not zero. *)
Definition floats_finite (r : request) : bool :=
  match data_reader_percent r with
  | PyInt z => returns (float_of_int z)
  | _ => true
  end
  && match num_processes r, num_nodes r with
     | Some p, Some n =>
         negb (String.eqb (cluster r) "ray") || (n =? 0)
         || returns (float_of_int p) && returns (float_of_int n)
     | _, _ => true
     end.

(** The extra flags are left out, or are a dict of allowed flags. *)
Definition extras_allowed (r : request) : bool :=
  match extra_lbann_flags r with
  | None => true
  | Some NotADict => false
  | Some (Dict items) =>
      forallb (fun kv => in_list (fst kv) allowed_flags) items
  end.

(** The executable check is off, or the executable exists. *)
Definition executable_found (env : environment) (r : request) : bool :=
  negb (check_executable_existence r) || path_exists env (executable r).

Definition accepted (env : environment) (r : request) : bool :=
  negb (nonempty (check_list blacklist (gate_strings r)))
  && executable_found env r
  && in_list (cluster r) known_clusters
  && extras_allowed r
  && path_consistent r
  && data_consistent r
  && percent_converts env r
  && floats_finite r.

(** What a rule adds to the error list. *)
Definition when (c : bool) (m : string) : list string :=
  if c then [m] else [].

(** ** The usage rules, one by one

    Each rule of lines 69-75 and 280-413 as a condition on the arguments
    with the message it adds, in the order the messages are appended; the
    rules are independent of each other. *)
Definition usage_rules (env : environment) (r : request)
  : list (bool * string) :=
  let dir := is_some (dir_name r) in
  let some_name :=
    is_some (model_folder r) || is_some (model_name r)
    || is_some (data_reader_name r) || is_some (optimizer_name r) in
  let reader := is_some (data_reader_name r) || is_some (data_reader_path r) in
  let single := is_some (data_filedir_default r) in
  let some_of_four :=
    is_some (data_filedir_train_default r)
    || is_some (data_filename_train_default r)
    || is_some (data_filedir_test_default r)
    || is_some (data_filename_test_default r) in
  let synthetic :=
    match data_reader_name r with
    | Some n => String.eqb n "synthetic"
    | None => false
    end in
  [ (match extra_lbann_flags r with Some NotADict => true | _ => false end,
     not_a_dict_error);
    (dir && is_some (model_path r)
       && (is_some (model_folder r) || is_some (model_name r)),
     model_path_conflict);
    (dir && is_none (model_path r)
       && is_some (model_folder r) && is_none (model_name r),
     model_folder_alone);
    (dir && is_none (model_path r)
       && is_none (model_folder r) && is_some (model_name r),
     model_name_alone);
    (dir && is_some (data_reader_name r) && is_some (data_reader_path r),
     data_reader_conflict);
    (dir && is_some (optimizer_name r) && is_some (optimizer_path r),
     optimizer_conflict);
    (dir && negb some_name, dir_name_unused);
    (negb dir && some_name, dir_name_missing);
    (reader && single && some_of_four, both_shapes);
    (reader && negb single && negb some_of_four && negb synthetic,
     reader_without_data);
    (negb reader && single, filedir_without_reader);
    (negb reader && negb single && some_of_four, files_without_reader);
    (negb (percent_converts env r),
     "data_reader_percent=" ++ py_str (data_reader_percent r)
       ++ " is not a float.") ].

(** The keys of a dict of extra flags that are not allowed flags, in sorted
    order (lines 483-493). *)
Definition invalid_flags (r : request) : list string :=
  match extra_lbann_flags r with
  | Some (Dict items) =>
      filter (fun k => negb (in_list k allowed_flags))
        (map fst (sorted_items items))
  | _ => []
  end.

(** Every violation of a call: the message of each rule whose condition
    holds, then one message per invalid extra flag. *)
Definition usage_errors (env : environment) (r : request) : list string :=
  (map snd (filter fst (usage_rules env r))
     ++ map invalid_flag (invalid_flags r))%list.

(** ** Concrete calls used as examples *)

(** No allocation in the environment, every path exists, and a [float] that
    converts integers only; the examples leave [data_reader_percent] unset,
    so the conversion is not consulted. *)
Definition example_env : environment := {|
  getenv := fun _ => None;
  path_exists := fun _ => true;
  float_str := fun v =>
    match v with PyInt z => Some (fmt_d z ++ ".0") | _ => None end
|}.

(** A call that sets the listed arguments and leaves the others at their
    defaults. *)
Definition example_request (c : string) (nodes procs : option Z)
  (part : option string) (limit : option Z)
  (dir filedir meta folder path : option string)
  (extra : option extra_flags) (tuple : bool) : request := {|
  cluster := c; executable := "lbann";
  num_nodes := nodes; num_processes := procs; partition := part;
  time_limit := limit;
  ckpt_dir := None; dir_name := dir; data_filedir_default := filedir;
  data_filedir_train_default := None; data_filename_train_default := None;
  data_filedir_test_default := None; data_filename_test_default := None;
  data_reader_name := None; data_reader_path := None;
  data_reader_percent := PyNone; exit_after_setup := false;
  metadata := meta; mini_batch_size := None; model_folder := folder;
  model_name := None; model_path := path; num_epochs := None;
  optimizer_name := None; optimizer_path := None;
  processes_per_model := None; extra_lbann_flags := extra;
  error_file_name := None; output_file_name := None;
  check_executable_existence := true; return_tuple := tuple;
  skip_no_exe := true; weekly := false
|}.

(** A call on catalyst that breaks several rules at once: a model, a data
    reader and an optimizer each given both by path and by name, a data
    directory next to a train directory, a percentage that is no number and
    two extra flags that do not exist. *)
Definition example_conflicts : request := {|
  cluster := "catalyst"; executable := "lbann";
  num_nodes := None; num_processes := None; partition := None;
  time_limit := None;
  ckpt_dir := None; dir_name := Some "/lbann";
  data_filedir_default := Some "/data";
  data_filedir_train_default := Some "/data/train";
  data_filename_train_default := None;
  data_filedir_test_default := None; data_filename_test_default := None;
  data_reader_name := Some "mnist";
  data_reader_path := Some "/tmp/reader.prototext";
  data_reader_percent := PyStr "half"; exit_after_setup := false;
  metadata := None; mini_batch_size := None; model_folder := Some "resnet";
  model_name := None; model_path := Some "/tmp/model.prototext";
  num_epochs := None;
  optimizer_name := Some "adam"; optimizer_path := Some "/tmp/opt.prototext";
  processes_per_model := None;
  extra_lbann_flags :=
    Some (Dict [("zeta", PyNone); ("num_gpus", PyInt 2); ("alpha", PyInt 1)]);
  error_file_name := None; output_file_name := None;
  check_executable_existence := true; return_tuple := true;
  skip_no_exe := true; weekly := false
|}.

(** A copy of the request with other counts and another percentage. *)
Definition with_counts (r : request) (nodes procs : option Z) (percent : pyval)
  : request := {|
  cluster := cluster r; executable := executable r;
  num_nodes := nodes; num_processes := procs;
  partition := partition r; time_limit := time_limit r;
  ckpt_dir := ckpt_dir r; dir_name := dir_name r;
  data_filedir_default := data_filedir_default r;
  data_filedir_train_default := data_filedir_train_default r;
  data_filename_train_default := data_filename_train_default r;
  data_filedir_test_default := data_filedir_test_default r;
  data_filename_test_default := data_filename_test_default r;
  data_reader_name := data_reader_name r;
  data_reader_path := data_reader_path r;
  data_reader_percent := percent;
  exit_after_setup := exit_after_setup r;
  metadata := metadata r;
  mini_batch_size := mini_batch_size r; model_folder := model_folder r;
  model_name := model_name r; model_path := model_path r;
  num_epochs := num_epochs r; optimizer_name := optimizer_name r;
  optimizer_path := optimizer_path r;
  processes_per_model := processes_per_model r;
  extra_lbann_flags := extra_lbann_flags r;
  error_file_name := error_file_name r;
  output_file_name := output_file_name r;
  check_executable_existence := check_executable_existence r;
  return_tuple := return_tuple r;
  skip_no_exe := skip_no_exe r; weekly := weekly r
|}.

(** * Properties *)

(** ** Strings *)

Lemma starts_with_app (p t : string) : starts_with p (p ++ t) = true.
Proof.
  induction p as [|a p IH]; simpl.
  - reflexivity.
  - rewrite Ascii.eqb_refl. exact IH.
Qed.

Lemma starts_with_app_r (p s t : string) :
  starts_with p s = true -> starts_with p (s ++ t) = true.
Proof.
  revert s. induction p as [|a p IH]; intros s H.
  - reflexivity.
  - destruct s as [|b s]; simpl in *; [discriminate|].
    apply andb_true_iff in H as [Hab Hps].
    rewrite Hab. simpl. now apply IH.
Qed.

Lemma py_in_app_r (sub s t : string) :
  py_in sub s = true -> py_in sub (s ++ t) = true.
Proof.
  induction s as [|c s IH]; simpl; intros H.
  - rewrite orb_false_r in H. destruct sub; [|discriminate].
    destruct t; reflexivity.
  - apply orb_true_iff in H as [H|H].
    + change (String c (s ++ t)) with (String c s ++ t).
      rewrite (starts_with_app_r _ _ _ H). reflexivity.
    + rewrite (IH H). apply orb_true_r.
Qed.

Lemma py_in_app_l (sub a s : string) :
  py_in sub s = true -> py_in sub (a ++ s) = true.
Proof.
  intros H. induction a as [|c a IH]; simpl.
  - exact H.
  - rewrite IH. apply orb_true_r.
Qed.

Lemma py_in_self (sub t : string) : py_in sub (sub ++ t) = true.
Proof.
  destruct sub as [|c sub]; simpl.
  - destruct t; reflexivity.
  - rewrite Ascii.eqb_refl, starts_with_app. reflexivity.
Qed.

Lemma py_in_mid (sub a b : string) : py_in sub (a ++ sub ++ b) = true.
Proof. apply py_in_app_l, py_in_self. Qed.

Lemma append_nil_r (s : string) : s ++ "" = s.
Proof. induction s; simpl; congruence. Qed.

Lemma append_assoc (a b c : string) : (a ++ b) ++ c = a ++ b ++ c.
Proof. induction a; simpl; congruence. Qed.

Lemma char_in_cons (ch c : ascii) (s : string) :
  py_in (String ch "") (String c s)
  = Ascii.eqb ch c || py_in (String ch "") s.
Proof. cbn [py_in starts_with]. now rewrite andb_true_r. Qed.

Lemma char_in_app (ch : ascii) (a b : string) :
  py_in (String ch "") (a ++ b)
  = py_in (String ch "") a || py_in (String ch "") b.
Proof.
  induction a as [|c a IH].
  - reflexivity.
  - change (String c a ++ b) with (String c (a ++ b)).
    now rewrite !char_in_cons, IH, orb_assoc.
Qed.

Lemma py_in_refl (s : string) : py_in s s = true.
Proof. rewrite <- (append_nil_r s) at 2. apply py_in_self. Qed.

Lemma py_in_join (sep m : string) (l : list string) :
  In m l -> py_in m (join sep l) = true.
Proof.
  unfold join. induction l as [|x l IH]; intros H; [contradiction|].
  destruct l as [|y l].
  - destruct H as [->|[]]. apply py_in_refl.
  - change (String.concat sep (x :: y :: l))
      with (x ++ sep ++ String.concat sep (y :: l)).
    destruct H as [->|H].
    + apply py_in_self.
    + apply py_in_app_l, py_in_app_l, IH, H.
Qed.

(** ** check_list as one message per pair *)

Lemma check_one_fold (v : pyval) (substrings errors : list string) :
  fold_left (check_one v) substrings errors
  = (errors ++ flat_map (violation v) substrings)%list.
Proof.
  revert errors. induction substrings as [|sub subs IH]; intros errors; simpl.
  - now rewrite app_nil_r.
  - rewrite IH. unfold check_one, violation, append.
    destruct v; simpl; try reflexivity.
    destruct (py_in sub s); simpl.
    + now rewrite <- app_assoc.
    + reflexivity.
Qed.

Lemma check_list_fold (substrings : list string) (strings : list pyval)
  (errors : list string) :
  fold_left
    (fun errors str => fold_left (check_one str) substrings errors)
    strings errors
  = (errors
     ++ flat_map (fun v => flat_map (violation v) substrings) strings)%list.
Proof.
  revert errors. induction strings as [|v vs IH]; intros errors; simpl.
  - now rewrite app_nil_r.
  - rewrite IH, check_one_fold. now rewrite <- app_assoc.
Qed.

Lemma check_list_pairs (substrings : list string) (strings : list pyval) :
  check_list substrings strings
  = flat_map (fun v => flat_map (violation v) substrings) strings.
Proof. unfold check_list. now rewrite check_list_fold. Qed.

Lemma in_check_list (substrings : list string) (strings : list pyval)
  (m : string) :
  In m (check_list substrings strings) <->
  exists s sub, In (PyStr s) strings /\ In sub substrings
                /\ py_in sub s = true /\ m = s ++ " contains " ++ sub.
Proof.
  rewrite check_list_pairs, in_flat_map. split.
  - intros (v & Hv & Hm). apply in_flat_map in Hm as (sub & Hsub & Hm).
    destruct v; simpl in Hm; try contradiction.
    destruct (py_in sub s) eqn:E; [|contradiction].
    destruct Hm as [<-|[]]. now exists s, sub.
  - intros (s & sub & Hs & Hsub & E & ->).
    exists (PyStr s). split; [exact Hs|].
    apply in_flat_map. exists sub. split; [exact Hsub|].
    simpl. rewrite E. now left.
Qed.

Lemma nonempty_in {A : Type} (x : A) (l : list A) : In x l -> nonempty l = true.
Proof. destruct l; [contradiction | reflexivity]. Qed.

Lemma nonempty_false {A : Type} (l : list A) : nonempty l = false <-> l = [].
Proof. destruct l; simpl; split; congruence. Qed.

(** ** get_command, stage by stage *)

Lemma get_command_eq (env : environment) (r : request) :
  get_command env r =
  if nonempty (check_list blacklist (gate_strings r))
  then Raise ("Invalid character(s): "
              ++ join " , " (check_list blacklist (gate_strings r)))
  else
    match executable_check env r with
    | Return _ =>
        match determine_scheduler (cluster r) with
        | Return sch =>
            match conversions sch r with
            | Return _ =>
                if nonempty (final_errors env r)
                then Raise ("Invalid Usage: "
                            ++ join " , " (final_errors env r))
                else Return (built_command env sch r)
            | Raise msg => Raise msg
            | Skip msg => Skip msg
            | OverflowError => OverflowError
            end
        | Raise msg => Raise msg
        | Skip msg => Skip msg
        | OverflowError => OverflowError
        end
    | Raise msg => Raise msg
    | Skip msg => Skip msg
    | OverflowError => OverflowError
    end.
Proof.
  unfold get_command, built_command, final_errors, gate_strings,
    initial_errors, executable_check, resolved_time_limit, blacklist_gate,
    conversions.
  destruct (scan_extra_flags r (scalar_strings r)) as [errs strs].
  cbn [fst snd].
  destruct (nonempty (check_list blacklist strs)); cbn [bind];
    [reflexivity|].
  destruct (if check_executable_existence r then _ else _); cbn [bind];
    try reflexivity.
  destruct (determine_scheduler (cluster r)) as [sch| | |]; cbn [bind];
    try reflexivity.
  destruct (count_conversions sch r); cbn [bind]; try reflexivity;
    destruct (scheduler_commands env sch r _) as [c_alloc c_run];
    try reflexivity.
  destruct (percent_conversion r); cbn [bind]; try reflexivity.
  destruct (lbann_command env r errs) as [l errs']. reflexivity.
Qed.

(** The conversions of a call succeed or raise [OverflowError]. *)
Lemma conversions_cases (sch : scheduler) (r : request) :
  conversions sch r = Return tt \/ conversions sch r = OverflowError.
Proof.
  unfold conversions, count_conversions, percent_conversion, float_of_int.
  destruct sch, (num_processes r) as [p|], (num_nodes r) as [n|];
    cbn [bind];
    repeat match goal with
      | |- context [if ?c then _ else _] => destruct c; cbn [bind]
      | |- context [match data_reader_percent r with _ => _ end] =>
          destruct (data_reader_percent r); cbn [bind]
      end; auto.
Qed.

(** The scanned list holds the scalar arguments and, for a dict, its keys
    and values. *)
Lemma in_gate_strings (r : request) (v : pyval) :
  In v (gate_strings r) <->
  In v (scalar_strings r) \/
  exists items, extra_lbann_flags r = Some (Dict items)
                /\ (In v (map (fun kv => PyStr (fst kv)) items)
                    \/ In v (map snd items)).
Proof.
  unfold gate_strings, scan_extra_flags.
  destruct (extra_lbann_flags r) as [[|items]|]; cbn [snd].
  - split; [now left | intros [H|(i & E & _)]; [exact H | discriminate]].
  - rewrite !in_app_iff. split.
    + intros [H|H]; [now left | right; now exists items].
    + intros [H|(i & E & H)]; [now left | right].
      injection E as <-. exact H.
  - split; [now left | intros [H|(i & E & _)]; [exact H | discriminate]].
Qed.

Lemma in_scalar_strings (r : request) (s : string) :
  In (PyStr s) (scalar_strings r) <->
  In (Some s) (string_arguments r) \/ data_reader_percent r = PyStr s.
Proof.
  unfold scalar_strings, string_arguments, of_str, of_int.
  destruct r; cbn [In cluster executable num_nodes num_processes partition
    time_limit ckpt_dir dir_name data_filedir_default
    data_filedir_train_default data_filename_train_default
    data_filedir_test_default data_filename_test_default data_reader_name
    data_reader_path data_reader_percent exit_after_setup metadata
    mini_batch_size model_folder model_name model_path num_epochs
    optimizer_name optimizer_path processes_per_model extra_lbann_flags
    error_file_name output_file_name check_executable_existence return_tuple
    skip_no_exe weekly].
  split.
  - intros H.
    repeat (destruct H as [H|H];
            [ repeat match goal with
                | H : context [match ?o with _ => _ end] |- _ => destruct o
                end;
              first [ discriminate H
                    | injection H as <-; simpl; tauto
                    | subst; simpl; tauto ] | ]).
    contradiction.
  - intros [H|H].
    + repeat (destruct H as [H|H];
              [ first [ injection H as <- | subst ]; simpl; tauto
              | ]).
      contradiction.
    + rewrite H. simpl. tauto.
Qed.

Lemma scanned_in_gate_strings (r : request) (s : string) :
  scanned_string r s <-> In (PyStr s) (gate_strings r).
Proof.
  unfold scanned_string. rewrite in_gate_strings, in_scalar_strings.
  split.
  - intros [H|[H|(items & E & H)]]; [left; now left | left; now right |].
    right. exists items. split; [exact E|].
    destruct H as [H|H]; [left | now right].
    rewrite in_map_iff in *. destruct H as (kv & <- & Hkv). now exists kv.
  - intros [[H|H]|(items & E & H)]; [now left | right; now left |].
    right; right. exists items. split; [exact E|].
    destruct H as [H|H]; [left | now right].
    rewrite in_map_iff in *. destruct H as (kv & Hs & Hkv).
    injection Hs as <-. now exists kv.
Qed.

(** ** The blacklist gate *)

(** C1. When a string-valued scalar argument, or a key or string value of a
    dict of extra flags, contains [;] or [--], [get_command] raises the
    invalid-character exception whatever the environment and the other
    arguments are; the message joins exactly one entry
    [<value> contains <substring>] per (value, substring) pair found, in
    scanning order, so every such pair is listed. *)
Theorem blacklist_gate_first (env : environment) (r : request)
  (s sub : string) :
  scanned_string r s -> In sub blacklist -> py_in sub s = true ->
  let violations := check_list blacklist (gate_strings r) in
  let message := "Invalid character(s): " ++ join " , " violations in
  get_command env r = Raise message
  /\ violations
     = flat_map (fun v => flat_map (violation v) blacklist) (gate_strings r)
  /\ forall s' sub',
       scanned_string r s' -> In sub' blacklist -> py_in sub' s' = true ->
       In (s' ++ " contains " ++ sub') violations
       /\ py_in (s' ++ " contains " ++ sub') message = true.
Proof.
  intros Hs Hsub Hin violations message.
  assert (Hall : forall s' sub',
             scanned_string r s' -> In sub' blacklist -> py_in sub' s' = true ->
             In (s' ++ " contains " ++ sub') violations).
  { intros s' sub' Hs' Hsub' Hin'. apply in_check_list.
    exists s', sub'. rewrite <- scanned_in_gate_strings. now repeat split. }
  split; [|split].
  - rewrite get_command_eq. fold violations.
    now rewrite (nonempty_in _ _ (Hall s sub Hs Hsub Hin)).
  - apply check_list_pairs.
  - intros s' sub' Hs' Hsub' Hin'. split; [now apply Hall|].
    unfold message. apply py_in_app_l, py_in_join. now apply Hall.
Qed.

Lemma blacklist_gate_first_witness :
  get_command example_env
    (example_request "lassen" None None None None None None
       (Some "a;b--c") None None None false)
  = Raise "Invalid character(s): a;b--c contains ; , a;b--c contains --".
Proof.
  refine (proj1 (blacklist_gate_first example_env
            (example_request "lassen" None None None None None None
               (Some "a;b--c") None None None false)
            "a;b--c" ";" _ _ _)).
  - left. simpl. tauto.
  - simpl. tauto.
  - reflexivity.
Defined.

(** ** What a successful call returns *)

Lemma get_command_return (env : environment) (r : request) (c : command) :
  get_command env r = Return c ->
  exists sch,
    determine_scheduler (cluster r) = Return sch
    /\ final_errors env r = []
    /\ c = built_command env sch r.
Proof.
  rewrite get_command_eq.
  destruct (nonempty (check_list _ _)); [discriminate|].
  destruct (executable_check env r); try discriminate.
  destruct (determine_scheduler (cluster r)) as [sch| | |]; try discriminate.
  destruct (conversions sch r); try discriminate.
  destruct (nonempty (final_errors env r)) eqn:E; [discriminate|].
  intros H. injection H as <-. exists sch.
  now rewrite nonempty_false in E.
Qed.

(** A call that returns has converted its numbers. *)
Lemma get_command_return_conversions (env : environment) (r : request)
  (c : command) (sch : scheduler) :
  get_command env r = Return c ->
  determine_scheduler (cluster r) = Return sch ->
  conversions sch r = Return tt.
Proof.
  rewrite get_command_eq. intros H Hs. rewrite Hs in H.
  destruct (nonempty (check_list _ _)); [discriminate|].
  destruct (executable_check env r); try discriminate.
  destruct (conversions_cases sch r) as [E|E]; [exact E|].
  rewrite E in H. discriminate.
Qed.

(** ** Time limit *)

Lemma resolve_time_limit_le (tl : option Z) (w : bool) :
  resolve_time_limit tl w <= MAX_TIME.
Proof.
  unfold resolve_time_limit, MAX_TIME, DEFAULT_TIME.
  destruct tl as [t|]; [|destruct w]; simpl;
    repeat match goal with
      | |- context [?a >? ?b] => destruct (Z.gtb_spec a b)
      end; lia.
Qed.

Lemma ray_clamp_small (c : string) (t : Z) : t <= 480 -> ray_clamp c t = t.
Proof.
  intros H. unfold ray_clamp. destruct (String.eqb c "ray"); [|reflexivity].
  destruct (Z.gtb_spec t 480); [lia | reflexivity].
Qed.

(** C3. With no [time_limit] the resolved limit is 35, or 360 on a weekly
    run; a supplied limit above 360 is resolved to 360. The resolved value
    is the one a successful call builds its scheduler commands from. *)
Theorem time_limit_resolution (env : environment) (r : request) :
  (time_limit r = None -> weekly r = false -> resolved_time_limit r = 35)
  /\ (time_limit r = None -> weekly r = true -> resolved_time_limit r = 360)
  /\ (forall t, time_limit r = Some t -> t > 360 ->
      resolved_time_limit r = 360)
  /\ (forall c, get_command env r = Return c ->
      exists sch, c = built_command env sch r).
Proof.
  unfold resolved_time_limit, resolve_time_limit, MAX_TIME, DEFAULT_TIME.
  repeat split.
  - intros -> ->. reflexivity.
  - intros -> ->. reflexivity.
  - intros t -> Ht. destruct (Z.gtb_spec t 360); [reflexivity | lia].
  - intros c Hc. apply get_command_return in Hc as (sch & _ & _ & ->).
    now exists sch.
Qed.

Lemma time_limit_resolution_witness :
  resolved_time_limit
    (example_request "catalyst" None None None (Some 1000) None None None
       None None None true) = 360
  /\ resolved_time_limit
       (example_request "catalyst" None None None None None None None
          None None None true) = 35
  /\ get_command example_env
       (example_request "catalyst" None None None (Some 1000) None None None
          None None None true)
     = Return (CommandTuple "salloc --time=360"
                 " srun --mpibind=off --time=360"
                 "lbann --data_reader_percent=0.1" "").
Proof.
  split; [|split].
  - refine (proj1 (proj2 (proj2 (time_limit_resolution example_env
              (example_request "catalyst" None None None (Some 1000) None
                 None None None None None true)))) 1000 _ _).
    + reflexivity.
    + reflexivity.
  - refine (proj1 (time_limit_resolution example_env
              (example_request "catalyst" None None None None None
                 None None None None None true)) _ _); reflexivity.
  - reflexivity.
Defined.

(** ** Allocation and run commands *)

Lemma ceil_div_spec (p n : Z) :
  0 < n -> n * (ceil_div p n - 1) < p <= n * ceil_div p n.
Proof.
  intros Hn. unfold ceil_div.
  pose proof (Z.div_mod (- p) n ltac:(lia)) as Hdm.
  pose proof (Z.mod_pos_bound (- p) n Hn) as Hb.
  nia.
Qed.

Lemma round_half_even_ge n d L :
  0 < d -> (2 * L - 1) * d < 2 * n -> L <= round_half_even n d.
Proof.
  intros Hd H. unfold round_half_even.
  pose proof (Z.div_mod n d ltac:(lia)) as E.
  pose proof (Z.mod_pos_bound n d Hd) as B.
  set (q := n / d) in *. set (r := n mod d) in *.
  destruct (2 * r <? d) eqn:C1; [apply Z.ltb_lt in C1; nia|].
  apply Z.ltb_ge in C1.
  destruct (d <? 2 * r) eqn:C2; [apply Z.ltb_lt in C2; nia|].
  apply Z.ltb_ge in C2.
  destruct (Z.even q); nia.
Qed.

Lemma round_half_even_le n d L :
  0 < d -> 2 * n < (2 * L + 1) * d -> round_half_even n d <= L.
Proof.
  intros Hd H. unfold round_half_even.
  pose proof (Z.div_mod n d ltac:(lia)) as E.
  pose proof (Z.mod_pos_bound n d Hd) as B.
  set (q := n / d) in *. set (r := n mod d) in *.
  destruct (2 * r <? d) eqn:C1; [apply Z.ltb_lt in C1; nia|].
  apply Z.ltb_ge in C1.
  destruct (d <? 2 * r) eqn:C2; [apply Z.ltb_lt in C2; nia|].
  apply Z.ltb_ge in C2.
  destruct (Z.even q); nia.
Qed.

Lemma nearest_double_small z : Z.abs z < 2 ^ 53 -> nearest_double z = z.
Proof.
  intros H. unfold nearest_double. apply Z.ltb_lt in H. now rewrite H.
Qed.

Lemma float_of_int_small z : Z.abs z < 2 ^ 53 -> float_of_int z = Return z.
Proof.
  intros H. unfold float_of_int. rewrite nearest_double_small by exact H.
  assert (L : 2 ^ 53 < 2 ^ 1024) by (apply Z.pow_lt_mono_r; lia).
  destruct (Z.leb_spec (2 ^ 1024) (Z.abs z)); [lia | reflexivity].
Qed.

(** Rounding the scaled quotient moves it across no multiple of the scale. *)
Lemma scaled_ceiling a b S :
  0 < a -> 0 < b -> 0 < S -> b < 2 * S ->
  - ((- round_half_even (a * S) b) / S) = - ((- a) / b).
Proof.
  intros Ha Hb HS Hlt.
  set (c := - ((- a) / b)).
  assert (Hc : (c - 1) * b < a <= c * b).
  { unfold c. pose proof (Z.div_mod (- a) b ltac:(lia)).
    pose proof (Z.mod_pos_bound (- a) b Hb). nia. }
  assert (Hm1 : round_half_even (a * S) b <= c * S)
    by (apply round_half_even_le; nia).
  assert (Hm2 : (c - 1) * S + 1 <= round_half_even (a * S) b)
    by (apply round_half_even_ge; nia).
  set (m := round_half_even (a * S) b) in *.
  assert (Hq : - m / S = - c)
    by (symmetry; apply Z.div_unique with (r := c * S - m); [lia | nia]).
  rewrite Hq. lia.
Qed.

Lemma scaled_floor a b S :
  0 < a -> 0 < b -> 0 < S -> b < 2 * S ->
  round_half_even (a * S) b / S = a / b.
Proof.
  intros Ha Hb HS Hlt.
  set (f := a / b).
  assert (Hf : f * b <= a < (f + 1) * b).
  { unfold f. pose proof (Z.div_mod a b ltac:(lia)).
    pose proof (Z.mod_pos_bound a b Hb). nia. }
  assert (Hm1 : f * S <= round_half_even (a * S) b)
    by (apply round_half_even_ge; nia).
  assert (Hm2 : round_half_even (a * S) b <= (f + 1) * S - 1)
    by (apply round_half_even_le; nia).
  set (m := round_half_even (a * S) b) in *.
  symmetry. apply Z.div_unique with (r := m - f * S); [lia | nia].
Qed.

Lemma binade_lower a b :
  0 < a -> 0 < b ->
  let k := binade a b in
  (0 <= k -> b * 2 ^ k <= a) /\ (k < 0 -> b <= a * 2 ^ (- k)).
Proof.
  intros Ha Hb. cbv zeta. unfold binade.
  pose proof (Z.log2_spec a Ha) as [La Ua].
  pose proof (Z.log2_spec b Hb) as [Lb Ub].
  pose proof (Z.log2_nonneg a). pose proof (Z.log2_nonneg b).
  set (la := Z.log2 a) in *. set (lb := Z.log2 b) in *.
  rewrite Z.pow_succ_r in Ua, Ub by lia.
  destruct (0 <=? la - lb) eqn:Hd.
  - apply Z.leb_le in Hd.
    destruct (b * 2 ^ (la - lb) <=? a) eqn:Ht.
    + apply Z.leb_le in Ht. split; [intros _; exact Ht | lia].
    + apply Z.leb_gt in Ht.
      assert (E : 2 ^ la = 2 ^ lb * 2 ^ (la - lb))
        by (rewrite <- Z.pow_add_r by lia; f_equal; lia).
      split.
      * intros Hk.
        assert (E2 : 2 ^ (la - lb) = 2 * 2 ^ (la - lb - 1))
          by (rewrite <- Z.pow_succ_r by lia; f_equal; lia).
        pose proof (Z.pow_pos_nonneg 2 (la - lb - 1) ltac:(lia) ltac:(lia)).
        pose proof (Z.pow_pos_nonneg 2 lb ltac:(lia) ltac:(lia)).
        nia.
      * intros Hk. assert (la - lb = 0) by lia.
        replace (- (la - lb - 1)) with 1 by lia.
        replace (la - lb) with 0 in * by lia.
        change (2 ^ 1) with 2. change (2 ^ 0) with 1 in *. nia.
  - apply Z.leb_gt in Hd.
    assert (E : 2 ^ lb = 2 ^ la * 2 ^ (- (la - lb)))
      by (rewrite <- Z.pow_add_r by lia; f_equal; lia).
    pose proof (Z.pow_pos_nonneg 2 la ltac:(lia) ltac:(lia)).
    pose proof (Z.pow_pos_nonneg 2 (- (la - lb)) ltac:(lia) ltac:(lia)).
    destruct (b <=? a * 2 ^ (- (la - lb))) eqn:Ht.
    + apply Z.leb_le in Ht. split; [lia | intros _; exact Ht].
    + split; [lia|]. intros _.
      replace (- (la - lb - 1)) with (Z.succ (- (la - lb))) by lia.
      rewrite Z.pow_succ_r by lia. nia.
Qed.

Lemma ceil_of_quotient_exact x y :
  Z.abs x < 2 ^ 53 -> y <> 0 ->
  ceil_of_quotient x y = ceil_div x y.
Proof.
  intros Hx Hy. unfold ceil_of_quotient, ceil_div.
  destruct (Z.abs x =? 0) eqn:Hz.
  { apply Z.eqb_eq in Hz. assert (x = 0) by lia. subst x. reflexivity. }
  apply Z.eqb_neq in Hz.
  set (a := Z.abs x) in *. set (b := Z.abs y).
  assert (Ha : 0 < a) by (unfold a in *; lia).
  assert (Hb : 0 < b) by (unfold b; lia).
  destruct (binade_lower a b Ha Hb) as [K1 K2].
  set (k := binade a b) in *.
  assert (Hk : k <= 52).
  { destruct (Z_le_gt_dec k 52) as [|Hgt]; [assumption|exfalso].
    specialize (K1 ltac:(lia)).
    assert (2 ^ 53 <= 2 ^ k) by (apply Z.pow_le_mono_r; lia). nia. }
  assert (Hs : (0 <=? 52 - k) = true) by (apply Z.leb_le; lia).
  rewrite Hs.
  assert (HS : 0 < 2 ^ (52 - k)) by (apply Z.pow_pos_nonneg; lia).
  assert (Hlt : b < 2 * 2 ^ (52 - k)).
  { rewrite <- Z.pow_succ_r by lia.
    destruct (Z_le_gt_dec 0 k) as [Hk0|Hk0].
    - specialize (K1 Hk0).
      assert (E : 2 ^ 53 = 2 ^ k * 2 ^ Z.succ (52 - k))
        by (rewrite <- Z.pow_add_r by lia; f_equal; lia).
      pose proof (Z.pow_pos_nonneg 2 k ltac:(lia) Hk0). nia.
    - specialize (K2 ltac:(lia)).
      assert (E : 2 ^ Z.succ (52 - k) = 2 ^ 53 * 2 ^ (- k))
        by (rewrite <- Z.pow_add_r by lia; f_equal; lia).
      pose proof (Z.pow_pos_nonneg 2 (- k) ltac:(lia) ltac:(lia)). nia. }
  pose proof (scaled_ceiling a b _ Ha Hb HS Hlt) as Hc.
  pose proof (scaled_floor a b _ Ha Hb HS Hlt) as Hf.
  destruct (0 <? x) eqn:Sx, (0 <? y) eqn:Sy; cbn [Bool.eqb];
    try apply Z.ltb_lt in Sx; try apply Z.ltb_ge in Sx;
    try apply Z.ltb_lt in Sy; try apply Z.ltb_ge in Sy.
  - rewrite Hc. unfold a, b. now rewrite (Z.abs_eq x), (Z.abs_eq y) by lia.
  - rewrite Hf. unfold a, b. rewrite (Z.abs_eq x), (Z.abs_neq y) by lia.
    f_equal. rewrite <- (Z.div_opp_opp (- x) y) by lia. f_equal; lia.
  - rewrite Hf. unfold a, b. now rewrite (Z.abs_neq x), (Z.abs_eq y) by lia.
  - rewrite Hc. unfold a, b. rewrite (Z.abs_neq x), (Z.abs_neq y) by lia.
    f_equal. rewrite <- (Z.div_opp_opp (- x) y) by lia. f_equal; lia.
Qed.

(** For counts below 2^53 both conversions are exact and the value is the
    ceiling of the quotient. *)
Lemma processes_per_node_exact (p n : Z) :
  Z.abs p < 2 ^ 53 -> Z.abs n < 2 ^ 53 -> n <> 0 ->
  processes_per_node p n = ceil_div p n.
Proof.
  intros Hp Hn H0. unfold processes_per_node.
  rewrite !nearest_double_small by assumption.
  now apply ceil_of_quotient_exact.
Qed.

Lemma lsf_allocate_emitted (env : environment) (c : string)
  (n p : option Z) (q : option string) (t : Z) :
  lsf_unallocated env ->
  lsf_allocate env c n p q t
  = ("bsub" ++ String.concat "" (lsf_flags_emitted c n p q (ray_clamp c t)),
     ray_clamp c t).
Proof.
  intros [Hh Hj]. unfold lsf_allocate, lsf_flags_emitted, ptile_flag.
  rewrite Hh, Hj. cbn [is_none is_some negb andb].
  destruct (String.eqb c "lassen"); cbn [negb].
  - destruct q; reflexivity.
  - destruct p as [p|]; [destruct n as [n|]; [destruct (n =? 0)|]|];
      destruct q; cbn; rewrite ?append_assoc; reflexivity.
Qed.

Lemma lsf_allocate_allocated (env : environment) (c : string)
  (n p : option Z) (q : option string) (t : Z) :
  is_none (getenv env "LSB_HOSTS") && is_none (getenv env "LSB_JOBID") = false ->
  lsf_allocate env c n p q t = ("", t).
Proof. intros H. unfold lsf_allocate. now rewrite H. Qed.

Lemma scheduler_commands_lsf (env : environment) (r : request) (t : Z) :
  t <= 480 ->
  scheduler_commands env lsf r t
  = (fst (lsf_allocate env (cluster r) (num_nodes r) (num_processes r)
            (partition r) t),
     lsf_run (cluster r)
       (fst (lsf_allocate env (cluster r) (num_nodes r) (num_processes r)
               (partition r) t))
       (num_nodes r) (num_processes r) t).
Proof.
  intros Ht. unfold scheduler_commands.
  destruct (is_none (getenv env "LSB_HOSTS")
            && is_none (getenv env "LSB_JOBID")) eqn:E.
  - apply andb_true_iff in E as [Eh Ej].
    assert (U : lsf_unallocated env).
    { split; [destruct (getenv env "LSB_HOSTS")
             | destruct (getenv env "LSB_JOBID")];
        try reflexivity; discriminate. }
    rewrite (lsf_allocate_emitted _ _ _ _ _ _ U), ray_clamp_small by exact Ht.
    reflexivity.
  - now rewrite (lsf_allocate_allocated _ _ _ _ _ _ E).
Qed.

Lemma resolved_le_480 (r : request) : resolved_time_limit r <= 480.
Proof.
  pose proof (resolve_time_limit_le (time_limit r) (weekly r)) as H.
  unfold resolved_time_limit, MAX_TIME in *. lia.
Qed.

(** C5 (amended). On an lsf cluster with no allocation in the environment,
    when the counts convert to float, the allocation command is [bsub]
    followed by: the exclusive-host flag (not on lassen), the group flag,
    the interactive flag, the task count (not on lassen, when a process count
    is given), the queue (when given), the [-nnodes] node count (on lassen
    only), the processes-per-host flag (not on lassen, when processes and a
    nonzero node count are given), and the time limit. The processes-per-host
    value is [int(math.ceil(float(processes) / nodes))]; for counts below
    2^53 in absolute value both conversions are exact and the value is the
    ceiling of processes over nodes. A call that returns has counts that
    convert. *)
Theorem lsf_allocation_flags (env : environment) (r : request) :
  determine_scheduler (cluster r) = Return lsf ->
  lsf_unallocated env ->
  let allocate :=
    "bsub" ++ String.concat ""
      (lsf_flags_emitted (cluster r) (num_nodes r) (num_processes r)
         (partition r) (resolved_time_limit r)) in
  (count_conversions lsf r = Return tt ->
   fst (scheduler_commands env lsf r (resolved_time_limit r)) = allocate)
  /\ (forall p n, Z.abs p < 2 ^ 53 -> Z.abs n < 2 ^ 53 -> n <> 0 ->
      float_of_int p = Return p /\ float_of_int n = Return n
      /\ processes_per_node p n = ceil_div p n)
  /\ (forall p n, 0 < n -> n * (ceil_div p n - 1) < p <= n * ceil_div p n)
  /\ (forall c, get_command env r = Return c ->
      c = built_command env lsf r /\ count_conversions lsf r = Return tt).
Proof.
  intros Hsch U allocate.
  assert (E : fst (scheduler_commands env lsf r (resolved_time_limit r))
              = allocate).
  { rewrite scheduler_commands_lsf by apply resolved_le_480.
    cbn [fst]. rewrite (lsf_allocate_emitted _ _ _ _ _ _ U).
    cbn [fst]. now rewrite ray_clamp_small by apply resolved_le_480. }
  split; [intros _; exact E|split; [|split]].
  - intros p n Hp Hn H0.
    split; [now apply float_of_int_small|].
    split; [now apply float_of_int_small|].
    now apply processes_per_node_exact.
  - intros p n. apply ceil_div_spec.
  - intros c Hc.
    pose proof (get_command_return_conversions _ _ _ _ Hc Hsch) as Hconv.
    apply get_command_return in Hc as (sch & Hs & _ & ->).
    rewrite Hsch in Hs. injection Hs as <-. split; [reflexivity|].
    unfold conversions in Hconv.
    destruct (count_conversions lsf r) as [[]| | |]; try discriminate Hconv.
    reflexivity.
Qed.

Lemma lsf_allocation_flags_witness :
  fst (scheduler_commands example_env lsf
         (example_request "ray" (Some 3) (Some 8) (Some "pbatch") None None
            None None None None None true) 35)
  = "bsub -x -G guests -Is -n 8 -q pbatch -R " ++ dquote ++ "span[ptile=3]"
      ++ dquote ++ " -W 35".
Proof.
  refine (proj1 (lsf_allocation_flags example_env
            (example_request "ray" (Some 3) (Some 8) (Some "pbatch") None None
               None None None None None true) _ _) _).
  - reflexivity.
  - split; reflexivity.
  - reflexivity.
Defined.

(** C5 as stated fails: with a queue given, the [-q] flag is emitted before
    [-nnodes] on lassen, and between the task count and the
    processes-per-host flag elsewhere, not after them. The value is computed
    on floats: for 2^53 + 1 processes on one node it is 2^53, one below the
    ceiling of the quotient, and a count of 2^1024 makes the call raise
    [OverflowError]. *)
Lemma lsf_allocation_order_counterexample :
  get_command example_env
    (example_request "lassen" (Some 2) None (Some "pbatch") None None None
       None None None None true)
  = Return (CommandTuple "bsub -G guests -Is -q pbatch -nnodes 2 -W 35"
              " jsrun" "lbann --data_reader_percent=0.1" "")
  /\ "bsub" ++ String.concat ""
       (lsf_flags_specified "lassen" (Some 2) None (Some "pbatch") 35)
     = "bsub -G guests -Is -nnodes 2 -q pbatch -W 35"
  /\ fst (lsf_allocate example_env "ray" (Some 3) (Some 8) (Some "pbatch") 35)
     = "bsub -x -G guests -Is -n 8 -q pbatch -R " ++ dquote
         ++ "span[ptile=3]" ++ dquote ++ " -W 35"
  /\ "bsub" ++ String.concat ""
       (lsf_flags_specified "ray" (Some 3) (Some 8) (Some "pbatch") 35)
     = "bsub -x -G guests -Is -n 8 -R " ++ dquote ++ "span[ptile=3]"
         ++ dquote ++ " -q pbatch -W 35"
  /\ String.eqb
       (fst (lsf_allocate example_env "lassen" (Some 2) None
               (Some "pbatch") 35))
       ("bsub" ++ String.concat ""
          (lsf_flags_specified "lassen" (Some 2) None (Some "pbatch") 35))
     = false
  /\ String.eqb
       (fst (lsf_allocate example_env "ray" (Some 3) (Some 8)
               (Some "pbatch") 35))
       ("bsub" ++ String.concat ""
          (lsf_flags_specified "ray" (Some 3) (Some 8) (Some "pbatch") 35))
     = false
  /\ get_command example_env
       (example_request "ray" (Some 1) (Some (2 ^ 53 + 1)) None None None
          None None None None None true)
     = Return (CommandTuple
                 ("bsub -x -G guests -Is -n 9007199254740993 -R " ++ dquote
                    ++ "span[ptile=9007199254740992]" ++ dquote ++ " -W 35")
                 " mpirun --timeout=35 -np 9007199254740993 -N 9007199254740992"
                 "lbann --data_reader_percent=0.1" "")
  /\ ceil_div (2 ^ 53 + 1) 1 = 9007199254740993
  /\ get_command example_env
       (example_request "ray" (Some 1) (Some (2 ^ 1024)) None None None
          None None None None None true)
     = OverflowError.
Proof. repeat split. Qed.

Lemma py_in_nnodes_none (a b : string) :
  py_in "-nnodes None" (a ++ " -nnodes None" ++ b) = true.
Proof.
  apply py_in_app_l.
  change (" -nnodes None" ++ b) with (" " ++ "-nnodes None" ++ b).
  apply py_in_mid.
Qed.

(** C9. On lassen with no allocation in the environment and [num_nodes]
    left at [None], the allocation command carries the text
    [-nnodes None]: the flag is emitted whether or not a node count was
    supplied. *)
Theorem lassen_nnodes_none (env : environment) (r : request) :
  cluster r = "lassen" -> lsf_unallocated env -> num_nodes r = None ->
  let allocate :=
    fst (scheduler_commands env lsf r (resolved_time_limit r)) in
  determine_scheduler (cluster r) = Return lsf
  /\ allocate
     = "bsub -G guests -Is" ++ opt_fmt (partition r) (fun q => " -q " ++ q)
         ++ " -nnodes None" ++ " -W " ++ fmt_d (resolved_time_limit r)
  /\ py_in "-nnodes None" allocate = true
  /\ (forall c, get_command env r = Return c -> c = built_command env lsf r).
Proof.
  intros Hc U Hn allocate.
  assert (Hs : determine_scheduler (cluster r) = Return lsf)
    by now rewrite Hc.
  assert (E : allocate
              = "bsub -G guests -Is"
                  ++ opt_fmt (partition r) (fun q => " -q " ++ q)
                  ++ " -nnodes None" ++ " -W "
                  ++ fmt_d (resolved_time_limit r)).
  { unfold allocate.
    rewrite scheduler_commands_lsf by apply resolved_le_480.
    cbn [fst]. rewrite (lsf_allocate_emitted _ _ _ _ _ _ U).
    rewrite ray_clamp_small by apply resolved_le_480.
    rewrite Hc, Hn. cbn [fst]. unfold lsf_flags_emitted.
    destruct (partition r); reflexivity. }
  split; [exact Hs|split; [exact E|split]].
  - rewrite E.
    change ("bsub -G guests -Is"
              ++ opt_fmt (partition r) (fun q => " -q " ++ q)
              ++ " -nnodes None" ++ " -W " ++ fmt_d (resolved_time_limit r))
      with ("bsub -G guests -Is"
              ++ (opt_fmt (partition r) (fun q => " -q " ++ q)
                    ++ " -nnodes None"
                    ++ (" -W " ++ fmt_d (resolved_time_limit r)))).
    apply py_in_app_l, py_in_nnodes_none.
  - intros c Hret. apply get_command_return in Hret as (sch & Hs' & _ & ->).
    rewrite Hs in Hs'. now injection Hs' as <-.
Qed.

Lemma lassen_nnodes_none_witness :
  get_command example_env
    (example_request "lassen" None (Some 4) None None None None None None
       None None true)
  = Return (CommandTuple "bsub -G guests -Is -nnodes None -W 35"
              (" jsrun -b " ++ dquote ++ "packed:10" ++ dquote
                 ++ " -c 40 -g 4 -d packed -n 4 -r 1 -a 4")
              "lbann --data_reader_percent=0.1" "")
  /\ py_in "-nnodes None"
       (fst (scheduler_commands example_env lsf
               (example_request "lassen" None (Some 4) None None None None
                  None None None None true) 35)) = true.
Proof.
  split; [reflexivity|].
  refine (proj1 (proj2 (proj2 (lassen_nnodes_none example_env
            (example_request "lassen" None (Some 4) None None None None
               None None None None true) _ _ _)))).
  - reflexivity.
  - split; reflexivity.
  - reflexivity.
Defined.

(** C6. On lassen the run command passes [-n min(num_processes, 16)], so a
    process count above 16 (32, say) becomes [-n 16] and no value above 16
    is ever passed. *)
Theorem lassen_process_cap (env : environment) (r : request) (p : Z) :
  cluster r = "lassen" -> num_processes r = Some p ->
  let commands := scheduler_commands env lsf r (resolved_time_limit r) in
  snd commands = space_after (fst commands) ++ jsrun_with (Z.min p 16)
  /\ Z.min p 16 <= 16
  /\ (p > 16 ->
      snd commands = space_after (fst commands) ++ jsrun_with 16)
  /\ (forall c, get_command env r = Return c -> c = built_command env lsf r).
Proof.
  intros Hc Hp commands.
  assert (E : snd commands
              = space_after (fst commands) ++ jsrun_with (Z.min p 16)).
  { unfold commands.
    rewrite scheduler_commands_lsf by apply resolved_le_480.
    cbn [fst snd]. unfold lsf_run, lsf_run_options, jsrun_with.
    rewrite Hc, Hp. cbn [String.eqb Ascii.eqb Bool.eqb].
    replace (if p >? 16 then 16 else p) with (Z.min p 16)
      by (destruct (Z.gtb_spec p 16); lia).
    rewrite append_assoc. reflexivity. }
  split; [exact E|split; [lia|split]].
  - intros Hgt. rewrite E. now replace (Z.min p 16) with 16 by lia.
  - intros c Hret. apply get_command_return in Hret as (sch & Hs & _ & ->).
    rewrite Hc in Hs. now injection Hs as <-.
Qed.

Lemma lassen_process_cap_witness :
  get_command example_env
    (example_request "lassen" (Some 2) (Some 32) None None None None None
       None None None true)
  = Return (CommandTuple "bsub -G guests -Is -nnodes 2 -W 35"
              (" jsrun -b " ++ dquote ++ "packed:10" ++ dquote
                 ++ " -c 40 -g 4 -d packed -n 16 -r 1 -a 4")
              "lbann --data_reader_percent=0.1" "")
  /\ snd (scheduler_commands example_env lsf
            (example_request "lassen" (Some 2) (Some 32) None None None None
               None None None None true) 35)
     = " " ++ jsrun_with 16.
Proof.
  split; [reflexivity|].
  refine (proj1 (proj2 (proj2 (lassen_process_cap example_env
            (example_request "lassen" (Some 2) (Some 32) None None None None
               None None None None true) 32 _ _))) _); reflexivity.
Defined.

(** C8. The time limit that reaches the scheduler commands is at most 360.
    The comparison with 480 on ray is therefore never true and the ray
    clamp leaves the value as it is; each time flag ([--time] of salloc and
    srun, [-W] of bsub, [--timeout] of mpirun) prints this same value, and
    the allocation and run segments of every command that [get_command]
    returns are the ones built from it. *)
Theorem time_limit_at_most_max (env : environment) (r : request) :
  let t := resolved_time_limit r in
  t <= 360
  /\ (t >? 480) = false
  /\ ray_clamp (cluster r) t = t
  /\ snd (lsf_allocate env (cluster r) (num_nodes r) (num_processes r)
            (partition r) t) = t
  /\ fst (scheduler_commands env slurm r t)
     = match getenv env "SLURM_JOB_NUM_NODES" with
       | None =>
           "salloc" ++ opt_fmt (num_nodes r) (fun n => " --nodes=" ++ fmt_d n)
             ++ opt_fmt (partition r) (fun p =>
                  " --partition="
                    ++ (if in_list (cluster r) ["pascal"]
                           && String.eqb p "pdebug"
                        then "pbatch" else p))
             ++ " --time=" ++ fmt_d t
       | Some _ => ""
       end
  /\ snd (scheduler_commands env slurm r t)
     = space_after (fst (scheduler_commands env slurm r t))
         ++ "srun --mpibind=off --time=" ++ fmt_d t
         ++ opt_fmt (num_processes r) (fun n => " --ntasks=" ++ fmt_d n)
  /\ fst (scheduler_commands env lsf r t)
     = (if is_none (getenv env "LSB_HOSTS")
           && is_none (getenv env "LSB_JOBID")
        then "bsub" ++ String.concat ""
               (lsf_flags_emitted (cluster r) (num_nodes r) (num_processes r)
                  (partition r) t)
        else "")
  /\ snd (scheduler_commands env lsf r t)
     = space_after (fst (scheduler_commands env lsf r t))
         ++ (if String.eqb (cluster r) "lassen" then "jsrun"
             else "mpirun --timeout=" ++ fmt_d t)
         ++ lsf_run_options (cluster r) (num_nodes r) (num_processes r)
  /\ (forall c, get_command env r = Return c ->
      exists sch,
        determine_scheduler (cluster r) = Return sch
        /\ c = pack_command r
                (fst (scheduler_commands env sch r t))
                (snd (scheduler_commands env sch r t))
                (fst (lbann_command env r (initial_errors r)))
                (redirect_command r)).
Proof.
  intros t.
  assert (Hle : t <= 360) by apply resolve_time_limit_le.
  assert (Hclamp : forall c, ray_clamp c t = t)
    by (intros c; apply ray_clamp_small; lia).
  assert (Halloc : lsf_allocate env (cluster r) (num_nodes r)
                     (num_processes r) (partition r) t
                   = ((if is_none (getenv env "LSB_HOSTS")
                          && is_none (getenv env "LSB_JOBID")
                       then "bsub" ++ String.concat ""
                              (lsf_flags_emitted (cluster r) (num_nodes r)
                                 (num_processes r) (partition r) t)
                       else ""), t)).
  { destruct (is_none (getenv env "LSB_HOSTS")
              && is_none (getenv env "LSB_JOBID")) eqn:E.
    - apply andb_true_iff in E as [Eh Ej].
      rewrite lsf_allocate_emitted, Hclamp; [reflexivity|].
      split; [destruct (getenv env "LSB_HOSTS")
             | destruct (getenv env "LSB_JOBID")];
        try reflexivity; discriminate.
    - now apply lsf_allocate_allocated. }
  repeat apply conj.
  - exact Hle.
  - destruct (Z.gtb_spec t 480); [lia | reflexivity].
  - apply Hclamp.
  - now rewrite Halloc.
  - cbn [scheduler_commands fst]. unfold slurm_allocate.
    destruct (getenv env "SLURM_JOB_NUM_NODES"); reflexivity.
  - cbn [scheduler_commands fst snd]. unfold slurm_run. cbv zeta.
    now rewrite !append_assoc.
  - rewrite scheduler_commands_lsf by lia. now rewrite Halloc.
  - rewrite scheduler_commands_lsf by lia. cbn [fst snd]. unfold lsf_run.
    cbv zeta.
    destruct (String.eqb (cluster r) "lassen"); now rewrite !append_assoc.
  - intros c Hc. apply get_command_return in Hc as (sch & Hs & _ & ->).
    exists sch. split; [exact Hs | reflexivity].
Qed.

(** ** The error-log scanner *)

Lemma last_default {A : Type} (x d d' : A) (l : list A) :
  last (x :: l) d = last (x :: l) d'.
Proof.
  revert x. induction l as [|y l IH]; intros x; [reflexivity|].
  change (last (y :: l) d = last (y :: l) d'). apply IH.
Qed.

Lemma last_cons {A : Type} (x d : A) (l : list A) :
  last (x :: l) d = last l x.
Proof.
  destruct l as [|y l]; [reflexivity|].
  change (last (y :: l) d = last (y :: l) x). apply last_default.
Qed.

Lemma scan_lines_unmarked (pre rest : list string) (previous : string) :
  forallb unmarked pre = true ->
  scan_lines previous (pre ++ rest) = scan_lines (last pre previous) rest.
Proof.
  revert previous. induction pre as [|l pre IH]; intros previous H.
  - reflexivity.
  - cbn [forallb] in H. apply andb_true_iff in H as [Hl Hpre].
    unfold unmarked in Hl. apply andb_true_iff in Hl as [He Ht].
    apply negb_true_iff in He, Ht.
    cbn [app scan_lines]. rewrite He, Ht, (IH _ Hpre).
    now rewrite last_cons.
Qed.

(** C7. Scanning a log: when the first line carrying any marker carries one
    of the six failure markers, that line is returned as it is; when it
    carries only a trace marker ([Stack trace:] or the not-recoverable
    message), the line just before it is returned (the empty string when it
    is the first line of the log); when no line carries a marker, the empty
    string is returned. *)
Theorem get_error_line_scan (pre post : list string) (line : string) :
  forallb unmarked pre = true ->
  (has_marker error_markers line = true ->
   get_error_line (pre ++ line :: post) = line)
  /\ (has_marker error_markers line = false ->
      has_marker trace_markers line = true ->
      get_error_line (pre ++ line :: post) = last pre "")
  /\ get_error_line pre = "".
Proof.
  intros Hpre. unfold get_error_line. repeat apply conj.
  - intros He. rewrite (scan_lines_unmarked _ _ _ Hpre).
    cbn [scan_lines]. now rewrite He.
  - intros He Ht. rewrite (scan_lines_unmarked _ _ _ Hpre).
    cbn [scan_lines]. now rewrite He, Ht.
  - rewrite <- (app_nil_r pre) at 1.
    now rewrite (scan_lines_unmarked _ _ _ Hpre).
Qed.

Lemma get_error_line_scan_witness :
  get_error_line
    (file_lines ("starting" ++ newline ++ "some detail" ++ newline
                   ++ "Stack trace:" ++ newline))
  = "some detail" ++ newline
  /\ get_error_line
       (file_lines ("starting" ++ newline ++ "LBANN error on rank 3"
                      ++ newline ++ "Stack trace:" ++ newline))
     = "LBANN error on rank 3" ++ newline.
Proof.
  split.
  - refine (proj1 (proj2 (get_error_line_scan
              ["starting" ++ newline; "some detail" ++ newline] []
              ("Stack trace:" ++ newline) _)) _ _); reflexivity.
  - refine (proj1 (get_error_line_scan
              ["starting" ++ newline] ["Stack trace:" ++ newline]
              ("LBANN error on rank 3" ++ newline) _) _); reflexivity.
Defined.

(** ** Accumulation of application-flag errors *)

Lemma resolve_model_acc (r : request) (dir om : string) (l : list string) :
  resolve_model r dir om l
  = (fst (resolve_model r dir om []), (l ++ snd (resolve_model r dir om []))%list).
Proof.
  unfold resolve_model, append.
  destruct (model_path r), (model_folder r), (model_name r);
    cbn [is_some orb fst snd app]; now rewrite ?app_nil_r.
Qed.

Lemma resolve_data_reader_acc (r : request) (dir o : string)
  (l : list string) :
  resolve_data_reader r dir o l
  = (fst (resolve_data_reader r dir o []),
     (l ++ snd (resolve_data_reader r dir o []))%list).
Proof.
  unfold resolve_data_reader, append.
  destruct (data_reader_name r), (data_reader_path r);
    cbn [fst snd app]; now rewrite ?app_nil_r.
Qed.

Lemma resolve_optimizer_acc (r : request) (dir o : string)
  (l : list string) :
  resolve_optimizer r dir o l
  = (fst (resolve_optimizer r dir o []),
     (l ++ snd (resolve_optimizer r dir o []))%list).
Proof.
  unfold resolve_optimizer, append.
  destruct (optimizer_name r), (optimizer_path r);
    cbn [fst snd app]; now rewrite ?app_nil_r.
Qed.

Lemma resolve_paths_acc (r : request) (l : list string) :
  resolve_paths r l
  = (fst (resolve_paths r []), (l ++ path_errors r)%list).
Proof.
  unfold path_errors, resolve_paths. cbv zeta.
  destruct (dir_name r) as [dir|].
  - rewrite (resolve_model_acc r dir _ l).
    rewrite (resolve_data_reader_acc r dir _ (l ++ _)%list).
    rewrite (resolve_optimizer_acc r dir _ ((l ++ _) ++ _)%list).
    rewrite (resolve_model_acc r dir _ []).
    rewrite (resolve_data_reader_acc r dir _ ([] ++ _)%list).
    rewrite (resolve_optimizer_acc r dir _ (([] ++ _) ++ _)%list).
    unfold append. destruct (negb (names_set r)); cbn [fst snd app];
      now rewrite <- ?app_assoc.
  - unfold append. destruct (names_set r); cbn [fst snd app];
      now rewrite ?app_nil_r.
Qed.

Lemma check_data_reader_acc (r : request) (l : list string) :
  check_data_reader r l = (l ++ data_errors r)%list.
Proof.
  unfold data_errors, check_data_reader, append. cbv zeta.
  repeat match goal with
    | |- context [match ?x with _ => _ end] => destruct x
    end; cbn [app]; now rewrite ?app_nil_r.
Qed.

Lemma percent_option_acc (env : environment) (r : request)
  (l : list string) :
  percent_option env r l
  = (fst (percent_option env r []), (l ++ percent_errors env r)%list).
Proof.
  unfold percent_errors, percent_option, append.
  destruct (data_reader_percent r);
    try destruct (float_str env _); cbn [fst snd app];
    now rewrite ?app_nil_r.
Qed.

Lemma extra_step_fold (items : list (string * pyval)) (o : string)
  (l : list string) :
  fold_left extra_step items (o, l)
  = (fst (fold_left extra_step items (o, [])),
     (l ++ snd (fold_left extra_step items (o, [])))%list).
Proof.
  revert o l. induction items as [|[flag value] items IH]; intros o l.
  - cbn. now rewrite app_nil_r.
  - cbn [fold_left]. unfold extra_step at 2 4 6. unfold append.
    destruct (in_list flag allowed_flags).
    + destruct value; apply IH.
    + rewrite (IH o (l ++ _)%list), (IH o ([] ++ _)%list).
      cbn [fst snd app]. now rewrite <- app_assoc.
Qed.

Lemma extra_options_of_acc (r : request) (l : list string) :
  extra_options_of r l
  = (fst (extra_options_of r []), (l ++ extra_errors r)%list).
Proof.
  unfold extra_errors, extra_options_of.
  destruct (extra_lbann_flags r) as [[|items]|];
    try (cbn [fst snd]; now rewrite app_nil_r).
  apply extra_step_fold.
Qed.

(** The final error list is the concatenation of what each stage finds. *)
Lemma final_errors_stages (env : environment) (r : request) :
  final_errors env r
  = (initial_errors r ++ path_errors r ++ data_errors r
       ++ percent_errors env r ++ extra_errors r)%list.
Proof.
  unfold final_errors, lbann_command.
  rewrite (resolve_paths_acc r (initial_errors r)).
  destruct (fst (resolve_paths r [])) as [[om odr] oo].
  rewrite check_data_reader_acc, percent_option_acc, extra_options_of_acc.
  cbn [snd]. now rewrite <- !app_assoc.
Qed.

Lemma extra_step_errors (items : list (string * pyval)) (o : string) :
  snd (fold_left extra_step items (o, []))
  = map invalid_flag
      (filter (fun k => negb (in_list k allowed_flags)) (map fst items)).
Proof.
  revert o. induction items as [|[flag value] items IH]; intros o.
  - reflexivity.
  - cbn [fold_left map filter fst]. unfold extra_step at 2. unfold append.
    destruct (in_list flag allowed_flags); cbn [negb].
    + destruct value; apply IH.
    + rewrite extra_step_fold. cbn [snd app map]. now rewrite IH.
Qed.

Lemma extra_errors_dict (r : request) (items : list (string * pyval)) :
  extra_lbann_flags r = Some (Dict items) ->
  extra_errors r
  = map invalid_flag
      (filter (fun k => negb (in_list k allowed_flags))
         (map fst (sorted_items items))).
Proof.
  intros E. unfold extra_errors, extra_options_of. rewrite E.
  apply extra_step_errors.
Qed.

Lemma rules_cons (c : bool) (m : string) (l : list (bool * string)) :
  map snd (filter fst ((c, m) :: l)) = (when c m ++ map snd (filter fst l))%list.
Proof. destruct c; reflexivity. Qed.

Lemma initial_errors_rule (r : request) :
  initial_errors r
  = when (match extra_lbann_flags r with Some NotADict => true | _ => false end)
      not_a_dict_error.
Proof.
  unfold initial_errors, scan_extra_flags.
  destruct (extra_lbann_flags r) as [[|items]|]; reflexivity.
Qed.

Lemma path_errors_rules (r : request) :
  let dir := is_some (dir_name r) in
  path_errors r
  = (when (dir && is_some (model_path r)
             && (is_some (model_folder r) || is_some (model_name r)))
       model_path_conflict
     ++ when (dir && is_none (model_path r)
                && is_some (model_folder r) && is_none (model_name r))
          model_folder_alone
     ++ when (dir && is_none (model_path r)
                && is_none (model_folder r) && is_some (model_name r))
          model_name_alone
     ++ when (dir && is_some (data_reader_name r)
                && is_some (data_reader_path r))
          data_reader_conflict
     ++ when (dir && is_some (optimizer_name r) && is_some (optimizer_path r))
          optimizer_conflict
     ++ when (dir && negb (names_set r)) dir_name_unused
     ++ when (negb dir && names_set r) dir_name_missing)%list.
Proof.
  unfold path_errors, resolve_paths, resolve_model, resolve_data_reader,
    resolve_optimizer, names_set, append, when. cbv zeta.
  destruct (dir_name r), (model_path r), (model_folder r), (model_name r),
    (data_reader_name r), (data_reader_path r), (optimizer_name r),
    (optimizer_path r); reflexivity.
Qed.

Lemma data_errors_rules (r : request) :
  let reader := is_some (data_reader_name r) || is_some (data_reader_path r) in
  let single := is_some (data_filedir_default r) in
  let some_of_four := existsb is_some (data_file_parameters r) in
  let synthetic :=
    match data_reader_name r with
    | Some n => String.eqb n "synthetic"
    | None => false
    end in
  data_errors r
  = (when (reader && single && some_of_four) both_shapes
     ++ when (reader && negb single && negb some_of_four && negb synthetic)
          reader_without_data
     ++ when (negb reader && single) filedir_without_reader
     ++ when (negb reader && negb single && some_of_four)
          files_without_reader)%list.
Proof.
  unfold data_errors, check_data_reader, data_file_parameters, append, when.
  cbv zeta.
  destruct (data_reader_name r) as [n|];
    [destruct (String.eqb n "synthetic")|];
    destruct (data_reader_path r), (data_filedir_default r),
      (data_filedir_train_default r), (data_filename_train_default r),
      (data_filedir_test_default r), (data_filename_test_default r);
    reflexivity.
Qed.

Lemma percent_errors_rule (env : environment) (r : request) :
  percent_errors env r
  = when (negb (percent_converts env r))
      ("data_reader_percent=" ++ py_str (data_reader_percent r)
         ++ " is not a float.").
Proof.
  unfold percent_errors, percent_option, percent_converts, append, when.
  destruct (data_reader_percent r); try destruct (float_str env _);
    reflexivity.
Qed.

Lemma extra_errors_flags (r : request) :
  extra_errors r = map invalid_flag (invalid_flags r).
Proof.
  unfold invalid_flags.
  destruct (extra_lbann_flags r) as [[|items]|] eqn:E;
    [| now apply extra_errors_dict |];
    unfold extra_errors, extra_options_of; now rewrite E.
Qed.

(** The error list the code builds stage by stage is the list of the
    violated rules. *)
Lemma final_errors_usage (env : environment) (r : request) :
  final_errors env r = usage_errors env r.
Proof.
  rewrite final_errors_stages, initial_errors_rule, path_errors_rules,
    data_errors_rules, percent_errors_rule, extra_errors_flags.
  unfold usage_errors, usage_rules, names_set, data_file_parameters.
  cbv zeta. cbn [existsb]. rewrite orb_false_r, !orb_assoc.
  rewrite !rules_cons. cbn [filter map]. rewrite app_nil_r.
  now rewrite <- !app_assoc.
Qed.




(** ** Model path together with model folder *)

Lemma model_conflict_recorded (r : request) (d mp mf : string) :
  dir_name r = Some d -> model_path r = Some mp -> model_folder r = Some mf ->
  In model_path_conflict (path_errors r).
Proof.
  intros Hd Hp Hf. unfold path_errors. rewrite resolve_paths_acc.
  cbn [snd app]. unfold path_errors, resolve_paths. cbv zeta. rewrite Hd.
  unfold resolve_model. rewrite Hp, Hf. cbn [is_some orb].
  rewrite resolve_data_reader_acc, resolve_optimizer_acc.
  unfold append. cbn [snd app].
  destruct (negb (names_set r)); cbn [snd]; rewrite ?in_app_iff;
    cbn [In]; tauto.
Qed.

Lemma dir_missing_recorded (r : request) (mf : string) :
  dir_name r = None -> model_folder r = Some mf ->
  path_errors r = [dir_name_missing].
Proof.
  intros Hd Hf. unfold path_errors, resolve_paths, names_set. cbv zeta.
  now rewrite Hd, Hf.
Qed.

Lemma not_conflict_initial (r : request) :
  ~ In model_path_conflict (initial_errors r).
Proof.
  unfold initial_errors, scan_extra_flags.
  destruct (extra_lbann_flags r) as [[|items]|]; cbn [fst In];
    intuition discriminate.
Qed.

Lemma not_conflict_data (r : request) :
  ~ In model_path_conflict (data_errors r).
Proof.
  unfold data_errors, check_data_reader, append. cbv zeta.
  repeat match goal with
    | |- context [match ?x with _ => _ end] => destruct x
    end; cbn [app In]; intuition discriminate.
Qed.

Lemma not_conflict_percent (env : environment) (r : request) :
  ~ In model_path_conflict (percent_errors env r).
Proof.
  unfold percent_errors, percent_option, append.
  destruct (data_reader_percent r);
    try destruct (float_str env _); cbn [snd app In];
    intuition discriminate.
Qed.

Lemma not_conflict_extra (r : request) :
  ~ In model_path_conflict (extra_errors r).
Proof.
  destruct (extra_lbann_flags r) as [[|items]|] eqn:E.
  - unfold extra_errors, extra_options_of. rewrite E. intros [].
  - rewrite (extra_errors_dict _ _ E), in_map_iff.
    intros (k & Hk & _). discriminate Hk.
  - unfold extra_errors, extra_options_of. rewrite E. intros [].
Qed.

(** C4 (amended). When [model_path] and [model_folder] are both set, the
    call passes the blacklist gate, the executable check and the cluster
    test, and its conversions to float succeed, the call raises the
    invalid-usage exception. With
    [dir_name] set the message contains the text saying that model_path is
    set but so is at least one of model folder and model_name; with
    [dir_name] unset that violation is not recorded, and the message
    contains the text saying that dir_name is not set instead. *)
Theorem model_path_and_folder (env : environment) (r : request)
  (sch : scheduler) (mp mf : string) :
  model_path r = Some mp -> model_folder r = Some mf ->
  check_list blacklist (gate_strings r) = [] ->
  executable_check env r = Return tt ->
  determine_scheduler (cluster r) = Return sch ->
  conversions sch r = Return tt ->
  let message := "Invalid Usage: " ++ join " , " (final_errors env r) in
  get_command env r = Raise message
  /\ (is_some (dir_name r) = true ->
      In model_path_conflict (final_errors env r)
      /\ py_in model_path_conflict message = true)
  /\ (dir_name r = None ->
      path_errors r = [dir_name_missing]
      /\ py_in dir_name_missing message = true
      /\ ~ In model_path_conflict (final_errors env r)).
Proof.
  intros Hp Hf Hgate Hexe Hsch Hconv message.
  assert (Hin : forall m, In m (path_errors r) -> In m (final_errors env r)).
  { intros m Hm. rewrite final_errors_stages, !in_app_iff. tauto. }
  assert (Hmsg : forall m, In m (path_errors r) -> py_in m message = true).
  { intros m Hm. unfold message. now apply py_in_app_l, py_in_join, Hin. }
  assert (Hne : nonempty (final_errors env r) = true).
  { destruct (dir_name r) as [d|] eqn:Hd.
    - apply (nonempty_in model_path_conflict), Hin.
      now apply (model_conflict_recorded r d mp mf).
    - apply (nonempty_in dir_name_missing), Hin.
      rewrite (dir_missing_recorded r mf Hd Hf). now left. }
  repeat apply conj.
  - rewrite get_command_eq, Hgate, Hexe, Hsch, Hconv. cbn [nonempty].
    now rewrite Hne.
  - destruct (dir_name r) as [d|] eqn:Hd; [intros _|discriminate].
    pose proof (model_conflict_recorded r d mp mf Hd Hp Hf) as H.
    split; [now apply Hin | now apply Hmsg].
  - intros Hd. pose proof (dir_missing_recorded r mf Hd Hf) as E.
    split; [exact E|split].
    + apply Hmsg. rewrite E. now left.
    + rewrite final_errors_stages, !in_app_iff, E.
      pose proof (not_conflict_initial r).
      pose proof (not_conflict_data r).
      pose proof (not_conflict_percent env r).
      pose proof (not_conflict_extra r).
      cbn [In]. intuition discriminate.
Qed.

Lemma model_path_and_folder_witness :
  get_command example_env
    (example_request "catalyst" None None None None (Some "/lbann") None
       None (Some "resnet") (Some "/tmp/model.prototext") None true)
  = Raise ("Invalid Usage: " ++ model_path_conflict).
Proof.
  refine (proj1 (model_path_and_folder example_env
            (example_request "catalyst" None None None None (Some "/lbann")
               None None (Some "resnet") (Some "/tmp/model.prototext") None
               true)
            slurm "/tmp/model.prototext" "resnet" _ _ _ _ _ _)); reflexivity.
Defined.

(** C4 as stated fails: with [model_path] and [model_folder] set and
    [dir_name] left unset, the exception names the missing dir_name and
    does not contain the model_path text. With [dir_name] set and an int
    too large for a percentage, the call raises [OverflowError] at line 401
    and the violation, though recorded, is not reported. *)
Lemma model_path_and_folder_counterexample :
  get_command example_env
    (example_request "catalyst" None None None None None None
       None (Some "resnet") (Some "/tmp/model.prototext") None true)
  = Raise ("Invalid Usage: " ++ dir_name_missing)
  /\ py_in model_path_conflict ("Invalid Usage: " ++ dir_name_missing)
     = false
  /\ get_command example_env
       (with_counts
          (example_request "catalyst" None None None None (Some "/lbann")
             None None (Some "resnet") (Some "/tmp/model.prototext") None
             true)
          None None (PyInt (10 ^ 400)))
     = OverflowError.
Proof. repeat split. Qed.

(** ** Metadata without dir_name *)

Lemma scanned_with_metadata (r : request) (m s : string) :
  metadata r = Some m -> scanned_string r s ->
  s = m \/ scanned_string (with_metadata r None) s.
Proof.
  intros Hm [H|H]; [|right; right; exact H].
  unfold scanned_string, string_arguments in *.
  cbn [with_metadata cluster executable partition ckpt_dir dir_name
       data_filedir_default data_filedir_train_default
       data_filename_train_default data_filedir_test_default
       data_filename_test_default data_reader_name data_reader_path
       metadata model_folder model_name model_path optimizer_name
       optimizer_path error_file_name output_file_name].
  rewrite Hm in H. cbn [In] in *.
  repeat (destruct H as [H|H];
          [first [ injection H as <-; now left | right; left; tauto ]|]).
  contradiction.
Qed.

Lemma gate_with_metadata (r : request) (m : string) :
  metadata r = Some m ->
  existsb (fun sub => py_in sub m) blacklist = false ->
  check_list blacklist (gate_strings (with_metadata r None)) = [] ->
  check_list blacklist (gate_strings r) = [].
Proof.
  intros Hm Hclean Hgate.
  destruct (check_list blacklist (gate_strings r)) as [|x l] eqn:E;
    [reflexivity|exfalso].
  assert (Hx : In x (check_list blacklist (gate_strings r)))
    by (rewrite E; now left).
  apply in_check_list in Hx as (s & sub & Hs & Hsub & Hin & _).
  apply scanned_in_gate_strings in Hs.
  destruct (scanned_with_metadata r m s Hm Hs) as [->|Hs'].
  - assert (existsb (fun sub => py_in sub m) blacklist = true)
      by (apply existsb_exists; now exists sub).
    congruence.
  - apply scanned_in_gate_strings in Hs'.
    assert (In (s ++ " contains " ++ sub)
              (check_list blacklist (gate_strings (with_metadata r None))))
      by (apply in_check_list; now exists s, sub).
    rewrite Hgate in *. contradiction.
Qed.

Lemma lbann_command_metadata (env : environment) (r : request)
  (l : list string) :
  exists before after,
    fst (lbann_command env r l)
    = before
        ++ opt_fmt (metadata r) (fun m =>
             " --metadata=" ++ py_str (of_str (dir_name r)) ++ "/" ++ m)
        ++ after.
Proof.
  unfold lbann_command.
  destruct (resolve_paths r l) as [[[om odr] oo] l1].
  destruct (percent_option env r _) as [op l2].
  destruct (extra_options_of r l2) as [oe l3]. cbv zeta. cbn [fst].
  exists (executable r
            ++ opt_fmt (ckpt_dir r) (fun d => " --ckpt_dir=" ++ d)
            ++ data_file_options r ++ odr ++ op
            ++ (if exit_after_setup r then " --exit_after_setup" else "")),
    (opt_fmt (mini_batch_size r) (fun n => " --mini_batch_size=" ++ fmt_d n)
       ++ om
       ++ opt_fmt (num_epochs r) (fun n => " --num_epochs=" ++ fmt_d n)
       ++ oo
       ++ opt_fmt (processes_per_model r) (fun n =>
            " --procs_per_model=" ++ fmt_d n)
       ++ oe).
  now rewrite !append_assoc.
Qed.

Lemma initial_errors_metadata (r : request) (m : option string) :
  initial_errors (with_metadata r m) = initial_errors r.
Proof.
  unfold initial_errors, scan_extra_flags.
  cbn [extra_lbann_flags with_metadata].
  destruct (extra_lbann_flags r) as [[|items]|]; reflexivity.
Qed.

Lemma final_errors_metadata (env : environment) (r : request)
  (m : option string) :
  final_errors env (with_metadata r m) = final_errors env r.
Proof.
  rewrite !final_errors_stages, initial_errors_metadata. reflexivity.
Qed.

(** C10 (amended). For a call with [metadata] set and [dir_name] unset,
    whose metadata holds no blacklisted substring and which succeeds when
    metadata is left out: the call succeeds as well, metadata adds nothing
    to the error list, and the application command contains the text
    [--metadata=None/<metadata>]. *)
Theorem metadata_without_dir_name (env : environment) (r : request)
  (m : string) (c0 : command) :
  metadata r = Some m -> dir_name r = None ->
  existsb (fun sub => py_in sub m) blacklist = false ->
  get_command env (with_metadata r None) = Return c0 ->
  final_errors env r = final_errors env (with_metadata r None)
  /\ (exists sch, get_command env r = Return (built_command env sch r))
  /\ py_in ("--metadata=None/" ++ m)
       (fst (lbann_command env r (initial_errors r))) = true.
Proof.
  intros Hm Hd Hclean Hret.
  assert (Herr : final_errors env r = final_errors env (with_metadata r None))
    by (symmetry; apply final_errors_metadata).
  split; [exact Herr|].
  rewrite get_command_eq in Hret.
  destruct (nonempty (check_list blacklist
                        (gate_strings (with_metadata r None)))) eqn:Hg;
    [discriminate|].
  apply nonempty_false in Hg.
  change (executable_check env (with_metadata r None))
    with (executable_check env r) in Hret.
  change (cluster (with_metadata r None)) with (cluster r) in Hret.
  destruct (executable_check env r) eqn:Hexe; try discriminate.
  destruct (determine_scheduler (cluster r)) as [sch| | |] eqn:Hsch;
    try discriminate.
  change (conversions sch (with_metadata r None))
    with (conversions sch r) in Hret.
  destruct (conversions sch r) eqn:Hconv; try discriminate.
  destruct (nonempty (final_errors env (with_metadata r None))) eqn:Hne;
    [discriminate|].
  rewrite <- Herr in Hne.
  split.
  - exists sch.
    rewrite get_command_eq, (gate_with_metadata r m Hm Hclean Hg).
    cbn [nonempty]. now rewrite Hexe, Hsch, Hconv, Hne.
  - destruct (lbann_command_metadata env r (initial_errors r))
      as (before & after & ->).
    rewrite Hm, Hd. cbn [opt_fmt of_str py_str].
    apply py_in_app_l.
    change (" --metadata=" ++ "None" ++ "/" ++ m)
      with (" " ++ ("--metadata=None/" ++ m)).
    apply py_in_app_r, py_in_app_l, py_in_refl.
Qed.

Lemma metadata_without_dir_name_witness :
  get_command example_env
    (example_request "catalyst" None None None None None None
       (Some "meta.prototext") None None None true)
  = Return (CommandTuple "salloc --time=35" " srun --mpibind=off --time=35"
              "lbann --data_reader_percent=0.1 --metadata=None/meta.prototext"
              "")
  /\ py_in ("--metadata=None/" ++ "meta.prototext")
       (fst (lbann_command example_env
               (example_request "catalyst" None None None None None None
                  (Some "meta.prototext") None None None true) []))
     = true.
Proof.
  split; [reflexivity|].
  refine (proj2 (proj2 (metadata_without_dir_name example_env
            (example_request "catalyst" None None None None None None
               (Some "meta.prototext") None None None true)
            "meta.prototext"
            (CommandTuple "salloc --time=35" " srun --mpibind=off --time=35"
               "lbann --data_reader_percent=0.1" "")
            _ _ _ _))); reflexivity.
Defined.

(** C10 as stated fails: with [metadata] set, [dir_name] unset and no field
    that asks for dir_name, a call can still be refused for another reason;
    here a data directory is given without a data reader. *)
Lemma metadata_without_dir_name_counterexample :
  names_set
    (example_request "catalyst" None None None None None (Some "/data")
       (Some "meta.prototext") None None None true) = false
  /\ get_command example_env
       (example_request "catalyst" None None None None None (Some "/data")
          (Some "meta.prototext") None None None true)
     = Raise ("Invalid Usage: " ++ filedir_without_reader).
Proof. split; reflexivity. Qed.

(** * Further properties of the command builder *)

(** ** Fatal checks *)

Lemma in_list_In (x : string) (l : list string) :
  in_list x l = true <-> In x l.
Proof.
  unfold in_list. rewrite existsb_exists. split.
  - intros (y & Hy & E). apply String.eqb_eq in E. now subst.
  - intros H. exists x. split; [exact H | apply String.eqb_refl].
Qed.

Lemma in_list_not_In (x : string) (l : list string) :
  in_list x l = false <-> ~ In x l.
Proof.
  rewrite <- in_list_In. destruct (in_list x l); split; congruence.
Qed.

(** X1. The scheduler is slurm exactly for catalyst, corona and pascal, and
    lsf exactly for lassen and ray. A call naming any other cluster that
    passes the blacklist gate and the executable check raises
    [Unsupported Cluster: <cluster>], whatever its application flags are. *)
Theorem unsupported_cluster_is_fatal (env : environment) (r : request) :
  (determine_scheduler (cluster r) = Return slurm
   <-> In (cluster r) ["catalyst"; "corona"; "pascal"])
  /\ (determine_scheduler (cluster r) = Return lsf
      <-> In (cluster r) ["lassen"; "ray"])
  /\ (check_list blacklist (gate_strings r) = [] ->
      executable_check env r = Return tt ->
      ~ In (cluster r) known_clusters ->
      get_command env r = Raise ("Unsupported Cluster: " ++ cluster r)).
Proof.
  unfold determine_scheduler.
  destruct (in_list (cluster r) ["catalyst"; "corona"; "pascal"]) eqn:Es;
    [|destruct (in_list (cluster r) ["lassen"; "ray"]) eqn:El].
  - apply in_list_In in Es. split; [|split].
    + tauto.
    + split; [discriminate|]. intros Hl. exfalso.
      cbn [In] in Es, Hl.
      destruct Es as [E|[E|[E|[]]]]; rewrite <- E in Hl;
        intuition discriminate.
    + intros _ _ Hn. exfalso. apply Hn. unfold known_clusters.
      cbn [In] in *. tauto.
  - apply in_list_In in El. apply in_list_not_In in Es.
    split; [|split].
    + split; [discriminate | contradiction].
    + tauto.
    + intros _ _ Hn. exfalso. apply Hn. unfold known_clusters.
      cbn [In] in *. tauto.
  - apply in_list_not_In in Es, El. split; [|split].
    + split; [discriminate | contradiction].
    + split; [discriminate | contradiction].
    + intros Hgate Hexe _. rewrite get_command_eq, Hgate, Hexe.
      cbn [nonempty]. unfold determine_scheduler.
      apply in_list_not_In in Es, El. now rewrite Es, El.
Qed.

Lemma unsupported_cluster_is_fatal_witness :
  get_command example_env
    (example_request "quartz" None None None None None (Some "/data") None
       (Some "resnet") None None true)
  = Raise "Unsupported Cluster: quartz".
Proof.
  refine (proj2 (proj2 (unsupported_cluster_is_fatal example_env
            (example_request "quartz" None None None None None (Some "/data")
               None (Some "resnet") None None true))) _ _ _).
  - reflexivity.
  - reflexivity.
  - cbn. intuition discriminate.
Defined.

(** X2. When the existence check is on and the executable is missing, a
    call that passes the blacklist gate ends in a skip (with
    [skip_no_exe]) or in an exception (without), both carrying
    [Executable does not exist: <executable>]; this happens before the
    cluster is looked at and before any application flag is validated. *)
Theorem missing_executable (env : environment) (r : request) :
  check_list blacklist (gate_strings r) = [] ->
  check_executable_existence r = true ->
  path_exists env (executable r) = false ->
  get_command env r
  = if skip_no_exe r
    then Skip ("Executable does not exist: " ++ executable r)
    else Raise ("Executable does not exist: " ++ executable r).
Proof.
  intros Hgate Hcheck Hexists. rewrite get_command_eq, Hgate.
  cbn [nonempty]. unfold executable_check, process_executable_existence.
  rewrite Hcheck, Hexists. now destruct (skip_no_exe r).
Qed.

Lemma missing_executable_witness :
  get_command
    {| getenv := fun _ => None; path_exists := fun _ => false;
       float_str := fun _ => None |}
    (example_request "quartz" None None None None None (Some "/data") None
       (Some "resnet") None None true)
  = Skip "Executable does not exist: lbann".
Proof.
  refine (missing_executable
            {| getenv := fun _ => None; path_exists := fun _ => false;
               float_str := fun _ => None |}
            (example_request "quartz" None None None None None (Some "/data")
               None (Some "resnet") None None true) _ _ _); reflexivity.
Defined.

(** ** What a call reads from its environment *)

Lemma percent_option_view (env env' : environment) (r : request)
  (l : list string) :
  float_str env (data_reader_percent r) = float_str env' (data_reader_percent r) ->
  percent_option env r l = percent_option env' r l.
Proof.
  intros H. unfold percent_option.
  destruct (data_reader_percent r); try reflexivity; now rewrite H.
Qed.

Lemma lbann_command_view (env env' : environment) (r : request)
  (l : list string) :
  float_str env (data_reader_percent r) = float_str env' (data_reader_percent r) ->
  lbann_command env r l = lbann_command env' r l.
Proof.
  intros H. unfold lbann_command.
  destruct (resolve_paths r l) as [[[om odr] oo] l1].
  now rewrite (percent_option_view env env' r _ H).
Qed.

Lemma is_some_match {A B : Type} (o o' : option A) (x y : B) :
  is_some o = is_some o' ->
  match o with None => x | Some _ => y end
  = match o' with None => x | Some _ => y end.
Proof. destruct o, o'; simpl; congruence. Qed.

Lemma scheduler_commands_view (env env' : environment) (sch : scheduler)
  (r : request) (t : Z) :
  same_view env env' r ->
  scheduler_commands env sch r t = scheduler_commands env' sch r t.
Proof.
  intros (Hs & Hh & Hj & _ & _). destruct sch; unfold scheduler_commands.
  - unfold slurm_allocate.
    now rewrite (is_some_match _ _ _ _ Hs).
  - unfold lsf_allocate, is_none. now rewrite Hh, Hj.
Qed.

(** X3. The result of a call depends on its environment only through the
    presence of the three allocation variables, the existence of the
    executable it names, and the conversion of its [data_reader_percent]:
    two environments that agree on these give the same result. *)
Theorem get_command_reads (env env' : environment) (r : request) :
  same_view env env' r -> get_command env r = get_command env' r.
Proof.
  intros V. pose proof V as (_ & _ & _ & Hp & Hf).
  rewrite !get_command_eq.
  assert (Hexe : executable_check env r = executable_check env' r).
  { unfold executable_check, process_executable_existence. now rewrite Hp. }
  assert (Herr : final_errors env r = final_errors env' r).
  { unfold final_errors. now rewrite (lbann_command_view env env' r _ Hf). }
  assert (Hcmd : forall sch, built_command env sch r = built_command env' sch r).
  { intros sch. unfold built_command.
    now rewrite (scheduler_commands_view env env' sch r _ V),
      (lbann_command_view env env' r _ Hf). }
  rewrite Hexe, Herr.
  destruct (nonempty (check_list blacklist (gate_strings r))); [reflexivity|].
  destruct (executable_check env' r); try reflexivity.
  destruct (determine_scheduler (cluster r)) as [sch| | |]; try reflexivity.
  now rewrite Hcmd.
Qed.

Lemma get_command_reads_witness :
  get_command example_env
    (example_request "pascal" (Some 2) (Some 4) (Some "pdebug") None None None
       None None None None true)
  = get_command
      {| getenv := fun v => if String.eqb v "HOME" then Some "/g/g0" else None;
         path_exists := fun p => String.eqb p "lbann";
         float_str := fun _ => None |}
      (example_request "pascal" (Some 2) (Some 4) (Some "pdebug") None None
         None None None None None true).
Proof.
  refine (get_command_reads example_env
            {| getenv :=
                 fun v => if String.eqb v "HOME" then Some "/g/g0" else None;
               path_exists := fun p => String.eqb p "lbann";
               float_str := fun _ => None |}
            (example_request "pascal" (Some 2) (Some 4) (Some "pdebug") None
               None None None None None None true) _).
  repeat apply conj; reflexivity.
Defined.

(** ** The separator between allocation and run commands *)

(** X4. For either scheduler the allocation command is empty exactly when
    an allocation is already visible in the environment (for lsf: when
    either of the two variables is set), and the run command starts with a
    space exactly when an allocation command precedes it. *)
Theorem run_follows_allocation (env : environment) (sch : scheduler)
  (r : request) :
  let commands := scheduler_commands env sch r (resolved_time_limit r) in
  String.eqb (fst commands) "" = allocated env sch
  /\ starts_with " " (snd commands) = negb (allocated env sch).
Proof.
  destruct sch; cbv zeta.
  - cbn [scheduler_commands fst snd allocated].
    unfold slurm_run, slurm_allocate.
    destruct (getenv env "SLURM_JOB_NUM_NODES"); split; reflexivity.
  - rewrite scheduler_commands_lsf by apply resolved_le_480.
    cbn [fst snd allocated]. unfold lsf_run.
    destruct (is_none (getenv env "LSB_HOSTS")
              && is_none (getenv env "LSB_JOBID")) eqn:E.
    + apply andb_true_iff in E as [Eh Ej].
      rewrite lsf_allocate_emitted.
      * cbn [fst]. split; [reflexivity|].
        destruct (String.eqb (cluster r) "lassen"); reflexivity.
      * split; [destruct (getenv env "LSB_HOSTS")
               | destruct (getenv env "LSB_JOBID")];
          try reflexivity; discriminate.
    + rewrite (lsf_allocate_allocated _ _ _ _ _ _ E). cbn [fst].
      split; [reflexivity|].
      destruct (String.eqb (cluster r) "lassen"); reflexivity.
Qed.

(** ** Tuple and string results *)

Lemma gate_return_tuple (r : request) (b : bool) :
  check_list blacklist (gate_strings (with_return_tuple r b))
  = check_list blacklist (gate_strings r).
Proof.
  rewrite !check_list_pairs. unfold gate_strings, scan_extra_flags.
  cbn [with_return_tuple extra_lbann_flags].
  destruct (extra_lbann_flags r) as [[|items]|]; cbn [snd];
    rewrite ?flat_map_app; reflexivity.
Qed.

Lemma final_errors_return_tuple (env : environment) (r : request) (b : bool) :
  final_errors env (with_return_tuple r b) = final_errors env r.
Proof.
  rewrite !final_errors_stages.
  assert (E : initial_errors (with_return_tuple r b) = initial_errors r).
  { unfold initial_errors, scan_extra_flags.
    cbn [with_return_tuple extra_lbann_flags].
    destruct (extra_lbann_flags r) as [[|items]|]; reflexivity. }
  rewrite E. reflexivity.
Qed.

(** X5. [return_tuple] changes the shape of a successful result and nothing
    else. With it the call returns the four segments; without it the call
    returns their concatenation, with one space in front of the application
    command; and a call that raises or skips does so with the same
    exception either way. *)
Theorem string_joins_tuple (env : environment) (r : request) :
  match get_command env (with_return_tuple r true) with
  | Return (CommandTuple allocate run lbann redirect) =>
      get_command env (with_return_tuple r false)
      = Return (CommandString (allocate ++ run ++ " " ++ lbann ++ redirect))
  | Return (CommandString _) => False
  | Raise msg => get_command env (with_return_tuple r false) = Raise msg
  | Skip msg => get_command env (with_return_tuple r false) = Skip msg
  | OverflowError =>
      get_command env (with_return_tuple r false) = OverflowError
  end.
Proof.
  rewrite !get_command_eq, !gate_return_tuple, !final_errors_return_tuple.
  change (executable_check env (with_return_tuple r true))
    with (executable_check env r).
  change (executable_check env (with_return_tuple r false))
    with (executable_check env r).
  change (cluster (with_return_tuple r true)) with (cluster r).
  change (cluster (with_return_tuple r false)) with (cluster r).
  destruct (nonempty (check_list blacklist (gate_strings r))); [reflexivity|].
  destruct (executable_check env r); try reflexivity.
  destruct (determine_scheduler (cluster r)) as [sch| | |]; try reflexivity.
  change (conversions sch (with_return_tuple r true))
    with (conversions sch r).
  change (conversions sch (with_return_tuple r false))
    with (conversions sch r).
  destruct (conversions sch r); try reflexivity.
  destruct (nonempty (final_errors env r)); [reflexivity|].
  unfold built_command, pack_command.
  cbn [return_tuple with_return_tuple].
  assert (E : forall b,
             initial_errors (with_return_tuple r b) = initial_errors r).
  { intros b. unfold initial_errors, scan_extra_flags.
    cbn [with_return_tuple extra_lbann_flags].
    destruct (extra_lbann_flags r) as [[|items]|]; reflexivity. }
  rewrite !E. reflexivity.
Qed.

(** ** No semicolon in a returned command *)

Lemma semi_cons (c : ascii) (s : string) :
  py_in ";" (String c s) = Ascii.eqb ";" c || py_in ";" s.
Proof. cbn [py_in starts_with]. now rewrite andb_true_r. Qed.

Lemma semi_app (a b : string) :
  py_in ";" (a ++ b) = py_in ";" a || py_in ";" b.
Proof.
  induction a as [|c a IH].
  - reflexivity.
  - change (String c a ++ b) with (String c (a ++ b)).
    now rewrite !semi_cons, IH, orb_assoc.
Qed.

Lemma semi_uint (d : Decimal.uint) :
  py_in ";" (NilEmpty.string_of_uint d) = false.
Proof.
  induction d; cbn [NilEmpty.string_of_uint]; rewrite ?semi_cons, ?IHd;
    reflexivity.
Qed.

Lemma semi_fmt_d (z : Z) : py_in ";" (fmt_d z) = false.
Proof.
  unfold fmt_d, NilZero.string_of_int, NilZero.string_of_uint.
  destruct (Z.to_int z) as [d|d]; rewrite ?semi_cons;
    destruct d; try reflexivity; apply semi_uint.
Qed.

Lemma semi_sub_from (matches : string -> bool) (len : nat)
  (repl s : string) (skip : nat) :
  py_in ";" repl = false -> py_in ";" s = false ->
  py_in ";" (sub_from matches len repl skip s) = false.
Proof.
  intros Hr. revert skip. induction s as [|c s IH]; intros skip Hs.
  - reflexivity.
  - rewrite semi_cons in Hs. apply orb_false_iff in Hs as [Hc Hs].
    cbn [sub_from]. destruct skip as [|k]; [|now apply IH].
    destruct (matches (String c s)).
    + rewrite semi_app, Hr. now apply IH.
    + rewrite semi_cons, Hc. now apply IH.
Qed.

Lemma semi_py_str (v : pyval) :
  (forall s, v = PyStr s -> py_in ";" s = false) ->
  py_in ";" (py_str v) = false.
Proof.
  intros H. destruct v as [|[|]|z|s]; cbn [py_str];
    [reflexivity | reflexivity | reflexivity | apply semi_fmt_d | now apply H].
Qed.

Lemma gate_clean (r : request) (s : string) :
  check_list blacklist (gate_strings r) = [] ->
  scanned_string r s -> py_in ";" s = false.
Proof.
  intros Hgate Hs. destruct (py_in ";" s) eqn:E; [exfalso|reflexivity].
  assert (H : In (s ++ " contains " ++ ";")
                (check_list blacklist (gate_strings r))).
  { apply in_check_list. exists s, ";".
    rewrite <- scanned_in_gate_strings. repeat split; try assumption.
    now left. }
  now rewrite Hgate in H.
Qed.

Lemma clean_arguments (r : request) :
  check_list blacklist (gate_strings r) = [] ->
  Forall (fun o => semi_opt o = false) (string_arguments r).
Proof.
  intros Hgate. apply Forall_forall. intros [s|] Ho; [|reflexivity].
  apply (gate_clean r s Hgate). now left.
Qed.

Lemma semi_space_after (a : string) : py_in ";" (space_after a) = false.
Proof. unfold space_after. now destruct (String.eqb a ""). Qed.

(** Rewrites a goal about semicolons in a concatenation into its atoms and
    closes it from the hypotheses at hand. *)
Ltac semi_solve :=
  cbv zeta; cbn [semi_opt opt_fmt] in *;
  repeat rewrite semi_app; repeat rewrite semi_fmt_d;
  repeat rewrite semi_space_after;
  repeat match goal with
    | H : py_in ";" _ = false |- _ => rewrite H
    end;
  try reflexivity.

Lemma semi_scheduler_commands (env : environment) (sch : scheduler)
  (r : request) (t : Z) :
  semi_opt (partition r) = false ->
  py_in ";" (fst (scheduler_commands env sch r t)) = false
  /\ py_in ";" (snd (scheduler_commands env sch r t)) = false.
Proof.
  intros Hq.
  destruct sch; unfold scheduler_commands.
  - assert (Ha : py_in ";" (slurm_allocate env (cluster r) (num_nodes r)
                             (partition r) t) = false).
    { unfold slurm_allocate.
      destruct (getenv env "SLURM_JOB_NUM_NODES"); [reflexivity|].
      destruct (num_nodes r), (partition r) as [q|];
        cbv zeta; cbn [opt_fmt];
        try destruct (in_list (cluster r) ["pascal"] && String.eqb q "pdebug");
        semi_solve. }
    cbn [fst snd]. split; [exact Ha|].
    unfold slurm_run. destruct (num_processes r); semi_solve.
  - assert (Hrun : forall a t',
               py_in ";" a = false ->
               py_in ";" (lsf_run (cluster r) a (num_nodes r)
                            (num_processes r) t') = false).
    { intros a t' Ha. unfold lsf_run, lsf_run_options, dquote.
      destruct (String.eqb (cluster r) "lassen"), (num_nodes r) as [n|],
        (num_processes r) as [p|];
        try destruct (negb (n =? 0)); semi_solve. }
    destruct (is_none (getenv env "LSB_HOSTS")
              && is_none (getenv env "LSB_JOBID")) eqn:Ec.
    + apply andb_true_iff in Ec as [Eh Ej].
      rewrite lsf_allocate_emitted
        by (split; [destruct (getenv env "LSB_HOSTS")
                   | destruct (getenv env "LSB_JOBID")];
            try reflexivity; discriminate).
      cbn [fst snd].
      assert (Ha : py_in ";"
                     ("bsub" ++ String.concat ""
                        (lsf_flags_emitted (cluster r) (num_nodes r)
                           (num_processes r) (partition r)
                           (ray_clamp (cluster r) t))) = false).
      { unfold lsf_flags_emitted, ptile_flag, dquote. cbv zeta.
        cbn [String.concat].
        destruct (String.eqb (cluster r) "lassen"), (num_nodes r) as [n|],
          (num_processes r) as [p|], (partition r) as [q|];
          cbn [of_int py_str];
          try destruct (n =? 0); semi_solve. }
      split; [exact Ha | now apply Hrun].
    + rewrite (lsf_allocate_allocated _ _ _ _ _ _ Ec). cbn [fst snd].
      split; [reflexivity | now apply Hrun].
Qed.

Lemma semi_gpfs (s : string) :
  py_in ";" s = false -> py_in ";" (sub_scratch "gpfs1" s) = false.
Proof. intros H. now apply semi_sub_from. Qed.

Lemma semi_gscratchr (s : string) :
  py_in ";" s = false -> py_in ";" (sub_scratch "gscratchr" s) = false.
Proof. intros H. now apply semi_sub_from. Qed.

Lemma semi_labels (s : string) :
  py_in ";" s = false -> py_in ";" (sub_labels s) = false.
Proof. intros H. now apply semi_sub_from. Qed.

(** Splits the cleanliness of the string arguments into one hypothesis per
    argument. *)
Ltac clean_fields F :=
  unfold string_arguments in F;
  repeat (let H := fresh "C" in apply Forall_cons_iff in F as [H F]);
  clear F.

Lemma semi_resolve_paths (r : request) (l : list string) :
  Forall (fun o => semi_opt o = false) (string_arguments r) ->
  py_in ";" (fst (fst (fst (resolve_paths r l)))) = false
  /\ py_in ";" (snd (fst (fst (resolve_paths r l)))) = false
  /\ py_in ";" (snd (fst (resolve_paths r l))) = false.
Proof.
  intros F. clean_fields F. unfold resolve_paths. cbv zeta.
  destruct (dir_name r) as [dir|].
  - assert (Hm : forall om l0, py_in ";" om = false ->
                 py_in ";" (fst (resolve_model r dir om l0)) = false).
    { intros om l0 Hom. unfold resolve_model.
      destruct (model_path r), (model_folder r), (model_name r);
        cbn [is_some orb fst]; semi_solve. }
    assert (Hd : forall o l0, py_in ";" o = false ->
                 py_in ";" (fst (resolve_data_reader r dir o l0)) = false).
    { intros o l0 Ho. unfold resolve_data_reader.
      destruct (data_reader_name r), (data_reader_path r);
        cbn [fst]; semi_solve. }
    assert (Ho : forall o l0, py_in ";" o = false ->
                 py_in ";" (fst (resolve_optimizer r dir o l0)) = false).
    { intros o l0 Hoo. unfold resolve_optimizer.
      destruct (optimizer_name r), (optimizer_path r);
        cbn [fst]; semi_solve. }
    assert (H1 : py_in ";" (opt_fmt (model_path r)
                              (fun p => " --model=" ++ p)) = false)
      by (destruct (model_path r); semi_solve).
    assert (H2 : py_in ";" (opt_fmt (data_reader_path r)
                              (fun p => " --reader=" ++ p)) = false)
      by (destruct (data_reader_path r); semi_solve).
    assert (H3 : py_in ";" (opt_fmt (optimizer_path r)
                              (fun p => " --optimizer=" ++ p)) = false)
      by (destruct (optimizer_path r); semi_solve).
    specialize (Hm _ l H1).
    destruct (resolve_model r dir _ l) as [om l1]. cbn [fst] in Hm.
    specialize (Hd _ l1 H2).
    destruct (resolve_data_reader r dir _ l1) as [odr l2]. cbn [fst] in Hd.
    specialize (Ho _ l2 H3).
    destruct (resolve_optimizer r dir _ l2) as [oo l3]. cbn [fst] in Ho.
    cbn [fst snd]. now repeat split.
  - cbn [fst snd].
    destruct (model_path r), (data_reader_path r), (optimizer_path r);
      repeat split; semi_solve.
Qed.

Lemma semi_data_file_options (r : request) :
  Forall (fun o => semi_opt o = false) (string_arguments r) ->
  py_in ";" (data_file_options r) = false.
Proof.
  intros F. clean_fields F. unfold data_file_options.
  destruct (data_filedir_default r) as [d|].
  - destruct (in_list (cluster r) ["catalyst"; "corona"; "pascal"]);
      [reflexivity|].
    cbn [semi_opt] in *.
    destruct (String.eqb (cluster r) "lassen");
      [rewrite semi_app, semi_gpfs by assumption; reflexivity|].
    destruct (String.eqb (cluster r) "ray");
      [rewrite semi_app, semi_gscratchr by assumption; reflexivity|].
    reflexivity.
  - destruct (data_filedir_train_default r) as [dtr|]; [|reflexivity].
    destruct (data_filename_train_default r) as [ftr|]; [|reflexivity].
    destruct (data_filedir_test_default r) as [dte|]; [|reflexivity].
    destruct (data_filename_test_default r) as [fte|]; [|reflexivity].
    cbn [semi_opt] in *.
    destruct (in_list (cluster r) ["catalyst"; "corona"; "pascal"]);
      [reflexivity|].
    destruct (String.eqb (cluster r) "lassen").
    { cbv zeta. rewrite !semi_app.
      rewrite !semi_labels by now apply semi_gpfs.
      rewrite !semi_gpfs by assumption. reflexivity. }
    destruct (String.eqb (cluster r) "ray"); [|reflexivity].
    rewrite !semi_app, !semi_gscratchr by assumption. reflexivity.
Qed.

Lemma semi_percent_option (env : environment) (r : request)
  (l : list string) :
  check_list blacklist (gate_strings r) = [] ->
  (forall f, float_str env (data_reader_percent r) = Some f ->
             py_in ";" f = false) ->
  py_in ";" (fst (percent_option env r l)) = false.
Proof.
  intros Hgate Hf. unfold percent_option.
  assert (Hs : forall s, data_reader_percent r = PyStr s ->
               py_in ";" s = false).
  { intros s E. apply (gate_clean r s Hgate). right. now left. }
  destruct (data_reader_percent r) as [|b|z|s] eqn:E.
  - destruct (weekly r); reflexivity.
  - destruct (float_str env (PyBool b)) as [f|] eqn:Ef; cbn [fst].
    + rewrite semi_app, (Hf f eq_refl). reflexivity.
    + destruct b; reflexivity.
  - destruct (float_str env (PyInt z)) as [f|] eqn:Ef; cbn [fst].
    + rewrite semi_app, (Hf f eq_refl). reflexivity.
    + cbn [py_str]. semi_solve.
  - destruct (float_str env (PyStr s)) as [f|] eqn:Ef; cbn [fst].
    + rewrite semi_app, (Hf f eq_refl). reflexivity.
    + cbn [py_str]. rewrite semi_app, (Hs s eq_refl). reflexivity.
Qed.

Lemma in_insert_item (x kv : string * pyval) (l : list (string * pyval)) :
  In x (insert_item kv l) <-> x = kv \/ In x l.
Proof.
  induction l as [|h t IH]; cbn [insert_item In].
  - intuition.
  - destruct (String.leb (fst kv) (fst h)); cbn [In]; rewrite ?IH;
      intuition.
Qed.

Lemma in_sorted_items (x : string * pyval) (l : list (string * pyval)) :
  In x (sorted_items l) <-> In x l.
Proof.
  unfold sorted_items. induction l as [|h t IH]; cbn [fold_right In].
  - tauto.
  - rewrite in_insert_item, IH. intuition.
Qed.

Lemma semi_extra_fold (items : list (string * pyval)) (o : string)
  (l : list string) :
  (forall k v, In (k, v) items ->
     py_in ";" k = false /\ py_in ";" (py_str v) = false) ->
  py_in ";" o = false ->
  py_in ";" (fst (fold_left extra_step items (o, l))) = false.
Proof.
  revert o l. induction items as [|[k v] items IH]; intros o l H Ho.
  - exact Ho.
  - cbn [fold_left]. destruct (H k v (or_introl eq_refl)) as [Hk Hv].
    assert (H' : forall k' v', In (k', v') items ->
                 py_in ";" k' = false /\ py_in ";" (py_str v') = false)
      by (intros k' v' Hin; apply H; now right).
    unfold extra_step at 2.
    destruct (in_list k allowed_flags); [|now apply IH].
    destruct v; apply IH; try exact H'; cbn [py_str] in *; semi_solve.
Qed.

Lemma semi_extra_options (r : request) (l : list string) :
  check_list blacklist (gate_strings r) = [] ->
  py_in ";" (fst (extra_options_of r l)) = false.
Proof.
  intros Hgate. unfold extra_options_of.
  destruct (extra_lbann_flags r) as [[|items]|] eqn:E; try reflexivity.
  apply semi_extra_fold; [|reflexivity].
  intros k v Hin. rewrite in_sorted_items in Hin. split.
  - apply (gate_clean r k Hgate). right; right. exists items.
    split; [exact E|]. left. apply in_map_iff. exists (k, v).
    split; [reflexivity | exact Hin].
  - apply semi_py_str. intros s ->.
    apply (gate_clean r s Hgate). right; right. exists items.
    split; [exact E|]. right. apply in_map_iff. exists (k, PyStr s).
    split; [reflexivity | exact Hin].
Qed.

Lemma semi_lbann_command (env : environment) (r : request)
  (l : list string) :
  check_list blacklist (gate_strings r) = [] ->
  (forall f, float_str env (data_reader_percent r) = Some f ->
             py_in ";" f = false) ->
  py_in ";" (fst (lbann_command env r l)) = false.
Proof.
  intros Hgate Hf.
  pose proof (clean_arguments r Hgate) as F.
  pose proof (semi_resolve_paths r l F) as (Hom & Hodr & Hoo).
  pose proof (semi_data_file_options r F) as Hdf.
  unfold lbann_command.
  destruct (resolve_paths r l) as [[[om odr] oo] l1].
  cbn [fst snd] in Hom, Hodr, Hoo.
  pose proof (semi_percent_option env r (check_data_reader r l1) Hgate Hf)
    as Hp.
  destruct (percent_option env r (check_data_reader r l1)) as [op l2].
  pose proof (semi_extra_options r l2 Hgate) as He.
  destruct (extra_options_of r l2) as [oe l3].
  cbn [fst] in Hp, He. clean_fields F.
  destruct (ckpt_dir r), (metadata r), (dir_name r), (mini_batch_size r),
    (num_epochs r), (processes_per_model r), (exit_after_setup r);
    cbn [fst of_str py_str]; semi_solve.
Qed.

Lemma semi_redirect_command (r : request) :
  check_list blacklist (gate_strings r) = [] ->
  py_in ";" (redirect_command r) = false.
Proof.
  intros Hgate. pose proof (clean_arguments r Hgate) as F. clean_fields F.
  unfold redirect_command.
  destruct (output_file_name r), (error_file_name r); semi_solve.
Qed.

(** X6. For a call whose arguments have the types of [request] (a string
    or [None] for each name and path, an int or [None] for each count, and
    [None], a bool, an int or a string for the percentage and for each value
    of the extra flags): a command that [get_command] returns holds no
    semicolon in any of its segments, provided the text [float] gives for
    its [data_reader_percent] holds none. The blacklist gate keeps the
    statement separator out of everything that is built from such
    arguments. A value of another type, a list say, is not a string for
    [check_list] and is printed as [str] gives it; calls with such values
    are outside [request] and outside this statement. *)
Theorem returned_command_has_no_semicolon (env : environment) (r : request)
  (c : command) :
  (forall f, float_str env (data_reader_percent r) = Some f ->
             py_in ";" f = false) ->
  get_command env r = Return c ->
  forallb (fun s => negb (py_in ";" s)) (segments c) = true.
Proof.
  intros Hf Hret.
  assert (Hgate : check_list blacklist (gate_strings r) = []).
  { rewrite get_command_eq in Hret.
    destruct (nonempty (check_list blacklist (gate_strings r))) eqn:E;
      [discriminate | now apply nonempty_false]. }
  apply get_command_return in Hret as (sch & _ & _ & ->).
  pose proof (clean_arguments r Hgate) as F.
  assert (Hq : semi_opt (partition r) = false).
  { rewrite Forall_forall in F. apply F. unfold string_arguments.
    cbn [In]. tauto. }
  destruct (semi_scheduler_commands env sch r (resolved_time_limit r) Hq)
    as [Ha Hrun].
  pose proof (semi_lbann_command env r (initial_errors r) Hgate Hf) as Hl.
  pose proof (semi_redirect_command r Hgate) as Hd.
  unfold built_command, pack_command.
  destruct (return_tuple r); cbn [segments forallb].
  - now rewrite Ha, Hrun, Hl, Hd.
  - rewrite !semi_app, Ha, Hrun, Hl, Hd. reflexivity.
Qed.

Lemma returned_command_has_no_semicolon_witness :
  forallb (fun s => negb (py_in ";" s))
    (segments
       (CommandTuple "bsub -x -G guests -Is -n 8 -q pbatch -W 35"
          " mpirun --timeout=35 -np 8"
          "lbann --data_reader_percent=0.1 --num_gpus=2" "")) = true.
Proof.
  refine (returned_command_has_no_semicolon example_env
            (example_request "ray" None (Some 8) (Some "pbatch") None None
               None None None None (Some (Dict [("num_gpus", PyInt 2)]))
               true)
            _ _ _).
  - intros f H. discriminate H.
  - reflexivity.
Defined.

(** ** When a call is accepted *)

Lemma nil_iff_nonempty {A : Type} (l : list A) :
  l = [] <-> nonempty l = false.
Proof. symmetry. apply nonempty_false. Qed.

(** X7. The path stage records no error exactly when the path arguments
    agree: with [dir_name] set, a model given by path alone or by folder and
    name together, reader and optimizer given by name or by path but not
    both, and at least one of the four names given; with [dir_name] unset,
    none of the four names given. *)
Theorem path_errors_none (r : request) :
  path_errors r = [] <-> path_consistent r = true.
Proof.
  unfold path_errors, path_consistent, resolve_paths, resolve_model,
    resolve_data_reader, resolve_optimizer, names_set, append.
  cbv zeta.
  destruct (dir_name r), (model_path r), (model_folder r), (model_name r),
    (data_reader_name r), (data_reader_path r), (optimizer_name r),
    (optimizer_path r); cbn; split; congruence.
Qed.

(** X8. The data stage records no error exactly when reader and data
    location agree: a reader with the single default directory and none of
    the four train and test defaults; or a reader without that directory and
    with at least one of the four, or named [synthetic]; or no reader and no
    location at all. It never records more than one error. *)
Theorem data_errors_none (r : request) :
  (data_errors r = [] <-> data_consistent r = true)
  /\ (List.length (data_errors r) <= 1)%nat.
Proof.
  unfold data_errors, data_consistent, check_data_reader,
    data_file_parameters, append.
  cbv zeta.
  destruct (data_reader_name r) as [n|], (data_reader_path r),
    (data_filedir_default r), (data_filedir_train_default r),
    (data_filename_train_default r), (data_filedir_test_default r),
    (data_filename_test_default r);
    cbn [is_some is_none negb orb andb forallb existsb filter nonempty
         app List.length];
    try destruct (String.eqb n "synthetic");
    cbn [app List.length negb orb andb];
    (split; [split; congruence | lia]).
Qed.

Lemma percent_errors_none (env : environment) (r : request) :
  percent_errors env r = [] <-> percent_converts env r = true.
Proof.
  unfold percent_errors, percent_converts, percent_option, append.
  destruct (data_reader_percent r);
    try destruct (float_str env _); cbn [snd app is_some];
    split; congruence.
Qed.

Lemma extra_errors_none (r : request) :
  initial_errors r = [] /\ extra_errors r = []
  <-> extras_allowed r = true.
Proof.
  unfold extras_allowed, initial_errors, scan_extra_flags.
  destruct (extra_lbann_flags r) as [[|items]|] eqn:E; cbn [fst].
  - split; [intros [H _]; discriminate | discriminate].
  - rewrite (extra_errors_dict r items E). split.
    + intros [_ H]. apply forallb_forall. intros kv Hkv.
      destruct (in_list (fst kv) allowed_flags) eqn:Ek; [reflexivity|].
      exfalso.
      assert (Hin : In (fst kv)
                (filter (fun k => negb (in_list k allowed_flags))
                   (map fst (sorted_items items)))).
      { apply filter_In. split; [|now rewrite Ek].
        apply in_map, in_sorted_items, Hkv. }
      destruct (filter _ _); [contradiction | discriminate].
    + intros H. split; [reflexivity|].
      rewrite forallb_forall in H.
      assert (Hf : filter (fun k => negb (in_list k allowed_flags))
                     (map fst (sorted_items items)) = []).
      { destruct (filter _ _) as [|k l] eqn:Ef; [reflexivity|exfalso].
        assert (Hk : In k (k :: l)) by now left.
        rewrite <- Ef in Hk. apply filter_In in Hk as [Hk Hn].
        apply in_map_iff in Hk as (kv & <- & Hkv).
        rewrite in_sorted_items in Hkv. rewrite (H kv Hkv) in Hn.
        discriminate. }
      now rewrite Hf.
  - unfold extra_errors, extra_options_of. rewrite E. now split.
Qed.

Lemma app_nil_iff {A : Type} (l l' : list A) :
  (l ++ l')%list = [] <-> l = [] /\ l' = [].
Proof.
  split; [apply app_eq_nil | intros [-> ->]; reflexivity].
Qed.

Lemma conversions_finite (r : request) (sch : scheduler) :
  determine_scheduler (cluster r) = Return sch ->
  returns (conversions sch r) = floats_finite r.
Proof.
  unfold determine_scheduler, in_list, conversions, count_conversions,
    percent_conversion, floats_finite.
  cbn [existsb].
  repeat match goal with
    | |- context [String.eqb (cluster r) ?x] =>
        destruct (String.eqb_spec (cluster r) x) as [E|E];
        [ rewrite E; cbn [String.eqb Ascii.eqb Bool.eqb orb andb negb]
        | clear E ]
    end;
    intros H; try discriminate H; injection H as <-;
    destruct (num_processes r) as [p|], (num_nodes r) as [n|];
    try destruct (n =? 0); cbn [negb andb orb bind];
    try destruct (float_of_int p) as [x| | |];
    try destruct (float_of_int n) as [y| | |];
    destruct (data_reader_percent r) as [|b|z|t];
    try destruct (float_of_int z) as [w| | |];
    reflexivity.
Qed.

(** X9. A call returns a command exactly when it passes the blacklist
    gate, its executable is found (or the check is off), its cluster is one
    of the five known ones, its extra flags are absent or a dict of allowed
    flags, its path arguments and its data arguments agree, its
    [data_reader_percent] is absent or converts to a float, and no int that
    it converts to float is too large. *)
Theorem get_command_accepts (env : environment) (r : request) :
  returns (get_command env r) = accepted env r.
Proof.
  rewrite get_command_eq. unfold accepted.
  destruct (nonempty (check_list blacklist (gate_strings r)));
    [reflexivity|]. cbn [negb andb].
  assert (Hexe : returns (executable_check env r) = executable_found env r).
  { unfold executable_check, executable_found, process_executable_existence.
    destruct (check_executable_existence r); [|reflexivity].
    destruct (path_exists env (executable r)); [reflexivity|].
    now destruct (skip_no_exe r). }
  rewrite <- Hexe.
  destruct (executable_check env r); try reflexivity. cbn [returns andb].
  assert (Hsch : returns (determine_scheduler (cluster r))
                 = in_list (cluster r) known_clusters).
  { unfold determine_scheduler, known_clusters, in_list. cbn [existsb].
    destruct (String.eqb (cluster r) "catalyst"),
      (String.eqb (cluster r) "corona"), (String.eqb (cluster r) "pascal"),
      (String.eqb (cluster r) "lassen"), (String.eqb (cluster r) "ray");
      reflexivity. }
  rewrite <- Hsch.
  destruct (determine_scheduler (cluster r)) as [sch| | |] eqn:Hs;
    try reflexivity.
  cbn [returns andb].
  rewrite <- (conversions_finite r sch Hs).
  destruct (conversions sch r); cbn [returns];
    rewrite ?andb_false_r; try reflexivity.
  rewrite andb_true_r.
  assert (Herr : nonempty (final_errors env r)
                 = negb (extras_allowed r && path_consistent r
                         && data_consistent r && percent_converts env r)).
  { destruct (extras_allowed r && path_consistent r && data_consistent r
              && percent_converts env r) eqn:E; cbn [negb].
    - apply andb_true_iff in E as [E Hp].
      apply andb_true_iff in E as [E Hd].
      apply andb_true_iff in E as [He Hpa].
      apply extra_errors_none in He as [Hi He].
      apply path_errors_none in Hpa.
      apply (proj1 (data_errors_none r)) in Hd.
      apply percent_errors_none in Hp.
      rewrite final_errors_stages, Hi, Hpa, Hd, Hp, He. reflexivity.
    - destruct (nonempty (final_errors env r)) eqn:N; [reflexivity|exfalso].
      apply nonempty_false in N. rewrite final_errors_stages in N.
      apply app_nil_iff in N as [Hi N]. apply app_nil_iff in N as [Hpa N].
      apply app_nil_iff in N as [Hd N]. apply app_nil_iff in N as [Hp He].
      apply path_errors_none in Hpa.
      apply (proj1 (data_errors_none r)) in Hd.
      apply percent_errors_none in Hp.
      assert (Hx : extras_allowed r = true)
        by (apply extra_errors_none; now split).
      rewrite Hx, Hpa, Hd, Hp in E. discriminate. }
  rewrite Herr.
  destruct (extras_allowed r), (path_consistent r), (data_consistent r),
    (percent_converts env r); reflexivity.
Qed.

(** ** Data-file flags *)

(** X10. A data-file flag is emitted only on lassen or ray, and only when
    the single default directory or all four train and test defaults are
    given: on the slurm clusters, and for an incomplete set of the four,
    the application command carries no data-file flag. *)
Theorem data_flags_only_on_lsf (r : request) :
  String.eqb (data_file_options r) "" = false ->
  In (cluster r) ["lassen"; "ray"]
  /\ (is_some (data_filedir_default r) = true
      \/ forallb is_some (data_file_parameters r) = true).
Proof.
  unfold data_file_options, data_file_parameters.
  destruct (data_filedir_default r) as [d|].
  - destruct (in_list (cluster r) ["catalyst"; "corona"; "pascal"]);
      [discriminate|].
    destruct (String.eqb (cluster r) "lassen") eqn:El;
      [|destruct (String.eqb (cluster r) "ray") eqn:Er; [|discriminate]];
      intros _; (split; [|now left]).
    + apply String.eqb_eq in El. rewrite El. cbn. tauto.
    + apply String.eqb_eq in Er. rewrite Er. cbn. tauto.
  - destruct (data_filedir_train_default r); [|discriminate].
    destruct (data_filename_train_default r); [|discriminate].
    destruct (data_filedir_test_default r); [|discriminate].
    destruct (data_filename_test_default r); [|discriminate].
    destruct (in_list (cluster r) ["catalyst"; "corona"; "pascal"]);
      [discriminate|].
    destruct (String.eqb (cluster r) "lassen") eqn:El;
      [|destruct (String.eqb (cluster r) "ray") eqn:Er; [|discriminate]];
      intros _; (split; [|now right]).
    + apply String.eqb_eq in El. rewrite El. cbn. tauto.
    + apply String.eqb_eq in Er. rewrite Er. cbn. tauto.
Qed.

Lemma data_flags_only_on_lsf_witness :
  In "lassen" ["lassen"; "ray"]
  /\ (is_some (Some "/p/lscratchh/data") = true
      \/ forallb is_some [@None string; None; None; None] = true).
Proof.
  refine (data_flags_only_on_lsf
            (example_request "lassen" None None None None None
               (Some "/p/lscratchh/data") None None None None true) _).
  reflexivity.
Defined.

(** ** Substitution of the scratch mount *)

Lemma sub_from_prefix (matches : string -> bool) (len : nat)
  (repl pre rest : string) :
  no_match_in matches pre rest = true ->
  sub_from matches len repl 0 (pre ++ rest)
  = pre ++ sub_from matches len repl 0 rest.
Proof.
  induction pre as [|c pre IH]; intros H.
  - reflexivity.
  - cbn [no_match_in] in H. apply andb_true_iff in H as [Hm Hrest].
    apply negb_true_iff in Hm.
    change (String c pre ++ rest) with (String c (pre ++ rest)) in *.
    cbn [sub_from]. rewrite Hm, (IH Hrest). reflexivity.
Qed.

(** X11. Replacing the scratch mount: a path in which the pattern (a
    lowercase letter, [scratch], a lowercase letter) matches nowhere is
    returned as it is; and when the leftmost match starts after a prefix,
    the prefix is kept, the nine matched characters are replaced by the
    mount name, and the substitution goes on after them. *)
Theorem sub_scratch_leftmost (repl pre post : string) (c c' : ascii) :
  (no_match_in scratch_at pre "" = true -> sub_scratch repl pre = pre)
  /\ (is_lower c = true -> is_lower c' = true ->
      no_match_in scratch_at pre (String c ("scratch" ++ String c' post))
      = true ->
      sub_scratch repl (pre ++ String c ("scratch" ++ String c' post))
      = pre ++ repl ++ sub_scratch repl post).
Proof.
  unfold sub_scratch. split.
  - intros H. rewrite <- (append_nil_r pre) at 1.
    rewrite (sub_from_prefix _ _ _ _ _ H). cbn [sub_from].
    apply append_nil_r.
  - intros Hc Hc' H. rewrite (sub_from_prefix _ _ _ _ _ H). f_equal.
    cbn [sub_from]. unfold scratch_at at 1.
    rewrite Hc. cbn. rewrite Hc'. reflexivity.
Qed.

Lemma sub_scratch_leftmost_witness :
  sub_scratch "gpfs1" "/p/lscratchh/brainusr/datasets"
  = "/p/gpfs1/brainusr/datasets"
  /\ sub_scratch "gpfs1" "/usr/workspace/data" = "/usr/workspace/data".
Proof.
  split.
  - refine (proj2 (sub_scratch_leftmost "gpfs1" "/p/"
              "/brainusr/datasets" "l" "h") _ _ _); reflexivity.
  - refine (proj1 (sub_scratch_leftmost "gpfs1" "/usr/workspace/data"
              "" "a" "a") _); reflexivity.
Defined.

(** ** The order of the extra flags *)

Lemma ascii_compare_N (a b : ascii) :
  Ascii.compare a b = N.compare (N_of_ascii a) (N_of_ascii b).
Proof. reflexivity. Qed.

Lemma leb_cons (a b : ascii) (s t : string) :
  String.leb (String a s) (String b t)
  = match N.compare (N_of_ascii a) (N_of_ascii b) with
    | Eq => String.leb s t
    | Lt => true
    | Gt => false
    end.
Proof.
  unfold String.leb. cbn [String.compare]. rewrite ascii_compare_N.
  now destruct (N.compare (N_of_ascii a) (N_of_ascii b)).
Qed.

Lemma leb_trans (s1 s2 s3 : string) :
  String.leb s1 s2 = true -> String.leb s2 s3 = true ->
  String.leb s1 s3 = true.
Proof.
  revert s2 s3. induction s1 as [|a s1 IH]; intros [|b s2] [|c s3];
    try reflexivity; try discriminate.
  rewrite !leb_cons.
  destruct (N.compare_spec (N_of_ascii a) (N_of_ascii b)) as [E1|L1|G1];
    destruct (N.compare_spec (N_of_ascii b) (N_of_ascii c)) as [E2|L2|G2];
    destruct (N.compare_spec (N_of_ascii a) (N_of_ascii c)) as [E3|L3|G3];
    try discriminate; try reflexivity; try lia.
  apply IH.
Qed.

Lemma key_le_total (x y : string * pyval) : key_le x y \/ key_le y x.
Proof. apply String.leb_total. Qed.

Lemma insert_item_perm (kv : string * pyval) (l : list (string * pyval)) :
  Permutation (insert_item kv l) (kv :: l).
Proof.
  induction l as [|h t IH]; cbn [insert_item].
  - reflexivity.
  - destruct (String.leb (fst kv) (fst h)); [reflexivity|].
    rewrite IH. apply perm_swap.
Qed.

Lemma insert_item_sorted (kv : string * pyval) (l : list (string * pyval)) :
  StronglySorted key_le l -> StronglySorted key_le (insert_item kv l).
Proof.
  induction 1 as [|h t Ht IH Hh]; cbn [insert_item].
  - repeat constructor.
  - destruct (String.leb (fst kv) (fst h)) eqn:E.
    + constructor; [now constructor|]. constructor; [exact E|].
      eapply Forall_impl; [|exact Hh]. intros z Hz. unfold key_le in *.
      eapply leb_trans; eassumption.
    + constructor; [exact IH|].
      assert (Hk : key_le h kv).
      { destruct (key_le_total h kv) as [H|H]; [exact H|].
        unfold key_le in H. congruence. }
      apply Forall_forall. intros z Hz.
      apply (Permutation_in _ (insert_item_perm kv t)) in Hz.
      destruct Hz as [<-|Hz]; [exact Hk|].
      rewrite Forall_forall in Hh. now apply Hh.
Qed.

(** X12. [sorted] on the items of the extra flags: the result holds the
    same items, each as often as before, in nondecreasing order of their
    keys. *)
Theorem sorted_items_sorted (items : list (string * pyval)) :
  Permutation (sorted_items items) items
  /\ StronglySorted key_le (sorted_items items).
Proof.
  unfold sorted_items. induction items as [|kv items [IHp IHs]];
    cbn [fold_right].
  - split; [reflexivity | constructor].
  - split.
    + rewrite insert_item_perm. now apply perm_skip.
    + now apply insert_item_sorted.
Qed.

Lemma insert_item_comm (x y : string * pyval) (l : list (string * pyval)) :
  fst x <> fst y ->
  insert_item x (insert_item y l) = insert_item y (insert_item x l).
Proof.
  intros Hne.
  assert (Hxy : String.leb (fst x) (fst y) = negb (String.leb (fst y) (fst x))).
  { destruct (String.leb (fst x) (fst y)) eqn:E1,
      (String.leb (fst y) (fst x)) eqn:E2; try reflexivity.
    - exfalso. apply Hne. now apply String.leb_antisym.
    - destruct (String.leb_total (fst x) (fst y)); congruence. }
  induction l as [|h t IH]; cbn [insert_item].
  - rewrite Hxy. now destruct (String.leb (fst y) (fst x)).
  - destruct (String.leb (fst y) (fst h)) eqn:Ey,
      (String.leb (fst x) (fst h)) eqn:Ex; cbn [insert_item];
      rewrite ?Ex, ?Ey.
    + rewrite Hxy. now destruct (String.leb (fst y) (fst x)).
    + destruct (String.leb (fst x) (fst y)) eqn:E; [|reflexivity].
      rewrite (leb_trans _ _ _ E Ey) in Ex. discriminate.
    + destruct (String.leb (fst y) (fst x)) eqn:E; [|reflexivity].
      rewrite (leb_trans _ _ _ E Ex) in Ey. discriminate.
    + now rewrite IH.
Qed.

(** X13. The extra flags are emitted in an order that does not depend on
    the order in which the dict holds them: two item lists with pairwise
    distinct keys that are permutations of each other are sorted to the
    same list, and give the same extra options and the same errors. *)
Theorem extra_flags_order_independent (l1 l2 : list (string * pyval))
  (acc : string * list string) :
  Permutation l1 l2 -> NoDup (map fst l1) ->
  sorted_items l1 = sorted_items l2
  /\ fold_left extra_step (sorted_items l1) acc
     = fold_left extra_step (sorted_items l2) acc.
Proof.
  intros P N.
  assert (E : sorted_items l1 = sorted_items l2).
  { unfold sorted_items. induction P as [|x l l' P IH|x y l|l l' l'' P1 IH1 P2 IH2].
    - reflexivity.
    - cbn [fold_right]. rewrite IH; [reflexivity|].
      cbn [map] in N. now inversion N.
    - cbn [fold_right]. apply insert_item_comm.
      cbn [map] in N. inversion N as [|? ? Hin _]. subst.
      intros E. apply Hin. rewrite E. now left.
    - rewrite IH1 by exact N. apply IH2.
      eapply Permutation_NoDup; [|exact N]. now apply Permutation_map. }
  split; [exact E | now rewrite E].
Qed.

Lemma extra_flags_order_independent_witness :
  sorted_items [("num_gpus", PyInt 2); ("disable_cuda", PyNone)]
  = sorted_items [("disable_cuda", PyNone); ("num_gpus", PyInt 2)].
Proof.
  refine (proj1 (extra_flags_order_independent
            [("num_gpus", PyInt 2); ("disable_cuda", PyNone)]
            [("disable_cuda", PyNone); ("num_gpus", PyInt 2)]
            ("", []) _ _)).
  - apply perm_swap.
  - repeat constructor; cbn; intuition discriminate.
Defined.

(** * Further properties of the error-log scanner *)

Lemma scan_lines_in (previous : string) (lines : list string) :
  scan_lines previous lines = ""
  \/ scan_lines previous lines = previous
  \/ In (scan_lines previous lines) lines.
Proof.
  revert previous. induction lines as [|line rest IH]; intros previous.
  - now left.
  - cbn [scan_lines].
    destruct (has_marker error_markers line); [right; right; now left|].
    destruct (has_marker trace_markers line); [right; now left|].
    destruct (IH line) as [H|[H|H]].
    + now left.
    + right; right. left. now rewrite H.
    + right; right. now right.
Qed.

Lemma scan_lines_no_trace (previous : string) (lines : list string) :
  forallb (fun l => negb (has_marker trace_markers l)) lines = true ->
  scan_lines previous lines
  = match find (has_marker error_markers) lines with
    | Some line => line
    | None => ""
    end.
Proof.
  revert previous. induction lines as [|line rest IH]; intros previous H.
  - reflexivity.
  - cbn [forallb] in H. apply andb_true_iff in H as [Ht Hrest].
    apply negb_true_iff in Ht. cbn [scan_lines find].
    destruct (has_marker error_markers line); [reflexivity|].
    rewrite Ht. now apply IH.
Qed.

Lemma get_error_line_in (lines : list string) :
  get_error_line lines = "" \/ In (get_error_line lines) lines.
Proof.
  unfold get_error_line.
  destruct (scan_lines_in "" lines) as [H|[H|H]]; tauto.
Qed.

(** X14. [get_error_line] never makes up text: it returns the empty string
    or a line of the log. In a log without trace lines it returns the first
    line carrying a failure marker, and the empty string exactly when no
    line carries one. *)
Theorem get_error_line_is_a_line (lines : list string) :
  (get_error_line lines = "" \/ In (get_error_line lines) lines)
  /\ (forallb (fun l => negb (has_marker trace_markers l)) lines = true ->
      get_error_line lines
      = match find (has_marker error_markers) lines with
        | Some line => line
        | None => ""
        end
      /\ (get_error_line lines = ""
          <-> forallb (fun l => negb (has_marker error_markers l)) lines
              = true)).
Proof.
  unfold get_error_line. split.
  - destruct (scan_lines_in "" lines) as [H|[H|H]]; tauto.
  - intros Ht. rewrite (scan_lines_no_trace _ _ Ht). split; [reflexivity|].
    clear Ht. induction lines as [|line rest IH]; cbn [find forallb].
    + tauto.
    + destruct (has_marker error_markers line) eqn:E; cbn [negb andb].
      * split; [intros ->; discriminate E | discriminate].
      * exact IH.
Qed.

Lemma get_error_line_is_a_line_witness :
  get_error_line ["epoch 1" ++ newline; "Error: bad layer" ++ newline;
                  "ERROR later" ++ newline]
  = "Error: bad layer" ++ newline.
Proof.
  refine (proj1 (proj2 (get_error_line_is_a_line
            ["epoch 1" ++ newline; "Error: bad layer" ++ newline;
             "ERROR later" ++ newline]) _)).
  reflexivity.
Defined.

(** ** assert_success and assert_failure *)

Lemma find_expected_exists (expected : string) (lines : list string) :
  find_expected expected lines = true
  <-> exists line, In line lines /\ py_in expected line = true.
Proof.
  induction lines as [|line rest IH]; cbn [find_expected].
  - split; [discriminate | intros (l & [] & _)].
  - destruct (py_in expected line) eqn:E.
    + split; [intros _; exists line; split; [now left | exact E] | reflexivity].
    + rewrite IH. split.
      * intros (l & Hl & Hp). exists l. split; [now right | exact Hp].
      * intros (l & [<-|Hl] & Hp); [congruence|]. now exists l.
Qed.

(** X15. [assert_success] passes exactly when the return code is 0, and
    then whatever the log holds; otherwise it raises an assertion error
    whose message holds the return code, the line [get_error_line] picks
    from the log, and the name of the log. *)
Theorem assert_success_outcomes (open_file : string -> list string)
  (return_code : Z) (error_file_name : string) :
  (assert_success open_file return_code error_file_name = Holds tt
   <-> return_code = 0)
  /\ (return_code <> 0 ->
      exists msg,
        assert_success open_file return_code error_file_name
        = AssertionError msg
        /\ py_in ("return_code=" ++ fmt_d return_code) msg = true
        /\ py_in (get_error_line (open_file error_file_name)) msg = true
        /\ py_in error_file_name msg = true).
Proof.
  unfold assert_success. destruct (Z.eqb_spec return_code 0) as [E|E];
    cbn [negb].
  - split; [tauto | contradiction].
  - split; [split; [discriminate | contradiction]|]. intros _.
    eexists. split; [reflexivity|]. repeat apply conj.
    + rewrite <- append_assoc. apply py_in_self.
    + apply py_in_app_l, py_in_app_l, py_in_app_l, py_in_self.
    + do 6 apply py_in_app_l. apply py_in_refl.
Qed.

Lemma assert_success_outcomes_witness :
  exists msg,
    assert_success (fun _ => ["LBANN error: out of memory" ++ newline]) 1
      "err.txt"
    = AssertionError msg
    /\ py_in ("return_code=" ++ fmt_d 1) msg = true
    /\ py_in (get_error_line ["LBANN error: out of memory" ++ newline]) msg
       = true
    /\ py_in "err.txt" msg = true.
Proof.
  refine (proj2 (assert_success_outcomes
            (fun _ => ["LBANN error: out of memory" ++ newline]) 1
            "err.txt") _).
  discriminate.
Defined.

(** X16. [assert_failure] with return code 0 raises, whatever the log
    holds and whatever error is expected. With another return code it
    returns [True] exactly when some line of the log holds the expected
    text; in particular it does when the line [get_error_line] picks is not
    empty and holds it. Otherwise it raises an assertion error whose
    message holds the expected text and the line [get_error_line] picks. *)
Theorem assert_failure_outcomes (open_file : string -> list string)
  (return_code : Z) (expected_error error_file_name : string) :
  let lines := open_file error_file_name in
  let result :=
    assert_failure open_file return_code expected_error error_file_name in
  (return_code = 0 ->
   result
   = AssertionError
       ("return_code=0" ++ newline ++ "Success when expecting failure."
          ++ newline ++ "See " ++ error_file_name))
  /\ (return_code <> 0 ->
      (result = Holds true
       <-> exists line, In line lines /\ py_in expected_error line = true)
      /\ (get_error_line lines <> "" ->
          py_in expected_error (get_error_line lines) = true ->
          result = Holds true)
      /\ (find_expected expected_error lines = false ->
          exists msg,
            result = AssertionError msg
            /\ py_in ("expected_error=" ++ expected_error) msg = true
            /\ py_in ("actual_error=" ++ get_error_line lines) msg = true)).
Proof.
  cbv zeta. unfold assert_failure.
  destruct (Z.eqb_spec return_code 0) as [E|E].
  - split; [intros _; now rewrite E | contradiction].
  - split; [contradiction|]. intros _.
    assert (Hiff : (if find_expected expected_error
                          (open_file error_file_name)
                    then Holds true
                    else AssertionError
                           ("return_code=" ++ fmt_d return_code ++ newline
                              ++ "Failed with error different than expected."
                              ++ newline ++ "actual_error="
                              ++ get_error_line (open_file error_file_name)
                              ++ newline ++ "expected_error="
                              ++ expected_error ++ newline ++ "See "
                              ++ error_file_name)) = Holds true
                   <-> exists line, In line (open_file error_file_name)
                                    /\ py_in expected_error line = true).
    { rewrite <- find_expected_exists.
      destruct (find_expected expected_error (open_file error_file_name));
        split; congruence. }
    repeat apply conj.
    + apply Hiff.
    + apply Hiff.
    + intros Hne Hin. apply Hiff.
      exists (get_error_line (open_file error_file_name)).
      split; [|exact Hin].
      destruct (get_error_line_in (open_file error_file_name)) as [H|H];
        [contradiction | exact H].
    + intros Hf. rewrite Hf. eexists. split; [reflexivity|]. split.
      * do 8 apply py_in_app_l. rewrite <- append_assoc. apply py_in_self.
      * do 5 apply py_in_app_l. rewrite <- append_assoc. apply py_in_self.
Qed.

Lemma assert_failure_outcomes_witness :
  assert_failure (fun _ => ["LBANN error: out of memory" ++ newline]) 0
    "out of memory" "err.txt"
  = AssertionError
      ("return_code=0" ++ newline ++ "Success when expecting failure."
         ++ newline ++ "See " ++ "err.txt")
  /\ assert_failure (fun _ => ["LBANN error: out of memory" ++ newline]) 1
       "out of memory" "err.txt"
     = Holds true.
Proof.
  split.
  - refine (proj1 (assert_failure_outcomes
              (fun _ => ["LBANN error: out of memory" ++ newline]) 0
              "out of memory" "err.txt") _).
    reflexivity.
  - refine (proj1 (proj2 (proj2 (assert_failure_outcomes
              (fun _ => ["LBANN error: out of memory" ++ newline]) 1
              "out of memory" "err.txt") _)) _ _).
    + discriminate.
    + discriminate.
    + reflexivity.
Defined.

(** * Further properties of check_list and of the executable helpers *)

Lemma starts_with_split (p s : string) :
  starts_with p s = true -> exists t, s = p ++ t.
Proof.
  revert s. induction p as [|a p IH]; intros s H.
  - now exists s.
  - destruct s as [|b s]; [discriminate|]. cbn [starts_with] in H.
    apply andb_true_iff in H as [Hab Hps].
    apply Ascii.eqb_eq in Hab as ->.
    destruct (IH s Hps) as (t & ->). now exists t.
Qed.

Lemma py_in_split (sub s : string) :
  py_in sub s = true <-> exists a b, s = a ++ sub ++ b.
Proof.
  split.
  - induction s as [|c s IH]; cbn [py_in]; intros H.
    + rewrite orb_false_r in H. apply starts_with_split in H as (t & ->).
      now exists "", t.
    + apply orb_true_iff in H as [H|H].
      * apply starts_with_split in H as (t & ->). now exists "", t.
      * destruct (IH H) as (a & b & ->). now exists (String c a), b.
  - intros (a & b & ->). apply py_in_mid.
Qed.

Lemma violation_not_str (v : pyval) (substrings : list string) :
  is_str v = false -> flat_map (violation v) substrings = [].
Proof.
  intros H. induction substrings as [|sub subs IH]; [reflexivity|].
  cbn [flat_map]. rewrite IH. now destruct v.
Qed.

(** X17. [check_list] scans value by value: the result for two lists put
    together is the two results put together; values that are not strings
    add nothing; and a message is reported exactly for a string value that
    can be cut as [a ++ substring ++ b] for one of the substrings. There are
    never more messages than pairs of value and substring. *)
Theorem check_list_scans (substrings : list string)
  (strings strings' : list pyval) :
  check_list substrings (strings ++ strings')
  = (check_list substrings strings ++ check_list substrings strings')%list
  /\ check_list substrings (filter is_str strings)
     = check_list substrings strings
  /\ (forall m,
        In m (check_list substrings strings) <->
        exists a b sub,
          In sub substrings /\ In (PyStr (a ++ sub ++ b)) strings
          /\ m = (a ++ sub ++ b) ++ " contains " ++ sub)
  /\ (List.length (check_list substrings strings)
      <= List.length strings * List.length substrings)%nat.
Proof.
  rewrite !check_list_pairs. repeat apply conj.
  - apply flat_map_app.
  - induction strings as [|v vs IH]; [reflexivity|].
    cbn [filter flat_map]. destruct (is_str v) eqn:E; cbn [flat_map];
      rewrite IH; [reflexivity|].
    now rewrite (violation_not_str v substrings E).
  - intros m. rewrite <- check_list_pairs, in_check_list. split.
    + intros (s & sub & Hs & Hsub & Hin & ->).
      apply py_in_split in Hin as (a & b & ->). now exists a, b, sub.
    + intros (a & b & sub & Hsub & Hs & ->).
      exists (a ++ sub ++ b), sub. repeat split; try assumption.
      apply py_in_mid.
  - induction strings as [|v vs IH]; [reflexivity|].
    cbn [flat_map List.length]. rewrite length_app.
    assert (H : (List.length (flat_map (violation v) substrings)
                 <= List.length substrings)%nat).
    { clear. induction substrings as [|sub subs IH]; [reflexivity|].
      cbn [flat_map]. rewrite length_app. cbn [List.length].
      destruct v; cbn [violation List.length]; try lia.
      destruct (py_in sub s); cbn [List.length]; lia. }
    lia.
Qed.

(** X18. [process_executable] never raises an exception: it skips, naming
    the compiler, when the dict has no entry for it; it skips, naming the
    path, when the entry does not exist as a file; and it returns
    otherwise. *)
Theorem process_executable_skips (env : environment)
  (name compiler_name : string) (executables : dict) :
  process_executable env name compiler_name executables
  = match dict_get executables compiler_name with
    | None =>
        Skip (name ++ ": default_exes[" ++ compiler_name
                ++ "] does not exist")
    | Some path =>
        if path_exists env path then Return tt
        else Skip ("Executable does not exist: " ++ path)
    end
  /\ (forall msg,
        process_executable env name compiler_name executables
        = Raise msg -> False).
Proof.
  unfold process_executable, process_executable_existence.
  destruct (dict_get executables compiler_name) as [path|].
  - destruct (path_exists env path); split; [reflexivity | discriminate
                                            | reflexivity | discriminate].
  - split; [reflexivity | discriminate].
Qed.

Lemma dict_set_same (d : dict) (k v : string) :
  dict_get d k = Some v -> dict_set d k v = d.
Proof.
  induction d as [|[k' v'] d IH]; cbn [dict_get dict_set]; [discriminate|].
  destruct (String.eqb k k'); intros H.
  - now injection H as ->.
  - now rewrite IH.
Qed.

Lemma backup_exe_set (env : environment) (exes : dict)
  (k fallback path : string) :
  dict_get exes k = Some path ->
  backup_exe env exes k fallback
  = dict_set exes k (if path_exists env path then path else fallback).
Proof.
  intros H. unfold backup_exe. rewrite H.
  destruct (path_exists env path); [|reflexivity].
  symmetry. now apply dict_set_same.
Qed.

(** X19. [get_default_exes] always has the entry [default], the gnu
    release build of the build script. On catalyst, corona, lassen and
    pascal it also has one entry per compiler, which is the spack build
    when that file exists and the build of the build script otherwise; on
    any other cluster (ray, say) [default] is the only entry, so
    [process_executable] skips for every other compiler name. *)
Theorem default_exes_entries (env : environment)
  (default_dirname cluster : string) :
  let exes := get_default_exes env default_dirname cluster in
  dict_get exes "default"
  = Some (script_exe default_dirname cluster "gnu.Release")
  /\ (in_list cluster ["catalyst"; "corona"; "lassen"; "pascal"] = true ->
      dict_keys exes
      = ["default"; "clang6"; "gcc7"; "intel19"; "clang6_debug";
         "gcc7_debug"; "intel19_debug"]
      /\ forall k spack script,
           In (k, spack, script) compiler_builds ->
           dict_get exes k
           = Some (if path_exists env
                        (spack_exe default_dirname cluster spack)
                   then spack_exe default_dirname cluster spack
                   else script_exe default_dirname cluster script))
  /\ (in_list cluster ["catalyst"; "corona"; "lassen"; "pascal"] = false ->
      dict_keys exes = ["default"]
      /\ forall name k,
           String.eqb k "default" = false ->
           process_executable env name k exes
           = Skip (name ++ ": default_exes[" ++ k ++ "] does not exist")).
Proof.
  cbv zeta. unfold get_default_exes. cbv zeta.
  destruct (in_list cluster ["catalyst"; "corona"; "lassen"; "pascal"]).
  - rewrite (backup_exe_set env _ "clang6" _
               (spack_exe default_dirname cluster "clang-6.0.0_rel"))
      by reflexivity.
    rewrite (backup_exe_set env _ "gcc7" _
               (spack_exe default_dirname cluster "gcc-7.1.0_rel"))
      by reflexivity.
    rewrite (backup_exe_set env _ "intel19" _
               (spack_exe default_dirname cluster "intel-19.0.0_rel"))
      by reflexivity.
    rewrite (backup_exe_set env _ "clang6_debug" _
               (spack_exe default_dirname cluster "clang-6.0.0_debug"))
      by reflexivity.
    rewrite (backup_exe_set env _ "gcc7_debug" _
               (spack_exe default_dirname cluster "gcc-7.1.0_debug"))
      by reflexivity.
    rewrite (backup_exe_set env _ "intel19_debug" _
               (spack_exe default_dirname cluster "intel-19.0.0_debug"))
      by reflexivity.
    unfold get_spack_exes, copy_exe, compiler_builds.
    cbn [dict_set dict_get String.eqb Ascii.eqb Bool.eqb dict_keys map fst].
    split; [reflexivity|]. split; [|discriminate]. intros _.
    split; [reflexivity|].
    intros k spack script Hin. cbn [In] in Hin.
    repeat (destruct Hin as [Hin|Hin];
            [injection Hin as <- <- <-; reflexivity|]).
    contradiction.
  - cbn [dict_set dict_get String.eqb Ascii.eqb Bool.eqb dict_keys map fst].
    split; [reflexivity|]. split; [discriminate|]. intros _.
    split; [reflexivity|]. intros name k Hk.
    unfold process_executable. cbn [dict_get]. now rewrite Hk.
Qed.

Lemma default_exes_entries_witness :
  dict_keys (get_default_exes example_env "/usr/workspace/lbann" "ray")
  = ["default"]
  /\ dict_get (get_default_exes example_env "/usr/workspace/lbann" "pascal")
       "gcc7"
     = Some "/usr/workspace/lbann/bamboo/compiler_tests/builds/pascal_gcc-7.1.0_rel/build/model_zoo/lbann".
Proof.
  split.
  - refine (proj1 (proj2 (proj2 (default_exes_entries example_env
              "/usr/workspace/lbann" "ray")) _)).
    reflexivity.
  - refine (proj2 (proj1 (proj2 (default_exes_entries example_env
              "/usr/workspace/lbann" "pascal")) _)
              "gcc7" "gcc-7.1.0_rel" "gnu.Release" _).
    + reflexivity.
    + cbn. tauto.
Defined.

(** * Further properties of the application command *)

(** X20. The application command always starts with the executable and
    always carries the [--data_reader_percent] flag: with the value 1.0 on a
    weekly run and 0.1 otherwise when no percentage is given, and with the
    converted value when one is given and converts. *)
Theorem percent_flag_always (env : environment) (r : request)
  (l : list string) :
  let lbann := fst (lbann_command env r l) in
  starts_with (executable r) lbann = true
  /\ py_in " --data_reader_percent=" lbann = true
  /\ (data_reader_percent r = PyNone ->
      py_in (" --data_reader_percent=" ++ (if weekly r then "1.0" else "0.1"))
        lbann = true)
  /\ (forall f, data_reader_percent r <> PyNone ->
      float_str env (data_reader_percent r) = Some f ->
      py_in (" --data_reader_percent=" ++ f) lbann = true).
Proof.
  cbv zeta.
  assert (H : forall x,
             py_in x (fst (percent_option env r [])) = true ->
             py_in x (fst (lbann_command env r l)) = true).
  { intros x Hx. unfold lbann_command.
    destruct (resolve_paths r l) as [[[om odr] oo] l1].
    rewrite percent_option_acc.
    destruct (extra_options_of r _) as [oe l3]. cbn [fst].
    do 4 apply py_in_app_l. now apply py_in_app_r. }
  repeat apply conj.
  - clear H. unfold lbann_command.
    destruct (resolve_paths r l) as [[[om odr] oo] l1].
    destruct (percent_option env r (check_data_reader r l1)) as [op l2].
    destruct (extra_options_of r l2) as [oe l3]. cbn [fst].
    apply starts_with_app.
  - apply H. unfold percent_option.
    destruct (data_reader_percent r); try destruct (float_str env _);
      cbn [fst]; apply py_in_self.
  - intros E. apply H. unfold percent_option. rewrite E. apply py_in_refl.
  - intros f Hne Hf. apply H. unfold percent_option.
    destruct (data_reader_percent r); try congruence;
      rewrite Hf; apply py_in_refl.
Qed.

Lemma percent_flag_always_witness :
  py_in " --data_reader_percent=0.1"
    (fst (lbann_command example_env
            (example_request "catalyst" None None None None None None None
               None None None true) [])) = true.
Proof.
  refine (proj1 (proj2 (proj2 (percent_flag_always example_env
            (example_request "catalyst" None None None None None None None
               None None None true) []))) _).
  reflexivity.
Defined.

(** X21. A node count of zero never reaches the division by the node
    count: off lassen, the lsf allocation and run commands for zero nodes
    are those for no node count at all. *)
Theorem zero_nodes_guard (env : environment) (c a : string)
  (p : option Z) (q : option string) (t : Z) :
  String.eqb c "lassen" = false ->
  lsf_allocate env c (Some 0) p q t = lsf_allocate env c None p q t
  /\ lsf_run c a (Some 0) p t = lsf_run c a None p t.
Proof.
  intros H. unfold lsf_allocate, lsf_run, lsf_run_options. rewrite H.
  destruct p; split; reflexivity.
Qed.

Lemma zero_nodes_guard_witness :
  lsf_run "ray" "" (Some 0) (Some 8) 35 = "mpirun --timeout=35 -np 8".
Proof.
  refine (eq_trans (proj2 (zero_nodes_guard example_env "ray" ""
                             (Some 8) None 35 _)) _); reflexivity.
Defined.

Lemma concat_empty_cons (x : string) (l : list string) :
  String.concat "" (x :: l) = x ++ String.concat "" l.
Proof.
  destruct l; cbn [String.concat]; [now rewrite append_nil_r | reflexivity].
Qed.

Lemma extra_step_text (items : list (string * pyval)) (o : string)
  (l : list string) :
  fst (fold_left extra_step items (o, l))
  = o ++ String.concat ""
           (map extra_flag_text
              (filter (fun kv => in_list (fst kv) allowed_flags) items)).
Proof.
  revert o l. induction items as [|[flag value] items IH]; intros o l.
  - cbn. now rewrite append_nil_r.
  - cbn [fold_left filter fst]. unfold extra_step at 2.
    destruct (in_list flag allowed_flags).
    + cbn [map]. rewrite concat_empty_cons. unfold extra_flag_text at 1.
      cbn [fst snd].
      destruct value; rewrite IH, ?append_assoc; reflexivity.
    + apply IH.
Qed.

(** X22. The extra options of the application command are the allowed
    flags of the dict in sorted order, each as [ --flag] when its value is
    [None] and as [ --flag=value] otherwise; a flag outside the allow-list
    adds nothing to the command, and the text does not depend on the errors
    collected so far. *)
Theorem extra_options_text (r : request) (items : list (string * pyval))
  (l : list string) :
  extra_lbann_flags r = Some (Dict items) ->
  fst (extra_options_of r l)
  = String.concat ""
      (map extra_flag_text
         (filter (fun kv => in_list (fst kv) allowed_flags)
            (sorted_items items))).
Proof.
  intros E. unfold extra_options_of. rewrite E.
  now rewrite extra_step_text.
Qed.

Lemma extra_options_text_witness :
  fst (extra_options_of
         (example_request "ray" None None None None None None None None None
            (Some (Dict [("num_gpus", PyInt 2); ("zeta", PyInt 1);
                         ("disable_cuda", PyNone)])) true) [])
  = " --disable_cuda --num_gpus=2".
Proof.
  refine (eq_trans (extra_options_text
            (example_request "ray" None None None None None None None None
               None
               (Some (Dict [("num_gpus", PyInt 2); ("zeta", PyInt 1);
                            ("disable_cuda", PyNone)])) true)
            [("num_gpus", PyInt 2); ("zeta", PyInt 1);
             ("disable_cuda", PyNone)] [] _) _); reflexivity.
Defined.

(** * The lines of a log *)

Lemma file_lines_from_concat (current text : string) :
  String.concat "" (file_lines_from current text) = current ++ text.
Proof.
  revert current. induction text as [|c text IH]; intros current.
  - cbn [file_lines_from]. rewrite append_nil_r.
    now destruct current.
  - cbn [file_lines_from]. destruct (Ascii.eqb c "010").
    + rewrite concat_empty_cons, IH, append_assoc. reflexivity.
    + rewrite IH, append_assoc. reflexivity.
Qed.

Lemma file_lines_from_nonempty (current text : string) :
  forallb (fun l => negb (String.eqb l "")) (file_lines_from current text)
  = true.
Proof.
  revert current. induction text as [|c text IH]; intros current.
  - cbn [file_lines_from]. now destruct current.
  - cbn [file_lines_from]. destruct (Ascii.eqb c "010").
    + cbn [forallb]. rewrite IH. now destruct current.
    + apply IH.
Qed.

Lemma py_in_empty (s : string) : py_in "" s = true.
Proof. now destruct s. Qed.

Lemma translate_newlines_no_return (after_cr : bool) (text : string) :
  py_in carriage_return (translate_newlines after_cr text) = false.
Proof.
  unfold carriage_return. revert after_cr.
  induction text as [|c text IH]; intros after_cr; [reflexivity|].
  cbn [translate_newlines].
  destruct (Ascii.eqb c "013") eqn:Ec.
  - rewrite char_in_cons. now rewrite IH.
  - destruct (Ascii.eqb c "010" && after_cr); [apply IH|].
    now rewrite char_in_cons, Ascii.eqb_sym, Ec, IH.
Qed.

Lemma translate_newlines_id (text : string) :
  py_in carriage_return text = false -> translate_newlines false text = text.
Proof.
  unfold carriage_return.
  induction text as [|c text IH]; intros H; [reflexivity|].
  rewrite char_in_cons in H. apply orb_false_iff in H as [Hc Ht].
  cbn [translate_newlines]. rewrite Ascii.eqb_sym, Hc, andb_false_r.
  now rewrite IH.
Qed.

(** X23. Iterating over a log loses nothing of the text as the file hands
    it over, that is with every carriage return, alone or in front of a
    line feed, read as a line feed: the lines put together again are that
    text, no line is empty and the text holds no carriage return. So the
    line [get_error_line] picks is a piece of that text; it is a piece of
    the file's own text when that holds no carriage return. *)
Theorem log_lines_partition (text : string) :
  let read := translate_newlines false text in
  String.concat "" (file_lines text) = read
  /\ forallb (fun l => negb (String.eqb l "")) (file_lines text) = true
  /\ py_in (get_error_line (file_lines text)) read = true
  /\ py_in carriage_return read = false
  /\ (py_in carriage_return text = false ->
      read = text /\ py_in (get_error_line (file_lines text)) text = true).
Proof.
  intros read.
  assert (Hpiece : py_in (get_error_line (file_lines text)) read = true).
  { unfold file_lines. fold read.
    destruct (get_error_line_in (file_lines_from "" read)) as [H|H].
    - rewrite H. apply py_in_empty.
    - rewrite <- (file_lines_from_concat "" read) at 2.
      now apply (py_in_join ""). }
  split; [apply file_lines_from_concat|].
  split; [apply file_lines_from_nonempty|].
  split; [exact Hpiece|].
  split; [apply translate_newlines_no_return|].
  intros H. pose proof (translate_newlines_id text H) as E. fold read in E.
  split; [exact E | now rewrite <- E at 2].
Qed.

Lemma log_lines_partition_witness :
  file_lines ("some detail" ++ carriage_return ++ newline
                ++ "Stack trace:" ++ carriage_return ++ newline)
  = ["some detail" ++ newline; "Stack trace:" ++ newline]
  /\ get_error_line
       (file_lines ("some detail" ++ carriage_return ++ newline
                      ++ "Stack trace:" ++ carriage_return ++ newline))
     = "some detail" ++ newline
  /\ py_in
       (get_error_line (file_lines ("LBANN error" ++ newline ++ "bye")))
       ("LBANN error" ++ newline ++ "bye") = true.
Proof.
  split; [reflexivity|]. split; [reflexivity|].
  refine (proj2 (proj2 (proj2 (proj2 (proj2 (log_lines_partition
            ("LBANN error" ++ newline ++ "bye"))))) _)).
  reflexivity.
Defined.

(** * Tensor names of the layer parser *)

Lemma fmt_d_inj (a b : Z) : fmt_d a = fmt_d b -> a = b.
Proof.
  assert (H : forall z,
             NilZero.int_of_string (fmt_d z) = Some (Z.to_int z)).
  { intros z. unfold fmt_d. apply NilZero.isi; destruct z; cbn [Z.to_int];
      intros E; try discriminate E; injection E;
      apply DecimalPos.Unsigned.to_uint_nonnil. }
  intros E. apply DecimalZ.to_int_inj.
  pose proof (H a) as Ha. rewrite E, H in Ha. now injection Ha.
Qed.

Lemma append_inj_l (a x y : string) : a ++ x = a ++ y -> x = y.
Proof.
  induction a as [|c a IH]; cbn [append]; intros H; [exact H|].
  injection H as H. now apply IH.
Qed.

Lemma in_hidden_names (l : layer) (count : Z) (k : nat) (n : string) :
  In n (hidden_names l count k) ->
  exists i, count <= i /\ n = layer_name l ++ "_h" ++ fmt_d i.
Proof.
  revert count. induction k as [|k IH]; intros count; cbn [hidden_names].
  - intros [].
  - unfold createHiddenTensorName. cbv zeta. intros [<-|H].
    + exists count. split; [lia | reflexivity].
    + destruct (IH _ H) as (i & Hi & ->). exists i. split; [lia|reflexivity].
Qed.

(** X24. The names that successive calls of [createHiddenTensorName]
    return are pairwise different, whatever the counter starts at, and none
    of them is a name [getParamName] gives. *)
Theorem hidden_names_fresh (l : layer) (count : Z) (k : nat) :
  NoDup (hidden_names l count k)
  /\ forall n i, In n (hidden_names l count k) -> n <> getParamName l i.
Proof.
  split.
  - revert count. induction k as [|k IH]; intros count; cbn [hidden_names].
    + constructor.
    + unfold createHiddenTensorName. cbv zeta. constructor; [|apply IH].
      intros H. destruct (in_hidden_names _ _ _ _ H) as (i & Hi & E).
      apply append_inj_l, append_inj_l, fmt_d_inj in E. lia.
  - intros n i H E. destruct (in_hidden_names _ _ _ _ H) as (j & _ & ->).
    unfold getParamName in E. apply append_inj_l in E. discriminate E.
Qed.

Lemma split_from_nonempty (current s : string) : split_from current s <> [].
Proof.
  revert current. induction s as [|c s IH]; intros current;
    cbn [split_from]; [discriminate|].
  destruct (Ascii.eqb c " "); [discriminate | apply IH].
Qed.

Lemma split_from_join (current s : string) :
  String.concat " " (split_from current s) = current ++ s.
Proof.
  revert current. induction s as [|c s IH]; intros current;
    cbn [split_from].
  - cbn. now rewrite append_nil_r.
  - destruct (Ascii.eqb_spec c " ") as [->|Hc].
    + pose proof (split_from_nonempty "" s) as Hne.
      specialize (IH ""). cbn [String.concat].
      destruct (split_from "" s); [contradiction|].
      rewrite IH. reflexivity.
    + rewrite IH, append_assoc. reflexivity.
Qed.

Lemma split_from_no_space (current s piece : string) :
  py_in " " current = false ->
  In piece (split_from current s) -> py_in " " piece = false.
Proof.
  revert current. induction s as [|c s IH]; intros current Hc;
    cbn [split_from].
  - intros [<-|[]]. exact Hc.
  - destruct (Ascii.eqb c " ") eqn:E.
    + intros [<-|H]; [exact Hc | now apply (IH "")].
    + apply IH. rewrite char_in_app, Hc, char_in_cons, Ascii.eqb_sym, E.
      reflexivity.
Qed.

(** X25. [getLbannOutputNames] cuts [children] at its spaces: the names
    joined by single spaces are [children] again, and no name holds a
    space. [getLbannInputNames] gives one name per piece of [parents], each
    piece followed by [_0], and no name at all for empty parents. *)
Theorem layer_names_split (l : layer) :
  String.concat " " (getLbannOutputNames l) = layer_children l
  /\ (forall n, In n (getLbannOutputNames l) -> py_in " " n = false)
  /\ (layer_parents l = "" -> getLbannInputNames l = [])
  /\ (layer_parents l <> "" ->
      getLbannInputNames l
      = map (fun x => x ++ "_0") (split_space (layer_parents l))
      /\ String.concat " " (split_space (layer_parents l))
         = layer_parents l).
Proof.
  unfold getLbannOutputNames, getLbannInputNames, split_space.
  repeat apply conj.
  - destruct (layer_children l); [reflexivity|].
    cbn [String.length Nat.ltb Nat.leb]. apply split_from_join.
  - intros n. destruct (layer_children l) as [|c s]; [intros []|].
    cbn [String.length Nat.ltb Nat.leb].
    now apply split_from_no_space.
  - intros ->. reflexivity.
  - intros H. destruct (String.eqb_spec (layer_parents l) "");
      [contradiction|]. cbn [negb].
    split; [reflexivity | apply split_from_join].
Qed.

Lemma layer_names_split_witness :
  getLbannInputNames
    {| layer_name := "relu1"; layer_parents := "conv1 bias1";
       layer_children := "pool1" |}
  = ["conv1_0"; "bias1_0"].
Proof.
  refine (eq_trans (proj1 (proj2 (proj2 (proj2 (layer_names_split
            {| layer_name := "relu1"; layer_parents := "conv1 bias1";
               layer_children := "pool1" |}))) _)) _).
  - discriminate.
  - reflexivity.
Defined.
